(** * SanctifyLive: the content-model layer

    A shallow embedding of the JSON-backed models of SanctifyLive
    ([src/core/exceptions.py], [src/core/settings_manager.py],
    [src/models/*.py]) together with the properties of [spec.md] that
    concern them.

    Python values are the JSON-shaped values the models store; a [dict] is a
    finite map with string keys.  Every Python expression that can raise is a
    computation in an exception monad, and the methods of the models thread a
    [World]: the attributes of the model objects and the files they use. *)

From Stdlib Require Import Ascii Lia Sorted.
From stdpp Require Import gmap strings list fin_maps pretty sorting.

Set Warnings "-register-all".

(** ** Values *)

(** A Python [float]: a finite one is a fraction (of a power of two), the
    others are the infinities and NaN.  [json.dump] writes its [repr] and
    [json.load] reads the same float back. *)
Inductive pyfloat :=
  | Finite (num : Z) (den : positive)
  | Infinity (negative : bool)
  | NaN.

Global Instance pyfloat_eq_dec : EqDecision pyfloat.
Proof. solve_decision. Defined.

(** [x < n/d] and [x > n/d] for a float [x] and a finite constant. *)
Definition float_lt (x : pyfloat) (n : Z) (d : positive) : bool :=
  match x with
  | Finite a b => (a * Z.pos d <? n * Z.pos b)%Z
  | Infinity negative => negative
  | NaN => false
  end.
Definition float_gt (x : pyfloat) (n : Z) (d : positive) : bool :=
  match x with
  | Finite a b => (n * Z.pos b <? a * Z.pos d)%Z
  | Infinity negative => negb negative
  | NaN => false
  end.

Inductive value : Type :=
  | VNone
  | VBool (b : bool)
  | VInt (z : Z)
  | VFloat (f : pyfloat)
  | VStr (s : string)
  | VList (l : list value)
  | VDict (d : gmap string value).

Global Instance value_eq_dec : EqDecision value.
Proof.
  refine (fix go (x y : value) {struct x} : Decision (x = y) :=
    match x, y with
    | VNone, VNone => left _
    | VBool a, VBool b => cast_if (decide (a = b))
    | VInt a, VInt b => cast_if (decide (a = b))
    | VFloat a, VFloat b => cast_if (decide (a = b))
    | VStr a, VStr b => cast_if (decide (a = b))
    | VList a, VList b => cast_if (@list_eq_dec _ go a b)
    | VDict a, VDict b => cast_if (@gmap_eq_dec _ _ _ _ go a b)
    | _, _ => right _
    end); clear go; abstract congruence.
Defined.

Global Instance value_inhabited : Inhabited value := populate VNone.

(** [bool(v)] *)
Definition truthy (v : value) : bool :=
  match v with
  | VNone => false
  | VBool b => b
  | VInt z => negb (Z.eqb z 0)
  | VFloat f => match f with Finite 0 _ => false | _ => true end
  | VStr s => negb (bool_decide (s = ""))
  | VList l => negb (bool_decide (l = []))
  | VDict d => negb (bool_decide (d = ∅))
  end.

(** [type(v).__name__] *)
Definition type_name (v : value) : string :=
  match v with
  | VNone => "NoneType"
  | VBool _ => "bool"
  | VInt _ => "int"
  | VFloat _ => "float"
  | VStr _ => "str"
  | VList _ => "list"
  | VDict _ => "dict"
  end.

(** [isinstance(v, str)], [isinstance(v, list)], [isinstance(v, dict)];
    [isinstance(v, int)] also holds of a [bool], as in Python. *)
Definition is_str (v : value) : bool := match v with VStr _ => true | _ => false end.
Definition is_list (v : value) : bool := match v with VList _ => true | _ => false end.
Definition is_dict (v : value) : bool := match v with VDict _ => true | _ => false end.
Definition is_bool (v : value) : bool := match v with VBool _ => true | _ => false end.
Definition is_int (v : value) : bool :=
  match v with VInt _ | VBool _ => true | _ => false end.

(** The integer an [int] (or a [bool]) stands for in comparisons. *)
Definition int_of (v : value) : option Z :=
  match v with
  | VInt z => Some z
  | VBool b => Some (if b then 1 else 0)%Z
  | _ => None
  end.

(** [str(v)] as it appears in messages.  The text of a float, a list or a
    dict is abbreviated: no property below depends on it. *)
Definition py_str (v : value) : string :=
  match v with
  | VNone => "None"
  | VBool b => if b then "True" else "False"
  | VInt z => pretty z
  | VFloat _ => "<float>"
  | VStr s => s
  | VList _ => "[...]"
  | VDict _ => "{...}"
  end.

(** ** Strings *)

Definition lower_ascii (c : ascii) : ascii :=
  let n := nat_of_ascii c in
  if (65 <=? n) && (n <=? 90) then ascii_of_nat (n + 32) else c.

(** [s.lower()], on the ASCII letters. *)
Fixpoint lower (s : string) : string :=
  match s with
  | EmptyString => EmptyString
  | String c s' => String (lower_ascii c) (lower s')
  end.

(** The white space of [str.strip]: TAB..CR, FS..US and the space. *)
Definition is_space (c : ascii) : bool :=
  let n := nat_of_ascii c in
  ((9 <=? n) && (n <=? 13)) || ((28 <=? n) && (n <=? 32)).

Fixpoint lstrip (s : string) : string :=
  match s with
  | EmptyString => EmptyString
  | String c s' => if is_space c then lstrip s' else s
  end.

Definition rstrip (s : string) : string := String.rev (lstrip (String.rev s)).

(** [s.strip()] *)
Definition strip (s : string) : string := rstrip (lstrip s).

Fixpoint startswith (p s : string) : bool :=
  match p, s with
  | EmptyString, _ => true
  | String a p', String b s' => bool_decide (a = b) && startswith p' s'
  | String _ _, EmptyString => false
  end.

Definition endswith (p s : string) : bool :=
  startswith (String.rev p) (String.rev s).

(** [q in s] on strings *)
Fixpoint str_contains (q s : string) : bool :=
  startswith q s ||
  match s with
  | EmptyString => false
  | String _ s' => str_contains q s'
  end.

(** [s.split(c)] for a one-character separator *)
Fixpoint split_go (c : ascii) (cur : string) (s : string) : list string :=
  match s with
  | EmptyString => [String.rev cur]
  | String a s' =>
      if bool_decide (a = c) then String.rev cur :: split_go c EmptyString s'
      else split_go c (String a cur) s'
  end.
Definition split (c : ascii) (s : string) : list string := split_go c EmptyString s.

(** [s.rfind(c)]: the text before and after the last [c], when there is one. *)
Fixpoint rpartition (c : ascii) (s : string) : option (string * string) :=
  match s with
  | EmptyString => None
  | String a s' =>
      match rpartition c s' with
      | Some (h, t) => Some (String a h, t)
      | None => if bool_decide (a = c) then Some (EmptyString, s') else None
      end
  end.

(** [s.rsplit(c, 1)] *)
Definition rsplit1 (c : ascii) (s : string) : list string :=
  match rpartition c s with
  | Some (h, t) => [h; t]
  | None => [s]
  end.

Fixpoint all_char (c : ascii) (s : string) : bool :=
  match s with
  | EmptyString => true
  | String a s' => bool_decide (a = c) && all_char c s'
  end.

Fixpoint rstrip_char (c : ascii) (s : string) : string :=
  match s with
  | EmptyString => EmptyString
  | String a s' =>
      match rstrip_char c s' with
      | EmptyString => if bool_decide (a = c) then EmptyString else String a EmptyString
      | r => String a r
      end
  end.

(** ** [os.path] (posixpath) *)

Definition os_path_basename (p : string) : string :=
  match rpartition "/" p with
  | Some (_, t) => t
  | None => p
  end.

Definition os_path_dirname (p : string) : string :=
  match rpartition "/" p with
  | Some (h, _) =>
      let head := h +:+ "/" in
      if all_char "/" head then head else rstrip_char "/" head
  | None => ""
  end.

Definition os_path_join (a b : string) : string :=
  if startswith "/" b then b
  else if bool_decide (a = "") || endswith "/" a then a +:+ b
  else a +:+ "/" +:+ b.

(** [os.path.splitext(p)]: the extension starts at the last dot of the last
    component, unless only dots come before it in that component. *)
Definition os_path_splitext (p : string) : string * string :=
  let base := os_path_basename p in
  match rpartition "." base with
  | Some (stem, ext) =>
      if all_char "." stem then (p, "")
      else (String.substring 0 (String.length p - S (String.length ext)) p,
            "." +:+ ext)
  | None => (p, "")
  end.

(** ** Exceptions *)

(** [core/exceptions.py]: the one exception type of the application. *)
Record SanctifyError := mkSanctifyError {
  module : string;
  error_code : string;
  message : string
}.

(** [SanctifyError.__init__] *)
Definition SanctifyError_init (module error_code message : string) : SanctifyError :=
  {| module := module;
     error_code := error_code;
     message := "[" +:+ module +:+ "] " +:+ error_code +:+ ": " +:+ message |}.

(** The built-in exceptions the modelled expressions can raise. *)
Inductive exc_class :=
  | KeyError | TypeError | AttributeError | IndexError | ValueError
  | FileNotFoundError | JSONDecodeError.

Inductive exn :=
  | Sanctify (e : SanctifyError)
  | PyError (cls : exc_class) (text : string).

(** [str(e)] *)
Definition str_exn (e : exn) : string :=
  match e with
  | Sanctify s => message s
  | PyError _ text => text
  end.

Inductive result (A : Type) :=
  | Ok (a : A)
  | Raise (e : exn).
Arguments Ok {A} a.
Arguments Raise {A} e.

Definition rbind {A B} (c : result A) (k : A -> result B) : result B :=
  match c with
  | Ok a => k a
  | Raise e => Raise e
  end.

Notation "'let?' x ':=' c 'in' k" := (rbind c (fun x => k))
  (at level 10, x pattern, c at level 100, k at level 200).

(** ** Operations on values that can raise *)

Definition no_attribute (v : value) (attr : string) : exn :=
  PyError AttributeError ("'" +:+ type_name v +:+ "' object has no attribute '" +:+ attr +:+ "'").

(** [v[k]] for a string key *)
Definition py_getitem (v : value) (k : string) : result value :=
  match v with
  | VDict d =>
      match d !! k with
      | Some x => Ok x
      | None => Raise (PyError KeyError ("'" +:+ k +:+ "'"))
      end
  | VList _ => Raise (PyError TypeError "list indices must be integers or slices, not str")
  | VStr _ => Raise (PyError TypeError "string indices must be integers, not 'str'")
  | _ => Raise (PyError TypeError ("'" +:+ type_name v +:+ "' object is not subscriptable"))
  end.

(** [v.get(k, default)] *)
Definition py_get (v : value) (k : string) (dflt : value) : result value :=
  match v with
  | VDict d => Ok (default dflt (d !! k))
  | _ => Raise (no_attribute v "get")
  end.

(** [v.copy()] *)
Definition py_copy (v : value) : result value :=
  match v with
  | VDict _ | VList _ => Ok v
  | _ => Raise (no_attribute v "copy")
  end.

(** [v[k] = x] *)
Definition py_setitem (v : value) (k : string) (x : value) : result value :=
  match v with
  | VDict d => Ok (VDict (<[k := x]> d))
  | VList _ => Raise (PyError TypeError "list indices must be integers or slices, not str")
  | _ => Raise (PyError TypeError ("'" +:+ type_name v +:+ "' object does not support item assignment"))
  end.

(** [k in v] for a string [k] *)
Definition py_contains (k : string) (v : value) : result bool :=
  match v with
  | VDict d => Ok (bool_decide (is_Some (d !! k)))
  | VList l => Ok (bool_decide (VStr k ∈ l))
  | VStr s => Ok (str_contains k s)
  | _ => Raise (PyError TypeError ("argument of type '" +:+ type_name v +:+ "' is not iterable"))
  end.

(** [v.lower()], [v.strip()] *)
Definition py_lower (v : value) : result string :=
  match v with
  | VStr s => Ok (lower s)
  | _ => Raise (no_attribute v "lower")
  end.

Definition py_strip (v : value) : result string :=
  match v with
  | VStr s => Ok (strip s)
  | _ => Raise (no_attribute v "strip")
  end.

(** [any(f(x) for x in l)]: stops at the first true element. *)
Fixpoint py_any {A} (f : A -> result bool) (l : list A) : result bool :=
  match l with
  | [] => Ok false
  | x :: l' =>
      match f x with
      | Ok true => Ok true
      | Ok false => py_any f l'
      | Raise e => Raise e
      end
  end.

(** [next((x for x in l if f(x)), None)] *)
Fixpoint py_next {A} (f : A -> result bool) (l : list A) : result (option A) :=
  match l with
  | [] => Ok None
  | x :: l' =>
      match f x with
      | Ok true => Ok (Some x)
      | Ok false => py_next f l'
      | Raise e => Raise e
      end
  end.

(** [[x for x in l if f(x)]] *)
Fixpoint py_filter {A} (f : A -> result bool) (l : list A) : result (list A) :=
  match l with
  | [] => Ok []
  | x :: l' =>
      let? b := f x in
      let? r := py_filter f l' in
      Ok (if b then x :: r else r)
  end.

(** [[f(x) for x in l]] *)
Fixpoint py_map {A B} (f : A -> result B) (l : list A) : result (list B) :=
  match l with
  | [] => Ok []
  | x :: l' =>
      let? y := f x in
      let? r := py_map f l' in
      Ok (y :: r)
  end.

(** [l.remove(x)]: drops the first element equal to [x]. *)
Fixpoint remove_first (x : value) (l : list value) : option (list value) :=
  match l with
  | [] => None
  | y :: l' =>
      if decide (y = x) then Some l'
      else match remove_first x l' with
           | Some r => Some (y :: r)
           | None => None
           end
  end.

Definition py_list_remove (x : value) (l : list value) : result (list value) :=
  match remove_first x l with
  | Some r => Ok r
  | None => Raise (PyError ValueError "list.remove(x): x not in list")
  end.

(** [sorted(l, key=...)] on a list already paired with its keys: a stable
    sort, so the order it returns is the one of Python's. *)
Section Sorted.
Context {K A : Type} (le : K -> K -> bool).

Fixpoint insert_by (x : K * A) (l : list (K * A)) : list (K * A) :=
  match l with
  | [] => [x]
  | y :: l' => if le x.1 y.1 then x :: y :: l' else y :: insert_by x l'
  end.

Definition sort_by (l : list (K * A)) : list (K * A) :=
  foldr insert_by [] l.

Definition py_sorted (key : A -> result K) (l : list A) : result (list A) :=
  let? keyed := py_map (fun x => let? k := key x in Ok (k, x)) l in
  Ok ((sort_by keyed).*2).
End Sorted.

(** ** The world: model objects and files *)

(** A file either holds a JSON document, which [json.load] returns and
    [json.dump] wrote, or text that [json.load] rejects.  Directories are not
    modelled: they exist once [os.makedirs] has run. *)
Inductive file :=
  | JsonFile (doc : value)
  | RawFile (text : string).

Record World := mkWorld {
  (* SettingsManager *)
  config_file : string;
  ui_font : string;                   (* [QFont("Arial", 12).toString()] *)
  settings : gmap string value;
  restart_required : bool;
  emitted : list (string * string * value);   (* [settings_changed.emit] *)
  (* SongModel, MediaModel, ThemeModel *)
  songs : list value;
  media : list value;
  themes : list value;
  (* PresentationModel, with its optional references to the two models above *)
  presentations : list value;
  media_model : bool;
  theme_model : bool;
  (* ScriptureModel *)
  bible_root : value;
  bibles : gmap string value;
  (* the file system *)
  disk : gmap string file
}.

Definition set_settings (x : gmap string value) (w : World) : World :=
  mkWorld (config_file w) (ui_font w) x (restart_required w) (emitted w)
    (songs w) (media w) (themes w) (presentations w) (media_model w) (theme_model w)
    (bible_root w) (bibles w) (disk w).
Definition set_restart_required (x : bool) (w : World) : World :=
  mkWorld (config_file w) (ui_font w) (settings w) x (emitted w)
    (songs w) (media w) (themes w) (presentations w) (media_model w) (theme_model w)
    (bible_root w) (bibles w) (disk w).
Definition set_emitted (x : list (string * string * value)) (w : World) : World :=
  mkWorld (config_file w) (ui_font w) (settings w) (restart_required w) x
    (songs w) (media w) (themes w) (presentations w) (media_model w) (theme_model w)
    (bible_root w) (bibles w) (disk w).
Definition set_songs (x : list value) (w : World) : World :=
  mkWorld (config_file w) (ui_font w) (settings w) (restart_required w) (emitted w)
    x (media w) (themes w) (presentations w) (media_model w) (theme_model w)
    (bible_root w) (bibles w) (disk w).
Definition set_media (x : list value) (w : World) : World :=
  mkWorld (config_file w) (ui_font w) (settings w) (restart_required w) (emitted w)
    (songs w) x (themes w) (presentations w) (media_model w) (theme_model w)
    (bible_root w) (bibles w) (disk w).
Definition set_themes (x : list value) (w : World) : World :=
  mkWorld (config_file w) (ui_font w) (settings w) (restart_required w) (emitted w)
    (songs w) (media w) x (presentations w) (media_model w) (theme_model w)
    (bible_root w) (bibles w) (disk w).
Definition set_presentations (x : list value) (w : World) : World :=
  mkWorld (config_file w) (ui_font w) (settings w) (restart_required w) (emitted w)
    (songs w) (media w) (themes w) x (media_model w) (theme_model w)
    (bible_root w) (bibles w) (disk w).
Definition set_bibles (x : gmap string value) (w : World) : World :=
  mkWorld (config_file w) (ui_font w) (settings w) (restart_required w) (emitted w)
    (songs w) (media w) (themes w) (presentations w) (media_model w) (theme_model w)
    (bible_root w) x (disk w).
Definition set_disk (x : gmap string file) (w : World) : World :=
  mkWorld (config_file w) (ui_font w) (settings w) (restart_required w) (emitted w)
    (songs w) (media w) (themes w) (presentations w) (media_model w) (theme_model w)
    (bible_root w) (bibles w) x.

(** A method: it reads and writes the world and returns or raises.  The
    world it leaves is kept when it raises, as Python keeps the mutations
    made before a [raise]. *)
Definition M (A : Type) : Type := World -> result A * World.

Definition ret {A} (a : A) : M A := fun w => (Ok a, w).
Definition raise {A} (e : exn) : M A := fun w => (Raise e, w).
Definition lift {A} (r : result A) : M A := fun w => (r, w).
Definition bind {A B} (c : M A) (k : A -> M B) : M B :=
  fun w =>
    match c w with
    | (Ok a, w') => k a w'
    | (Raise e, w') => (Raise e, w')
    end.
Definition get {A} (f : World -> A) : M A := fun w => (Ok (f w), w).
Definition modify (f : World -> World) : M unit := fun w => (Ok tt, f w).

Notation "'let!' x ':=' c 'in' k" := (bind c (fun x => k))
  (at level 10, x pattern, c at level 100, k at level 200).

(** [try: body / except ... as e: handler(e)] *)
Definition try_except {A} (body : M A) (handler : exn -> M A) : M A :=
  fun w =>
    match body w with
    | (Raise e, w') => handler e w'
    | r => r
    end.

(** [raise SanctifyError(module, error_code, message)] *)
Definition raise_sanctify {A} (module error_code message : string) : M A :=
  raise (Sanctify (SanctifyError_init module error_code message)).

(** The pair of handlers that closes most methods:
    [except SanctifyError as e: raise e] and
    [except Exception as e: raise SanctifyError(module, code, f"{prefix}{e}")]. *)
Definition reraise_or_wrap {A} (module error_code prefix : string) (e : exn) : M A :=
  match e with
  | Sanctify _ => raise e
  | PyError _ _ => raise_sanctify module error_code (prefix +:+ str_exn e)
  end.

(** The single handler
    [except Exception as e: raise SanctifyError(module, code, f"{prefix}{e}")],
    which also wraps a [SanctifyError] raised in the body. *)
Definition wrap {A} (module error_code prefix : string) (e : exn) : M A :=
  raise_sanctify module error_code (prefix +:+ str_exn e).

(** [for x in l: body(x)] *)
Fixpoint for_each {A} (l : list A) (body : A -> M unit) : M unit :=
  match l with
  | [] => ret tt
  | x :: l' => let! _ := body x in for_each l' body
  end.

(** ** Files *)

(** A value used as a path by [os.path] or [open]. *)
Definition as_path (v : value) : result string :=
  match v with
  | VStr p => Ok p
  | _ => Raise (PyError TypeError
           ("expected str, bytes or os.PathLike object, not " +:+ type_name v))
  end.

Definition no_such_file (p : string) : exn :=
  PyError FileNotFoundError ("[Errno 2] No such file or directory: '" +:+ p +:+ "'").

Definition os_path_exists (p : string) : M bool :=
  get (fun w => bool_decide (is_Some (disk w !! p))).

Definition os_makedirs (d : string) : M unit :=
  if bool_decide (d = "") then raise (no_such_file d) else ret tt.

(** [with open(p, 'r', encoding='utf-8') as f: json.load(f)] *)
Definition json_load (p : string) : M value :=
  fun w =>
    match disk w !! p with
    | Some (JsonFile doc) => (Ok doc, w)
    | Some (RawFile _) =>
        (Raise (PyError JSONDecodeError "Expecting value: line 1 column 1 (char 0)"), w)
    | None => (Raise (no_such_file p), w)
    end.

(** [with open(p, 'w', encoding='utf-8') as f: json.dump(v, f, indent=4, ensure_ascii=False)] *)
Definition json_dump (v : value) (p : string) : M unit :=
  modify (fun w => set_disk (<[p := JsonFile v]> (disk w)) w).

(** [shutil.copy2(src, dst)] *)
Definition shutil_copy2 (src dst : string) : M unit :=
  fun w =>
    match disk w !! src with
    | Some f => (Ok tt, set_disk (<[dst := f]> (disk w)) w)
    | None => (Raise (no_such_file src), w)
    end.

(** [os.remove(p)] *)
Definition os_remove (p : string) : M unit :=
  fun w =>
    match disk w !! p with
    | Some _ => (Ok tt, set_disk (delete p (disk w)) w)
    | None => (Raise (no_such_file p), w)
    end.

(** [os.rename(src, dst)] *)
Definition os_rename (src dst : string) : M unit :=
  fun w =>
    match disk w !! src with
    | Some f => (Ok tt, set_disk (<[dst := f]> (delete src (disk w))) w)
    | None => (Raise (no_such_file src), w)
    end.

(** ** Iteration and unpacking *)

Fixpoint chars (s : string) : list value :=
  match s with
  | EmptyString => []
  | String c s' => VStr (String c EmptyString) :: chars s'
  end.

(** [iter(v)]; a dict yields its keys (in key order here, insertion order
    not being part of the model). *)
Definition py_iter (v : value) : result (list value) :=
  match v with
  | VList l => Ok l
  | VStr s => Ok (chars s)
  | VDict d => Ok (VStr <$> (map_to_list d).*1)
  | _ => Raise (PyError TypeError ("'" +:+ type_name v +:+ "' object is not iterable"))
  end.

(** [a, b = v] *)
Definition py_unpack2 (v : value) : result (value * value) :=
  let? l := py_iter v in
  match l with
  | [a; b] => Ok (a, b)
  | _ :: _ :: _ :: _ => Raise (PyError ValueError "too many values to unpack (expected 2)")
  | _ => Raise (PyError ValueError
           ("not enough values to unpack (expected 2, got " +:+ pretty (length l) +:+ ")"))
  end.

(** [v.split(",")] *)
Definition py_split_comma (v : value) : result (list string) :=
  match v with
  | VStr s => Ok (split "," s)
  | _ => Raise (no_attribute v "split")
  end.

(** ** [core/settings_manager.py]: reading a setting *)

Definition dict (l : list (string * value)) : value := VDict (list_to_map l).

(** [SettingsManager.default_settings] *)
Definition default_settings (ui_font : string) : gmap string value :=
  list_to_map [
    ("general", dict [
       ("startup_screen", VStr "Songs");
       ("language", VStr "English");
       ("enable_tips", VBool true);
       ("window_geometry", dict [("width", VInt 1280); ("height", VInt 720);
                                 ("x", VInt 100); ("y", VInt 100)])]);
    ("appearance", dict [
       ("theme", VStr "Light");
       ("ui_font", VStr ui_font);
       ("enable_animations", VBool true)]);
    ("paths", dict [
       ("songs", VStr "data/songs/songs.json");
       ("media", VStr "data/media");
       ("media_metadata", VStr "data/media/media.json");
       ("presentations", VStr "data/presentations/presentations.json");
       ("themes", VStr "data/themes/themes.json");
       ("bibles", VStr "data/bibles")]);
    ("behavior", dict [
       ("auto_save_interval", VInt 300);
       ("confirm_before_delete", VBool true);
       ("default_playback_speed", VFloat (Finite 1 1))]);
    ("advanced", dict [
       ("developer_mode", VBool false);
       ("log_level", VStr "INFO")]);
    ("accessibility", dict [
       ("high_contrast", VBool false)])
  ].

(** [SettingsManager.get_setting] *)
Definition get_setting (section key : string) (dflt : value) : M value :=
  try_except
    (let! s := get settings in
     let! sec := lift (py_getitem (VDict s) section) in
     lift (py_getitem sec key))
    (fun e =>
       match e with
       | PyError KeyError _ =>
           match dflt with
           | VNone =>
               let! font := get ui_font in
               let! sec := lift (py_get (VDict (default_settings font)) section (VDict ∅)) in
               lift (py_get sec key VNone)
           | _ => ret dflt
           end
       | _ =>
           raise_sanctify "SettingsManager" "GET_001"
             ("Error retrieving setting " +:+ section +:+ "." +:+ key +:+ ": " +:+ str_exn e)
       end).

(** [f"{type(v)}"] *)
Definition class_of (v : value) : string := "<class '" +:+ type_name v +:+ "'>".

(** ** Helpers shared by the models *)

(** [if k not in d: d[k] = v] *)
Definition setdefault (d : value) (k : string) (v : result value) : result value :=
  let? present := py_contains k d in
  if present then Ok d else let? v := v in py_setitem d k v.

(** [x["name"].lower()] *)
Definition name_lower (x : value) : result string :=
  let? n := py_getitem x "name" in py_lower n.

(** [x["id"] == id] *)
Definition has_id (id : string) (x : value) : result bool :=
  let? i := py_getitem x "id" in Ok (bool_decide (i = VStr id)).

(** [next((x for x in l if x["id"] == id), None)] *)
Definition find_by_id (id : string) (l : list value) : result value :=
  let? r := py_next (has_id id) l in Ok (default VNone r).

(** [d.update(other)] *)
Definition py_update (d other : value) : result value :=
  match d, other with
  | VDict a, VDict b => Ok (VDict (b ∪ a))
  | VDict _, _ =>
      Raise (PyError TypeError ("'" +:+ type_name other +:+ "' object is not iterable"))
  | _, _ => Raise (no_attribute d "update")
  end.

(** The test shared by the [search_*] methods of these models:
    [query in x["name"].lower() or any(query in t.lower() for t in
    x.get("tags", "").split(","))], and then the tag filter. *)
Definition matches_search (query tag : string) (x : value) : result bool :=
  let? n := name_lower x in
  let? matches_query :=
    if str_contains query n then Ok true
    else
      let? tags := py_get x "tags" (VStr "") in
      let? ts := py_split_comma tags in
      Ok (existsb (fun t => str_contains query (lower t)) ts) in
  let? matches_tag :=
    if bool_decide (tag = "") then Ok true
    else
      let? tags := py_get x "tags" (VStr "") in
      let? tags := py_lower tags in
      Ok (str_contains tag tags) in
  Ok (matches_query && matches_tag).

(** The loop of the [get_all_tags] methods, for one record:
    [for tag in x.get("tags", "").split(","): tag = tag.strip();
    if tag: tags.add(tag)]. *)
Definition tags_in (x : value) : result (list string) :=
  let? tags := py_get x "tags" (VStr "") in
  let? ts := py_split_comma tags in
  Ok (filter (fun t => t <> "") (strip <$> ts)).

(** [for x in l: ...] over the records, from the set [tags] *)
Fixpoint add_tags (tags : gset string) (l : list value) : result (gset string) :=
  match l with
  | [] => Ok tags
  | x :: l' => let? ts := tags_in x in add_tags (tags ∪ list_to_set ts) l'
  end.

(** [sorted(tags)] for a set of strings: the strings of a set are distinct,
    so the order in which the set is read does not show in the result. *)
Definition sorted_set (tags : gset string) : list string :=
  (sort_by String.leb ((fun t => (t, t)) <$> elements tags)).*2.

(** [tags = set(); for x in l: ...; return sorted(tags)] *)
Definition all_tags (l : list value) : result value :=
  let? tags := add_tags ∅ l in Ok (VList (VStr <$> sorted_set tags)).

(** [l if not wanted else [x for x in l if x[k] == wanted]], the filter of
    [get_all_media] and [get_all_themes] *)
Definition only_with (k wanted : string) (l : list value) : result (list value) :=
  if bool_decide (wanted = "") then Ok l
  else py_filter (fun x => let? c := py_getitem x k in Ok (bool_decide (c = VStr wanted))) l.

Definition has_str (d : gmap string value) (k : string) : bool :=
  match d !! k with
  | Some (VStr _) => true
  | _ => false
  end.

(** ["k" in d and isinstance(d["k"], str) and d["k"].strip()] *)
Definition has_text (d : gmap string value) (k : string) : bool :=
  match d !! k with
  | Some (VStr s) => negb (bool_decide (strip s = ""))
  | _ => false
  end.

(** ["k" in d and d["k"] in options] for a list of strings *)
Definition has_one_of (d : gmap string value) (k : string) (options : list string) : bool :=
  match d !! k with
  | Some v => bool_decide (v ∈ VStr <$> options)
  | None => false
  end.

(** ** [models/song_model.py] *)

Module SongModel.

Definition is_section (section : value) : bool :=
  match section with
  | VList [a; b] => is_str a && is_str b
  | _ => false
  end.

(** [_validate_song].  Every subscript and method call in it is guarded by
    the [isinstance] test before it, so its own handler ([VALIDATE_001]) is
    never entered and the result is a plain truth value. *)
Definition _validate_song (song : value) : bool :=
  match song with
  | VDict d =>
      match d !! "title" with
      | Some (VStr t) => truthy (VStr (strip t))
      | _ => false
      end
      && match d !! "sections" with
         | Some (VList l) => forallb is_section l
         | _ => false
         end
      && has_str d "tags"
      && has_str d "created_at"
      && has_str d "updated_at"
  | _ => false
  end.

Definition songs_path : M value :=
  get_setting "paths" "songs" (VStr "data/songs/songs.json").

Definition _save_songs : M unit :=
  let! songs_path := songs_path in
  try_except
    (let! p := lift (as_path songs_path) in
     let! _ := os_makedirs (os_path_dirname p) in
     let! l := get songs in
     json_dump (VList l) p)
    (wrap "SongModel" "SAVE_001" ("Error saving songs to " +:+ py_str songs_path +:+ ": ")).

Definition _load_songs : M unit :=
  let! songs_path := songs_path in
  match songs_path with
  | VStr p =>
      let! _ := modify (set_songs []) in
      let! found := os_path_exists p in
      if found then
        try_except
          (let! loaded_songs := json_load p in
           match loaded_songs with
           | VList items =>
               for_each items (fun song =>
                 if _validate_song song
                 then modify (fun w => set_songs (songs w ++ [song]) w)
                 else (* logger.warning(f"... {song.get('title', 'Unknown')}") *)
                   let! _ := lift (py_get song "title" (VStr "Unknown")) in ret tt)
           | _ =>
               raise_sanctify "SongModel" "LOAD_001" ("Songs file " +:+ p +:+ " is not a list")
           end)
          (fun e =>
             match e with
             | PyError JSONDecodeError _ =>
                 raise_sanctify "SongModel" "LOAD_002"
                   ("Error decoding JSON from " +:+ p +:+ ": " +:+ str_exn e)
             | _ =>
                 raise_sanctify "SongModel" "LOAD_003"
                   ("Error loading songs from " +:+ p +:+ ": " +:+ str_exn e)
             end)
      else _save_songs
  | _ =>
      raise_sanctify "SongModel" "PATH_001"
        ("Invalid songs path type: " +:+ class_of songs_path +:+ ", expected string")
  end.

(** [song["title"].lower()] *)
Definition title_lower (song : value) : result string :=
  let? t := py_getitem song "title" in py_lower t.

Definition get_song_by_title (title : string) : M value :=
  try_except
    (let! l := get songs in
     let! r := lift (py_next (fun song =>
                 let? t := title_lower song in Ok (bool_decide (t = lower title))) l) in
     ret (default VNone r))
    (wrap "SongModel" "GET_BY_TITLE_001"
       ("Error retrieving song by title " +:+ title +:+ ": ")).

Definition get_all_songs : M value :=
  try_except
    (let! l := get songs in
     let! r := lift (py_sorted String.leb title_lower l) in
     ret (VList r))
    (wrap "SongModel" "GET_ALL_001" "Error retrieving songs: ").

Definition search_songs (query search_mode tag : string) : M value :=
  let query := strip (lower query) in
  try_except
    (let tag := strip (lower tag) in
     let! l := get songs in
     let! results := lift (py_filter (fun song =>
       let? matches_query :=
         if bool_decide (search_mode = "title") then
           let? t := title_lower song in Ok (str_contains query t)
         else if bool_decide (search_mode = "lyrics") then
           let? secs := py_get song "sections" (VList []) in
           let? secs := py_iter secs in
           py_any (fun section =>
             let? kv := py_unpack2 section in
             let? text := py_lower kv.2 in
             Ok (str_contains query text)) secs
         else if bool_decide (search_mode = "tags") then
           let? tags := py_get song "tags" (VStr "") in
           let? ts := py_split_comma tags in
           Ok (existsb (fun t => str_contains query (lower t)) ts)
         else Ok false in
       let? matches_tag :=
         if bool_decide (tag = "") then Ok true
         else let? tags := py_get song "tags" (VStr "") in
              let? tags := py_lower tags in
              Ok (str_contains tag tags) in
       Ok (matches_query && matches_tag)) l) in
     let! r := lift (py_sorted String.leb title_lower results) in
     ret (VList r))
    (wrap "SongModel" "SEARCH_001"
       ("Error searching songs with query " +:+ query +:+ ": ")).

Definition get_all_tags : M value :=
  try_except
    (let! l := get songs in lift (all_tags l))
    (wrap "SongModel" "GET_TAGS_001" "Error retrieving tags: ").

Definition append_song (song : value) : M unit :=
  modify (fun w => set_songs (songs w ++ [song]) w).

Definition add_song (song_data : value) (now : string) : M value :=
  try_except
    (let! title := lift (let? t := py_get song_data "title" (VStr "") in py_strip t) in
     if negb (truthy (VStr title)) then
       raise_sanctify "SongModel" "ADD_001" "Cannot add song: title is empty"
     else
     let! l := get songs in
     let! taken := lift (py_any (fun song =>
                     let? a := title_lower song in
                     let? b := title_lower song_data in
                     Ok (bool_decide (a = b))) l) in
     if taken then
       let! t := lift (py_getitem song_data "title") in
       raise_sanctify "SongModel" "ADD_002"
         ("Cannot add song: title '" +:+ py_str t +:+ "' already exists")
     else
     let! song_data := lift (
       let? d := py_copy song_data in
       let? d := py_setitem d "created_at" (VStr now) in
       let? d := py_setitem d "updated_at" (VStr now) in
       let? d := setdefault d "sections" (Ok (VList [])) in
       setdefault d "tags" (Ok (VStr ""))) in
     if negb (_validate_song song_data) then
       let! t := lift (py_getitem song_data "title") in
       raise_sanctify "SongModel" "ADD_003"
         ("Cannot add song: invalid data for '" +:+ py_str t +:+ "'")
     else
     let! _ := append_song song_data in
     let! _ := _save_songs in
     ret (VBool true))
    (reraise_or_wrap "SongModel" "ADD_004" "Error adding song: ").

Definition update_song (old_title : string) (song_data : value) (now : string) : M value :=
  try_except
    (let! song := get_song_by_title old_title in
     if negb (truthy song) then
       raise_sanctify "SongModel" "UPDATE_001"
         ("Cannot update song: title '" +:+ old_title +:+ "' not found")
     else
     let! renamed := lift (
       let? t := py_get song_data "title" (VStr "") in
       let? t := py_strip t in
       if truthy (VStr t) then
         let? b := title_lower song_data in
         Ok (negb (bool_decide (b = lower old_title)))
       else Ok false) in
     let! l := get songs in
     let! taken :=
       if renamed then
         lift (py_any (fun s =>
           let? a := title_lower s in
           if negb (bool_decide (a = lower old_title)) then
             let? a := title_lower s in
             let? b := title_lower song_data in
             Ok (bool_decide (a = b))
           else Ok false) l)
       else ret false in
     if taken then
       let! t := lift (py_getitem song_data "title") in
       raise_sanctify "SongModel" "UPDATE_002"
         ("Cannot update song: new title '" +:+ py_str t +:+ "' already exists")
     else
     let! song_data := lift (
       let? d := py_copy song_data in
       let? d := py_setitem d "updated_at" (VStr now) in
       let? created := py_getitem song "created_at" in
       let? d := py_setitem d "created_at" created in
       let? d := setdefault d "sections" (py_getitem song "sections") in
       setdefault d "tags" (py_getitem song "tags")) in
     if negb (_validate_song song_data) then
       let! t := lift (py_getitem song_data "title") in
       raise_sanctify "SongModel" "UPDATE_003"
         ("Cannot update song: invalid data for '" +:+ py_str t +:+ "'")
     else
     let! l := get songs in
     let! l := lift (py_list_remove song l) in
     let! _ := modify (set_songs l) in
     let! _ := append_song song_data in
     let! _ := _save_songs in
     ret (VBool true))
    (reraise_or_wrap "SongModel" "UPDATE_004" "Error updating song: ").

Definition delete_song (title : string) : M value :=
  try_except
    (let! song := get_song_by_title title in
     if negb (truthy song) then
       raise_sanctify "SongModel" "DELETE_001"
         ("Cannot delete song: title '" +:+ title +:+ "' not found")
     else
     let! l := get songs in
     let! l := lift (py_list_remove song l) in
     let! _ := modify (set_songs l) in
     let! _ := _save_songs in
     ret (VBool true))
    (reraise_or_wrap "SongModel" "DELETE_002" "Error deleting song: ").

Definition duplicate_song (title : string) (now : string) : M value :=
  try_except
    (let! song := get_song_by_title title in
     if negb (truthy song) then
       raise_sanctify "SongModel" "DUPLICATE_001"
         ("Cannot duplicate song: title '" +:+ title +:+ "' not found")
     else
     let! t := lift (py_getitem song "title") in
     let new_title := py_str t +:+ " (Copy)" in
     let! l := get songs in
     let! taken := lift (py_any (fun s =>
                     let? a := title_lower s in
                     Ok (bool_decide (a = lower new_title))) l) in
     if taken then
       raise_sanctify "SongModel" "DUPLICATE_002"
         ("Cannot duplicate song: title '" +:+ new_title +:+ "' already exists")
     else
     let! new_song := lift (
       let? d := py_copy song in
       let? d := py_setitem d "title" (VStr new_title) in
       let? d := py_setitem d "created_at" (VStr now) in
       let? created := py_getitem d "created_at" in
       py_setitem d "updated_at" created) in
     let! _ := append_song new_song in
     let! _ := _save_songs in
     ret (VBool true))
    (reraise_or_wrap "SongModel" "DUPLICATE_003" "Error duplicating song: ").

(** [SongModel.__init__] *)
Definition init : M unit :=
  let! _ := modify (set_songs []) in
  try_except _load_songs (wrap "SongModel" "INIT_001" "Initialization failed: ").

End SongModel.

(** ** [core/settings_manager.py] *)

Module SettingsManager.

(** [_merge_settings].  The loop body reads [result[key]] while [result] is
    being built; the keys of [loaded] are distinct, so the order in which
    they are visited does not change the outcome. *)
Fixpoint _merge_settings (defaults : gmap string value) (loaded : value)
    {struct loaded} : result (gmap string value) :=
  match loaded with
  | VDict items =>
      map_fold (fun key value acc =>
        let? result := acc in
        match result !! key with
        | Some (VDict sub) =>
            if is_dict value then
              let? merged := _merge_settings sub value in
              Ok (<[key := VDict merged]> result)
            else Ok (<[key := value]> result)
        | _ => Ok (<[key := value]> result)
        end) (Ok defaults) items
  | _ => Raise (no_attribute loaded "items")
  end.

Definition _save_settings : M unit :=
  try_except
    (let! p := get config_file in
     let! s := get settings in
     json_dump (VDict s) p)
    (fun e =>
       let! p := get config_file in
       wrap "SettingsManager" "SAVE_001" ("Error saving settings to " +:+ p +:+ ": ") e).

(** [value not in options] for a list of strings *)
Definition not_in (v : value) (options : list string) : bool :=
  negb (bool_decide (v ∈ VStr <$> options)).

(** One step of the inner loop of [_validate_settings]: whether the value
    is to be reset to its default. *)
Definition invalid_setting (section key : string) (v : value) : bool :=
  if bool_decide (section = "general") then
    if bool_decide (key = "startup_screen")
       && not_in v ["Songs"; "Scriptures"; "Media"; "Presentations"; "Themes"] then true
    else bool_decide (key = "language")
         && not_in v ["English"; "Spanish"; "French"; "German"]
  else if bool_decide (section = "appearance") then
    bool_decide (key = "theme") && not_in v ["Light"; "Dark"]
  else if bool_decide (section = "behavior") then
    if bool_decide (key = "auto_save_interval")
       && match int_of v with
          | Some z => (z <? 60)%Z || (3600 <? z)%Z
          | None => true
          end then true
    else bool_decide (key = "default_playback_speed")
         && match v with
            | VFloat f => float_lt f 1 2 || float_gt f 2 1
            | _ => true
            end
  else if bool_decide (section = "paths") then negb (is_str v)
  else false.

(** [self.settings[section][key] = self.default_settings[section][key]] *)
Definition reset_to_default (section key : string) : M unit :=
  let! font := get ui_font in
  let! dflt := lift (let? sec := py_getitem (VDict (default_settings font)) section in
                     py_getitem sec key) in
  let! s := get settings in
  let! sec := lift (py_getitem (VDict s) section) in
  let! sec := lift (py_setitem sec key dflt) in
  modify (fun w => set_settings (<[section := sec]> (settings w)) w).

(** [v.items()] *)
Definition py_items (v : value) : result (list (string * value)) :=
  match v with
  | VDict d => Ok (map_to_list d)
  | _ => Raise (no_attribute v "items")
  end.

Definition _validate_settings : M unit :=
  try_except
    (let! s := get settings in
     let! _ := for_each (map_to_list s) (fun '(section, keys) =>
       let! items := lift (py_items keys) in
       for_each items (fun '(key, v) =>
         if invalid_setting section key v then reset_to_default section key
         else ret tt)) in
     _save_settings)
    (wrap "SettingsManager" "VALIDATE_001" "Error validating settings: ").

Definition use_defaults : M unit :=
  modify (fun w => set_settings (default_settings (ui_font w)) w).

Definition load_settings : M unit :=
  let! p := get config_file in
  try_except
    (let! found := os_path_exists p in
     if found then
       let! loaded_settings := json_load p in
       let! font := get ui_font in
       let! merged := lift (_merge_settings (default_settings font) loaded_settings) in
       let! _ := modify (set_settings merged) in
       _validate_settings
     else
       let! _ := use_defaults in
       _save_settings)
    (fun e =>
       match e with
       | PyError JSONDecodeError _ =>
           let! _ := use_defaults in
           _save_settings
       | _ =>
           wrap "SettingsManager" "LOAD_001"
             ("Error loading settings from " +:+ p +:+ ": ") e
       end).

Definition emit (section key : string) (v : value) : M unit :=
  modify (fun w => set_emitted (emitted w ++ [(section, key, v)]) w).

Definition set_setting (section key : string) (v : value) : M value :=
  try_except
    (let! s := get settings in
     let! _ := if bool_decide (is_Some (s !! section)) then ret tt
               else modify (set_settings (<[section := VDict ∅]> s)) in
     let! s := get settings in
     let! sec := lift (py_getitem (VDict s) section) in
     let! sec := lift (py_setitem sec key v) in
     let! _ := modify (set_settings (<[section := sec]> s)) in
     let! _ := _save_settings in
     let! _ := emit section key v in
     let! _ :=
       if bool_decide (section = "appearance")
          && (bool_decide (key = "theme") || bool_decide (key = "ui_font")) then
         modify (set_restart_required true)
       else if bool_decide (section = "advanced") && bool_decide (key = "developer_mode") then
         let! s := get settings in
         let! adv := lift (py_getitem (VDict s) "advanced") in
         let! adv := lift (py_setitem adv "log_level"
                             (VStr (if truthy v then "DEBUG" else "INFO"))) in
         let! _ := modify (set_settings (<["advanced" := adv]> s)) in
         _save_settings
       else ret tt in
     ret (VBool true))
    (wrap "SettingsManager" "SET_001"
       ("Failed to set setting " +:+ section +:+ "." +:+ key +:+ ": ")).

Definition emit_all : M unit :=
  let! s := get settings in
  for_each (map_to_list s) (fun '(section, keys) =>
    let! items := lift (py_items keys) in
    for_each items (fun '(key, v) => emit section key v)).

Definition reset_settings : M unit :=
  try_except
    (let! _ := use_defaults in
     let! _ := _save_settings in
     let! _ := modify (set_restart_required true) in
     emit_all)
    (wrap "SettingsManager" "RESET_001" "Error resetting settings: ").

Definition export_settings (file_path : string) : M value :=
  try_except
    (let! s := get settings in
     let! _ := json_dump (VDict s) file_path in
     ret (VBool true))
    (wrap "SettingsManager" "EXPORT_001"
       ("Error exporting settings to " +:+ file_path +:+ ": ")).

Definition import_settings (file_path : string) : M value :=
  try_except
    (let! imported_settings := json_load file_path in
     let! font := get ui_font in
     let! merged := lift (_merge_settings (default_settings font) imported_settings) in
     let! _ := modify (set_settings merged) in
     let! _ := _validate_settings in
     let! _ := _save_settings in
     let! _ := modify (set_restart_required true) in
     let! _ := emit_all in
     ret (VBool true))
    (fun e =>
       match e with
       | PyError JSONDecodeError _ =>
           raise_sanctify "SettingsManager" "IMPORT_001"
             ("Corrupted JSON in " +:+ file_path +:+ ": " +:+ str_exn e)
       | _ =>
           wrap "SettingsManager" "IMPORT_002"
             ("Error importing settings from " +:+ file_path +:+ ": ") e
       end).

Definition is_restart_required : M bool := get restart_required.

Definition clear_restart_required : M unit := modify (set_restart_required false).

(** [__init__], after the attributes are set *)
Definition init : M unit :=
  try_except
    (let! _ := try_except
                 (let! p := get config_file in os_makedirs (os_path_dirname p))
                 (wrap "SettingsManager" "DIR_001" "Error creating config directory: ") in
     load_settings)
    (reraise_or_wrap "SettingsManager" "INIT_001" "Initialization failed: ").

End SettingsManager.

(** ** [models/theme_model.py] *)

Module ThemeModel.

Definition theme_file : M value :=
  get_setting "paths" "themes" (VStr "data/themes/themes.json").

Definition _ensure_directories : M unit :=
  let! theme_file := theme_file in
  match theme_file with
  | VStr p =>
      try_except (os_makedirs (os_path_dirname p))
        (wrap "ThemeModel" "DIR_001" "Error creating themes directory: ")
  | _ =>
      raise_sanctify "ThemeModel" "PATH_001"
        ("Invalid themes path type: " +:+ class_of theme_file +:+ ", expected string")
  end.

(** [_validate_theme]; as for songs, its handler is never entered. *)
Definition _validate_theme (theme : value) : bool :=
  match theme with
  | VDict d =>
      has_str d "id"
      && has_text d "name"
      && has_one_of d "context" ["Songs"; "Scriptures"; "Presentations"]
      && has_one_of d "alignment" ["Left"; "Centered"; "Right"]
      && match d !! "font_color" with
         | Some (VStr c) => startswith "#" c
         | _ => false
         end
      && match d !! "background_color" with
         | Some (VStr c) => startswith "#" c
         | _ => false
         end
      && match d !! "font_size" with
         | Some v => match int_of v with Some z => (0 <? z)%Z | None => false end
         | None => false
         end
      && has_text d "font_family"
      && has_str d "tags"
      && has_str d "created_at"
      && has_str d "updated_at"
  | _ => false
  end.

Definition _save_themes : M unit :=
  let! theme_file := theme_file in
  try_except
    (let! p := lift (as_path theme_file) in
     let! l := get themes in
     json_dump (VList l) p)
    (wrap "ThemeModel" "SAVE_001" ("Error saving themes to " +:+ py_str theme_file +:+ ": ")).

Definition _load_themes : M unit :=
  let! theme_file := theme_file in
  let! _ := modify (set_themes []) in
  let! p := lift (as_path theme_file) in
  let! found := os_path_exists p in
  if found then
    try_except
      (let! loaded_themes := json_load p in
       match loaded_themes with
       | VList items =>
           for_each items (fun item =>
             if _validate_theme item
             then modify (fun w => set_themes (themes w ++ [item]) w)
             else let! _ := lift (py_get item "name" (VStr "Unknown")) in ret tt)
       | _ =>
           raise_sanctify "ThemeModel" "LOAD_001" ("Themes file " +:+ p +:+ " is not a list")
       end)
      (fun e =>
         match e with
         | PyError JSONDecodeError _ =>
             raise_sanctify "ThemeModel" "LOAD_002"
               ("Error decoding JSON from " +:+ p +:+ ": " +:+ str_exn e)
         | _ =>
             raise_sanctify "ThemeModel" "LOAD_003"
               ("Error loading themes from " +:+ p +:+ ": " +:+ str_exn e)
         end)
  else _save_themes.

Definition get_theme_by_id (theme_id : string) : M value :=
  try_except
    (let! l := get themes in lift (find_by_id theme_id l))
    (wrap "ThemeModel" "GET_BY_ID_001"
       ("Error retrieving theme by ID " +:+ theme_id +:+ ": ")).

Definition search_themes (query context tag : string) : M value :=
  let query := strip (lower query) in
  try_except
    (let tag := strip (lower tag) in
     let! l := get themes in
     let! results := lift (py_filter (fun theme =>
       let? skip :=
         if bool_decide (context = "") then Ok false
         else let? c := py_getitem theme "context" in
              Ok (negb (bool_decide (c = VStr context))) in
       if skip then Ok false else matches_search query tag theme) l) in
     let! r := lift (py_sorted String.leb name_lower results) in
     ret (VList r))
    (wrap "ThemeModel" "SEARCH_001"
       ("Error searching themes with query " +:+ query +:+ ": ")).

Definition get_all_themes (context : string) : M value :=
  try_except
    (let! l := get themes in
     let! l := lift (only_with "context" context l) in
     let! r := lift (py_sorted String.leb name_lower l) in
     ret (VList r))
    (wrap "ThemeModel" "GET_ALL_001" "Error retrieving themes: ").

Definition get_all_tags : M value :=
  try_except
    (let! l := get themes in lift (all_tags l))
    (wrap "ThemeModel" "GET_TAGS_001" "Error retrieving tags: ").

Definition append_theme (theme : value) : M unit :=
  modify (fun w => set_themes (themes w ++ [theme]) w).

(** [any(t["name"].lower() == name.lower() for t in self.themes)] *)
Definition name_taken (name : string) (l : list value) : result bool :=
  py_any (fun t => let? n := name_lower t in Ok (bool_decide (n = lower name))) l.

Definition create_theme (name context alignment font_color background_color : string)
    (font_size : Z) (font_family tags : string) (new_id now now' : string) : M value :=
  try_except
    (if bool_decide (strip name = "") then
       raise_sanctify "ThemeModel" "CREATE_001" "Theme name is required"
     else
     let! l := get themes in
     let! taken := lift (name_taken name l) in
     if taken then
       raise_sanctify "ThemeModel" "CREATE_002" ("Theme already exists: " +:+ name)
     else
     let theme := dict [
       ("id", VStr new_id);
       ("name", VStr name);
       ("context", VStr context);
       ("alignment", VStr alignment);
       ("font_color", VStr font_color);
       ("background_color", VStr background_color);
       ("font_size", VInt font_size);
       ("font_family", VStr font_family);
       ("tags", VStr (strip tags));
       ("created_at", VStr now);
       ("updated_at", VStr now')] in
     if negb (_validate_theme theme) then
       raise_sanctify "ThemeModel" "CREATE_003" ("Invalid theme data for " +:+ name)
     else
     let! _ := append_theme theme in
     let! _ := _save_themes in
     ret theme)
    (reraise_or_wrap "ThemeModel" "CREATE_004" "Error creating theme: ").

Definition update_theme (theme_id : string) (updated_data : value) (now : string) : M value :=
  try_except
    (let! theme := get_theme_by_id theme_id in
     if negb (truthy theme) then
       raise_sanctify "ThemeModel" "UPDATE_001" ("Theme not found: " +:+ theme_id)
     else
     let! renamed := lift (
       let? n := py_get updated_data "name" (VStr "") in
       let? n := py_strip n in
       if truthy (VStr n) then
         let? a := name_lower updated_data in
         let? b := name_lower theme in
         Ok (negb (bool_decide (a = b)))
       else Ok false) in
     let! l := get themes in
     let! taken :=
       if renamed then
         lift (py_any (fun t =>
           let? same := has_id theme_id t in
           if negb same then
             let? a := name_lower t in
             let? b := name_lower updated_data in
             Ok (bool_decide (a = b))
           else Ok false) l)
       else ret false in
     if taken then
       let! n := lift (py_getitem updated_data "name") in
       raise_sanctify "ThemeModel" "UPDATE_002" ("Theme name already exists: " +:+ py_str n)
     else
     let! updated_theme := lift (
       let? d := py_copy theme in
       let? d := py_update d updated_data in
       let? id := py_getitem theme "id" in
       let? d := py_setitem d "id" id in
       let? created := py_getitem theme "created_at" in
       let? d := py_setitem d "created_at" created in
       py_setitem d "updated_at" (VStr now)) in
     if negb (_validate_theme updated_theme) then
       let! n := lift (py_getitem updated_theme "name") in
       raise_sanctify "ThemeModel" "UPDATE_003"
         ("Invalid updated theme data for " +:+ py_str n)
     else
     let! l := get themes in
     let! l := lift (py_list_remove theme l) in
     let! _ := modify (set_themes l) in
     let! _ := append_theme updated_theme in
     let! _ := _save_themes in
     ret (VBool true))
    (reraise_or_wrap "ThemeModel" "UPDATE_004" "Error updating theme: ").

Definition delete_theme (theme_id : string) : M value :=
  try_except
    (let! theme := get_theme_by_id theme_id in
     if negb (truthy theme) then
       raise_sanctify "ThemeModel" "DELETE_001" ("Theme not found: " +:+ theme_id)
     else
     let! l := get themes in
     let! l := lift (py_list_remove theme l) in
     let! _ := modify (set_themes l) in
     let! _ := _save_themes in
     (* logger.info(f"Deleted theme: {theme['name']}") *)
     let! _ := lift (py_getitem theme "name") in
     ret (VBool true))
    (reraise_or_wrap "ThemeModel" "DELETE_002" "Error deleting theme: ").

Definition duplicate_theme (theme_id : string) (new_id now : string) : M value :=
  try_except
    (let! theme := get_theme_by_id theme_id in
     if negb (truthy theme) then
       raise_sanctify "ThemeModel" "DUPLICATE_001" ("Theme not found: " +:+ theme_id)
     else
     let! new_theme := lift (
       let? d := py_copy theme in
       let? d := py_setitem d "id" (VStr new_id) in
       let? n := py_getitem theme "name" in
       let? d := py_setitem d "name" (VStr (py_str n +:+ " (Copy)")) in
       let? d := py_setitem d "created_at" (VStr now) in
       let? created := py_getitem d "created_at" in
       py_setitem d "updated_at" created) in
     let! l := get themes in
     let! taken := lift (py_any (fun t =>
                     let? a := name_lower t in
                     let? b := name_lower new_theme in
                     Ok (bool_decide (a = b))) l) in
     if taken then
       let! n := lift (py_getitem new_theme "name") in
       raise_sanctify "ThemeModel" "DUPLICATE_002"
         ("Duplicate theme name already exists: " +:+ py_str n)
     else
     let! _ := append_theme new_theme in
     let! _ := _save_themes in
     ret new_theme)
    (reraise_or_wrap "ThemeModel" "DUPLICATE_003" "Error duplicating theme: ").

(** [ThemeModel.__init__] *)
Definition init : M unit :=
  let! _ := modify (set_themes []) in
  try_except
    (let! _ := _ensure_directories in _load_themes)
    (wrap "ThemeModel" "INIT_001" "Initialization failed: ").

End ThemeModel.

(** ** [models/presentation_model.py] *)

Module PresentationModel.

Definition presentations_file : M value :=
  get_setting "paths" "presentations" (VStr "data/presentations/presentations.json").

Definition _ensure_directories : M unit :=
  let! presentations_file := presentations_file in
  match presentations_file with
  | VStr p =>
      try_except (os_makedirs (os_path_dirname p))
        (wrap "PresentationModel" "DIR_001" "Error creating presentations directory: ")
  | _ =>
      raise_sanctify "PresentationModel" "PATH_001"
        ("Invalid presentations path type: " +:+ class_of presentations_file
         +:+ ", expected string")
  end.

Definition is_slide (slide : value) : bool :=
  match slide with
  | VList [a; b] =>
      is_str a && bool_decide (a ∈ VStr <$> ["Text"; "Image"; "Video"]) && is_str b
  | _ => false
  end.

(** The structural part of [_validate_presentation]. *)
Definition well_formed (presentation : value) : bool :=
  match presentation with
  | VDict d =>
      has_str d "id"
      && has_text d "name"
      && match d !! "slides" with
         | Some (VList l) => forallb is_slide l
         | _ => false
         end
      && has_str d "theme"
      && has_str d "tags"
      && has_str d "created_at"
      && has_str d "updated_at"
  | _ => false
  end.

(** The loop over the slides of [_validate_presentation]: false at the
    first image or video whose file is missing. *)
Fixpoint media_exist (media_dir : value) (slides : list value) : M bool :=
  match slides with
  | [] => ret true
  | slide :: rest =>
      let! kv := lift (py_unpack2 slide) in
      if bool_decide (kv.1 ∈ VStr <$> ["Image"; "Video"]) then
        let! p := lift (let? dir := as_path media_dir in
                        let? content := as_path kv.2 in
                        Ok (os_path_join dir content)) in
        let! found := os_path_exists p in
        if found then media_exist media_dir rest else ret false
      else media_exist media_dir rest
  end.

Definition _validate_presentation (presentation : value) : M bool :=
  try_except
    (if negb (well_formed presentation) then ret false else
     let! has_media_model := get media_model in
     let! media_ok :=
       if has_media_model then
         let! media_dir := get_setting "paths" "media" (VStr "data/media") in
         let! slides := lift (let? s := py_getitem presentation "slides" in py_iter s) in
         media_exist media_dir slides
       else ret true in
     if negb media_ok then ret false else
     let! has_theme_model := get theme_model in
     if has_theme_model then
       let! id := lift (py_getitem presentation "theme") in
       let! theme :=
         match id with
         | VStr theme_id => ThemeModel.get_theme_by_id theme_id
         | _ => ret VNone
         end in
       ret (truthy theme)
     else ret true)
    (wrap "PresentationModel" "VALIDATE_001" "Error validating presentation: ").

Definition _save_presentations : M unit :=
  let! presentations_file := presentations_file in
  try_except
    (let! p := lift (as_path presentations_file) in
     let! l := get presentations in
     json_dump (VList l) p)
    (wrap "PresentationModel" "SAVE_001"
       ("Error saving presentations to " +:+ py_str presentations_file +:+ ": ")).

Definition _load_presentations : M unit :=
  let! presentations_file := presentations_file in
  let! _ := modify (set_presentations []) in
  let! p := lift (as_path presentations_file) in
  let! found := os_path_exists p in
  if found then
    try_except
      (let! loaded_presentations := json_load p in
       match loaded_presentations with
       | VList items =>
           for_each items (fun item =>
             let! ok := _validate_presentation item in
             if ok
             then modify (fun w => set_presentations (presentations w ++ [item]) w)
             else let! _ := lift (py_get item "name" (VStr "Unknown")) in ret tt)
       | _ =>
           raise_sanctify "PresentationModel" "LOAD_001"
             ("Presentations file " +:+ p +:+ " is not a list")
       end)
      (fun e =>
         match e with
         | PyError JSONDecodeError _ =>
             raise_sanctify "PresentationModel" "LOAD_002"
               ("Error decoding JSON from " +:+ p +:+ ": " +:+ str_exn e)
         | _ =>
             raise_sanctify "PresentationModel" "LOAD_003"
               ("Error loading presentations from " +:+ p +:+ ": " +:+ str_exn e)
         end)
  else _save_presentations.

Definition get_presentation_by_id (presentation_id : string) : M value :=
  try_except
    (let! l := get presentations in lift (find_by_id presentation_id l))
    (wrap "PresentationModel" "GET_BY_ID_001"
       ("Error retrieving presentation by ID " +:+ presentation_id +:+ ": ")).

Definition search_presentations (query tag : string) : M value :=
  let query := strip (lower query) in
  try_except
    (let tag := strip (lower tag) in
     let! l := get presentations in
     let! results := lift (py_filter (matches_search query tag) l) in
     let! r := lift (py_sorted String.leb name_lower results) in
     ret (VList r))
    (wrap "PresentationModel" "SEARCH_001"
       ("Error searching presentations with query " +:+ query +:+ ": ")).

Definition get_all_presentations : M value :=
  try_except
    (let! l := get presentations in
     let! r := lift (py_sorted String.leb name_lower l) in
     ret (VList r))
    (wrap "PresentationModel" "GET_ALL_001" "Error retrieving presentations: ").

Definition get_all_tags : M value :=
  try_except
    (let! l := get presentations in lift (all_tags l))
    (wrap "PresentationModel" "GET_TAGS_001" "Error retrieving tags: ").

Definition append_presentation (presentation : value) : M unit :=
  modify (fun w => set_presentations (presentations w ++ [presentation]) w).

Definition create_presentation (name theme : string) (slides : value) (tags : string)
    (new_id now now' : string) : M value :=
  try_except
    (if bool_decide (strip name = "") then
       raise_sanctify "PresentationModel" "CREATE_001" "Presentation name is required"
     else
     let! l := get presentations in
     let! taken := lift (py_any (fun p =>
                     let? n := name_lower p in Ok (bool_decide (n = lower name))) l) in
     if taken then
       raise_sanctify "PresentationModel" "CREATE_002"
         ("Presentation already exists: " +:+ name)
     else
     let presentation := dict [
       ("id", VStr new_id);
       ("name", VStr name);
       ("theme", VStr theme);
       ("slides", if truthy slides then slides else VList []);
       ("tags", VStr (strip tags));
       ("created_at", VStr now);
       ("updated_at", VStr now')] in
     let! ok := _validate_presentation presentation in
     if negb ok then
       raise_sanctify "PresentationModel" "CREATE_003"
         ("Invalid presentation data for " +:+ name)
     else
     let! _ := append_presentation presentation in
     let! _ := _save_presentations in
     ret presentation)
    (reraise_or_wrap "PresentationModel" "CREATE_004" "Error creating presentation: ").

(** [if k not in updated_data: d[k] = presentation[k]] *)
Definition keep_unless_given (updated_data presentation d : value) (k : string)
    : result value :=
  let? given := py_contains k updated_data in
  if given then Ok d
  else let? v := py_getitem presentation k in py_setitem d k v.

Definition update_presentation (presentation_id : string) (updated_data : value)
    (now : string) : M value :=
  try_except
    (let! presentation := get_presentation_by_id presentation_id in
     if negb (truthy presentation) then
       raise_sanctify "PresentationModel" "UPDATE_001"
         ("Presentation not found: " +:+ presentation_id)
     else
     let! renamed := lift (
       let? n := py_get updated_data "name" (VStr "") in
       let? n := py_strip n in
       if truthy (VStr n) then
         let? a := name_lower updated_data in
         let? b := name_lower presentation in
         Ok (negb (bool_decide (a = b)))
       else Ok false) in
     let! l := get presentations in
     let! taken :=
       if renamed then
         lift (py_any (fun p =>
           let? same := has_id presentation_id p in
           if negb same then
             let? a := name_lower p in
             let? b := name_lower updated_data in
             Ok (bool_decide (a = b))
           else Ok false) l)
       else ret false in
     if taken then
       let! n := lift (py_getitem updated_data "name") in
       raise_sanctify "PresentationModel" "UPDATE_002"
         ("Presentation name already exists: " +:+ py_str n)
     else
     let! updated_presentation := lift (
       let? d := py_copy presentation in
       let? d := py_update d updated_data in
       let? id := py_getitem presentation "id" in
       let? d := py_setitem d "id" id in
       let? created := py_getitem presentation "created_at" in
       let? d := py_setitem d "created_at" created in
       let? d := py_setitem d "updated_at" (VStr now) in
       let? d := keep_unless_given updated_data presentation d "slides" in
       let? d := keep_unless_given updated_data presentation d "theme" in
       keep_unless_given updated_data presentation d "tags") in
     let! ok := _validate_presentation updated_presentation in
     if negb ok then
       let! n := lift (py_getitem updated_presentation "name") in
       raise_sanctify "PresentationModel" "UPDATE_003"
         ("Invalid updated presentation data for " +:+ py_str n)
     else
     let! l := get presentations in
     let! l := lift (py_list_remove presentation l) in
     let! _ := modify (set_presentations l) in
     let! _ := append_presentation updated_presentation in
     let! _ := _save_presentations in
     ret (VBool true))
    (reraise_or_wrap "PresentationModel" "UPDATE_004" "Error updating presentation: ").

Definition delete_presentation (presentation_id : string) : M value :=
  try_except
    (let! presentation := get_presentation_by_id presentation_id in
     if negb (truthy presentation) then
       raise_sanctify "PresentationModel" "DELETE_001"
         ("Presentation not found: " +:+ presentation_id)
     else
     let! l := get presentations in
     let! l := lift (py_list_remove presentation l) in
     let! _ := modify (set_presentations l) in
     let! _ := _save_presentations in
     (* logger.info(f"Deleted presentation: {presentation['name']}") *)
     let! _ := lift (py_getitem presentation "name") in
     ret (VBool true))
    (reraise_or_wrap "PresentationModel" "DELETE_002" "Error deleting presentation: ").

Definition duplicate_presentation (presentation_id : string) (new_id now : string)
    : M value :=
  try_except
    (let! presentation := get_presentation_by_id presentation_id in
     if negb (truthy presentation) then
       raise_sanctify "PresentationModel" "DUPLICATE_001"
         ("Presentation not found: " +:+ presentation_id)
     else
     let! new_presentation := lift (
       let? d := py_copy presentation in
       let? d := py_setitem d "id" (VStr new_id) in
       let? n := py_getitem presentation "name" in
       let? d := py_setitem d "name" (VStr (py_str n +:+ " (Copy)")) in
       let? d := py_setitem d "created_at" (VStr now) in
       let? created := py_getitem d "created_at" in
       py_setitem d "updated_at" created) in
     let! l := get presentations in
     let! taken := lift (py_any (fun p =>
                     let? a := name_lower p in
                     let? b := name_lower new_presentation in
                     Ok (bool_decide (a = b))) l) in
     if taken then
       let! n := lift (py_getitem new_presentation "name") in
       raise_sanctify "PresentationModel" "DUPLICATE_002"
         ("Duplicate presentation name already exists: " +:+ py_str n)
     else
     let! _ := append_presentation new_presentation in
     let! _ := _save_presentations in
     ret new_presentation)
    (reraise_or_wrap "PresentationModel" "DUPLICATE_003" "Error duplicating presentation: ").

Definition import_from_ppt (ppt_path : string) (new_id now now' : string) : M value :=
  try_except
    (let name := (os_path_splitext (os_path_basename ppt_path)).1 in
     let presentation := dict [
       ("id", VStr new_id);
       ("name", VStr name);
       ("theme", VStr "default");
       ("slides", VList [VList [VStr "Text"; VStr "Slide 1: Imported content..."];
                         VList [VStr "Text"; VStr "Slide 2: More content..."]]);
       ("tags", VStr "imported,pptx");
       ("created_at", VStr now);
       ("updated_at", VStr now')] in
     let! ok := _validate_presentation presentation in
     if negb ok then
       raise_sanctify "PresentationModel" "IMPORT_001"
         ("Invalid imported presentation data for " +:+ name)
     else
     let! _ := append_presentation presentation in
     let! _ := _save_presentations in
     ret presentation)
    (reraise_or_wrap "PresentationModel" "IMPORT_002" "Failed to import PPTX: ").

(** [PresentationModel.__init__] *)
Definition init : M unit :=
  let! _ := modify (set_presentations []) in
  try_except
    (let! _ := _ensure_directories in _load_presentations)
    (wrap "PresentationModel" "INIT_001" "Initialization failed: ").

End PresentationModel.

(** ** [models/media_model.py] *)

Module MediaModel.

Definition SUPPORTED_FORMATS : list (string * list string) :=
  [("Images", [".jpg"; ".jpeg"; ".png"; ".bmp"]);
   ("Videos", [".mp4"; ".mov"; ".avi"]);
   ("Gifs", [".gif"])].

(** [v in self.SUPPORTED_FORMATS]: membership among the keys of a dict, which
    hashes [v] first. *)
Definition in_supported_formats (v : value) : result bool :=
  match v with
  | VList _ | VDict _ =>
      Raise (PyError TypeError ("unhashable type: '" +:+ type_name v +:+ "'"))
  | _ => Ok (bool_decide (v ∈ VStr <$> SUPPORTED_FORMATS.*1))
  end.

Definition media_dir : M value := get_setting "paths" "media" (VStr "data/media").

Definition media_file : M value :=
  get_setting "paths" "media_metadata" (VStr "data/media/media.json").

(** [os.path.join(a, b)] on values *)
Definition join (a b : value) : result string :=
  let? a := as_path a in
  let? b := as_path b in
  Ok (os_path_join a b).

Definition _ensure_directories : M unit :=
  let! media_dir := media_dir in
  match media_dir with
  | VStr dir =>
      try_except
        (let! _ := os_makedirs dir in
         for_each SUPPORTED_FORMATS.*1 (fun category =>
           os_makedirs (os_path_join dir category)))
        (wrap "MediaModel" "DIR_001" "Failed to create media directories: ")
  | _ =>
      raise_sanctify "MediaModel" "PATH_001"
        ("Invalid media directory type: " +:+ class_of media_dir +:+ ", expected string")
  end.

(** [_validate_media]: the conjuncts are evaluated in order and the first
    false one ends the test, so a later one raises only when it is reached. *)
Definition _validate_media (media : value) : M bool :=
  try_except
    (let! media_dir := media_dir in
     match media with
     | VDict d =>
         if negb (has_str d "id" && has_text d "name") then ret false else
         match d !! "path" with
         | Some (VStr path) =>
             let! p := lift (join media_dir (VStr path)) in
             let! found := os_path_exists p in
             if negb found then ret false else
             match d !! "category" with
             | Some category =>
                 let! supported := lift (in_supported_formats category) in
                 ret (supported
                      && has_str d "tags"
                      && has_one_of d "scaling" ["stretch"; "fit"; "fill"]
                      && has_str d "created_at"
                      && has_str d "updated_at"
                      && match d !! "is_logo" with
                         | Some (VBool _) => true
                         | _ => false
                         end)
             | None => ret false
             end
         | _ => ret false
         end
     | _ => ret false
     end)
    (wrap "MediaModel" "VALIDATE_001" "Error validating media: ").

Definition _save_media : M unit :=
  let! media_file := media_file in
  try_except
    (let! p := lift (as_path media_file) in
     let! _ := os_makedirs (os_path_dirname p) in
     let! l := get media in
     json_dump (VList l) p)
    (wrap "MediaModel" "SAVE_001" ("Error saving media to " +:+ py_str media_file +:+ ": ")).

Definition _load_media : M unit :=
  let! media_file := media_file in
  match media_file with
  | VStr p =>
      let! _ := modify (set_media []) in
      let! found := os_path_exists p in
      if found then
        try_except
          (let! loaded_media := json_load p in
           match loaded_media with
           | VList items =>
               for_each items (fun item =>
                 let! ok := _validate_media item in
                 if ok
                 then modify (fun w => set_media (media w ++ [item]) w)
                 else let! _ := lift (py_get item "name" (VStr "Unknown")) in ret tt)
           | _ =>
               raise_sanctify "MediaModel" "LOAD_001" ("Media file " +:+ p +:+ " is not a list")
           end)
          (fun e =>
             match e with
             | PyError JSONDecodeError _ =>
                 raise_sanctify "MediaModel" "LOAD_002"
                   ("Error decoding JSON from " +:+ p +:+ ": " +:+ str_exn e)
             | _ =>
                 raise_sanctify "MediaModel" "LOAD_003"
                   ("Error loading media from " +:+ p +:+ ": " +:+ str_exn e)
             end)
      else _save_media
  | _ =>
      raise_sanctify "MediaModel" "PATH_002"
        ("Invalid media metadata path type: " +:+ class_of media_file +:+ ", expected string")
  end.

Definition get_media_by_id (media_id : string) : M value :=
  try_except
    (let! l := get media in lift (find_by_id media_id l))
    (wrap "MediaModel" "GET_BY_ID_001"
       ("Error retrieving media by ID " +:+ media_id +:+ ": ")).

Definition search_media (query category tag : string) : M value :=
  let query := strip (lower query) in
  try_except
    (let tag := strip (lower tag) in
     let! l := get media in
     let! results := lift (py_filter (fun m =>
       let? skip :=
         if bool_decide (category = "") then Ok false
         else let? c := py_getitem m "category" in
              Ok (negb (bool_decide (c = VStr category))) in
       if skip then Ok false else matches_search query tag m) l) in
     let! r := lift (py_sorted String.leb name_lower results) in
     ret (VList r))
    (wrap "MediaModel" "SEARCH_001"
       ("Error searching media with query " +:+ query +:+ ": ")).

Definition get_all_media (category : string) : M value :=
  try_except
    (let! l := get media in
     let! l := lift (only_with "category" category l) in
     let! r := lift (py_sorted String.leb name_lower l) in
     ret (VList r))
    (wrap "MediaModel" "GET_ALL_001" "Error retrieving media: ").

Definition get_all_tags : M value :=
  try_except
    (let! l := get media in lift (all_tags l))
    (wrap "MediaModel" "GET_TAGS_001" "Error retrieving tags: ").

Definition append_media (m : value) : M unit :=
  modify (fun w => set_media (media w ++ [m]) w).

(** [try: os.remove(p) / except Exception: pass] *)
Definition remove_quietly (p : string) : M unit :=
  try_except (os_remove p) (fun _ => ret tt).

Definition add_media (source_path category display_name tags scaling : string)
    (new_id now now' : string) : M value :=
  try_except
    (let! media_dir := media_dir in
     let ext := lower (os_path_splitext source_path).2 in
     if negb (existsb (fun formats => bool_decide (ext ∈ formats)) SUPPORTED_FORMATS.*2) then
       raise_sanctify "MediaModel" "ADD_001" ("Unsupported media format: " +:+ ext)
     else if negb (bool_decide (category ∈ SUPPORTED_FORMATS.*1)) then
       raise_sanctify "MediaModel" "ADD_002" ("Invalid category: " +:+ category)
     else
     let media_id := new_id in
     let display_name :=
       if bool_decide (display_name = "") then os_path_basename source_path
       else display_name in
     let filename := media_id +:+ ext in
     let! target_path := lift (let? d := join media_dir (VStr category) in
                               Ok (os_path_join d filename)) in
     let! _ := try_except
                 (let! _ := os_makedirs (os_path_dirname target_path) in
                  shutil_copy2 source_path target_path)
                 (wrap "MediaModel" "ADD_003"
                    ("Failed to copy media file " +:+ source_path +:+ " to "
                     +:+ target_path +:+ ": ")) in
     let media_data := dict [
       ("id", VStr media_id);
       ("name", VStr display_name);
       ("path", VStr (os_path_join category filename));
       ("category", VStr category);
       ("tags", VStr (strip tags));
       ("scaling", VStr (lower scaling));
       ("created_at", VStr now);
       ("updated_at", VStr now');
       ("is_logo", VBool false)] in
     let! l := get media in
     let! present := lift (py_any (fun m =>
                       let? p := py_getitem m "path" in
                       Ok (bool_decide (p = VStr (os_path_join category filename)))) l) in
     if present then
       let! _ := remove_quietly target_path in
       raise_sanctify "MediaModel" "ADD_004" ("Media already exists: " +:+ target_path)
     else
     let! ok := _validate_media media_data in
     if negb ok then
       let! _ := remove_quietly target_path in
       raise_sanctify "MediaModel" "ADD_005" ("Invalid media data for " +:+ display_name)
     else
     let! _ := append_media media_data in
     let! _ := _save_media in
     ret media_data)
    (reraise_or_wrap "MediaModel" "ADD_006" "Error adding media: ").

Definition update_media (media_id : string) (media_data : value) (now : string) : M value :=
  try_except
    (let! m := get_media_by_id media_id in
     if negb (truthy m) then
       raise_sanctify "MediaModel" "UPDATE_001" ("Media not found: " +:+ media_id)
     else
     let! media_data := lift (
       let? d := py_copy media_data in
       let? v := py_getitem m "id" in
       let? d := py_setitem d "id" v in
       let? v := py_getitem m "path" in
       let? d := py_setitem d "path" v in
       let? v := py_getitem m "created_at" in
       let? d := py_setitem d "created_at" v in
       let? d := py_setitem d "updated_at" (VStr now) in
       let? v := py_getitem m "is_logo" in
       let? d := py_setitem d "is_logo" v in
       let? d := setdefault d "category" (py_getitem m "category") in
       let? d := setdefault d "name" (py_getitem m "name") in
       let? d := setdefault d "tags" (py_getitem m "tags") in
       setdefault d "scaling" (py_getitem m "scaling")) in
     let! media_dir := media_dir in
     let! changed := lift (
       let? a := py_getitem media_data "name" in
       let? b := py_getitem m "name" in
       if negb (bool_decide (a = b)) then Ok true
       else
         let? a := py_getitem media_data "category" in
         let? b := py_getitem m "category" in
         Ok (negb (bool_decide (a = b)))) in
     let! media_data :=
       if changed then
         let! old_path := lift (py_getitem m "path") in
         let! new_filename := lift (let? p := as_path old_path in
                                    Ok (media_id +:+ (os_path_splitext p).2)) in
         let! category := lift (py_getitem media_data "category") in
         let! new_path := lift (let? d := join media_dir category in
                                Ok (os_path_join d new_filename)) in
         try_except
           (let! _ := os_makedirs (os_path_dirname new_path) in
            let! src := lift (join media_dir old_path) in
            let! dst := lift (join media_dir (VStr new_path)) in
            let! _ := os_rename src dst in
            let! rel := lift (join category (VStr new_filename)) in
            lift (py_setitem media_data "path" (VStr rel)))
           (wrap "MediaModel" "UPDATE_002"
              ("Failed to rename media from " +:+ py_str old_path +:+ " to "
               +:+ new_path +:+ ": "))
       else ret media_data in
     let! ok := _validate_media media_data in
     if negb ok then
       let! n := lift (py_getitem media_data "name") in
       raise_sanctify "MediaModel" "UPDATE_003" ("Invalid media data for " +:+ py_str n)
     else
     let! l := get media in
     let! l := lift (py_list_remove m l) in
     let! _ := modify (set_media l) in
     let! _ := append_media media_data in
     let! _ := _save_media in
     ret (VBool true))
    (reraise_or_wrap "MediaModel" "UPDATE_004" "Error updating media: ").

Definition delete_media (media_id : string) : M value :=
  try_except
    (let! m := get_media_by_id media_id in
     if negb (truthy m) then
       raise_sanctify "MediaModel" "DELETE_001" ("Media not found: " +:+ media_id)
     else
     let! _ := try_except
                 (let! media_dir := media_dir in
                  let! p := lift (let? rel := py_getitem m "path" in join media_dir rel) in
                  os_remove p)
                 (fun e =>
                    let! rel := lift (py_getitem m "path") in
                    wrap "MediaModel" "DELETE_002"
                      ("Failed to delete media file " +:+ py_str rel +:+ ": ") e) in
     let! l := get media in
     let! l := lift (py_list_remove m l) in
     let! _ := modify (set_media l) in
     let! _ := _save_media in
     (* logger.info(f"Deleted media: {media['name']}") *)
     let! _ := lift (py_getitem m "name") in
     ret (VBool true))
    (reraise_or_wrap "MediaModel" "DELETE_003" "Error deleting media: ").

(** [v.rsplit('.', 1)[i]] *)
Definition rsplit_dot_at (v : value) (i : nat) : result string :=
  match v with
  | VStr s =>
      match rsplit1 "." s !! i with
      | Some part => Ok part
      | None => Raise (PyError IndexError "list index out of range")
      end
  | _ => Raise (no_attribute v "rsplit")
  end.

Definition duplicate_media (media_id : string) (new_id now now' : string) : M value :=
  try_except
    (let! m := get_media_by_id media_id in
     if negb (truthy m) then
       raise_sanctify "MediaModel" "DUPLICATE_001" ("Media not found: " +:+ media_id)
     else
     let! media_dir := media_dir in
     let! old_path := lift (py_getitem m "path") in
     let! ext := lift (let? p := as_path old_path in Ok (os_path_splitext p).2) in
     let new_filename := new_id +:+ ext in
     let! category := lift (py_getitem m "category") in
     let! new_path := lift (let? d := join media_dir category in
                            Ok (os_path_join d new_filename)) in
     let! new_name := lift (
       let? name := py_getitem m "name" in
       let? stem := rsplit_dot_at name 0 in
       let? name := py_getitem m "name" in
       let? suffix := rsplit_dot_at name 1 in
       Ok (stem +:+ " (Copy)." +:+ suffix)) in
     let! _ := try_except
                 (let! src := lift (join media_dir old_path) in
                  shutil_copy2 src new_path)
                 (wrap "MediaModel" "DUPLICATE_002"
                    ("Failed to duplicate media " +:+ py_str old_path +:+ " to "
                     +:+ new_path +:+ ": ")) in
     let! new_media := lift (
       let? rel := join category (VStr new_filename) in
       let? category := py_getitem m "category" in
       let? tags := py_getitem m "tags" in
       let? scaling := py_getitem m "scaling" in
       Ok (dict [
         ("id", VStr new_id);
         ("name", VStr new_name);
         ("path", VStr rel);
         ("category", category);
         ("tags", tags);
         ("scaling", scaling);
         ("created_at", VStr now);
         ("updated_at", VStr now');
         ("is_logo", VBool false)])) in
     let! ok := _validate_media new_media in
     if negb ok then
       let! _ := remove_quietly new_path in
       raise_sanctify "MediaModel" "DUPLICATE_003"
         ("Invalid duplicated media data for " +:+ new_name)
     else
     let! _ := append_media new_media in
     let! _ := _save_media in
     ret new_media)
    (reraise_or_wrap "MediaModel" "DUPLICATE_004" "Error duplicating media: ").

(** [for m in self.media: m["is_logo"] = (m["id"] == media_id)]: the items
    are updated in place one after the other, so the items before one that
    raises keep their new flag. *)
Fixpoint mark_logo (media_id : string) (visited rest : list value) : M unit :=
  match rest with
  | [] => modify (set_media visited)
  | m :: rest' =>
      match (let? same := has_id media_id m in py_setitem m "is_logo" (VBool same)) with
      | Ok m' => mark_logo media_id (visited ++ [m']) rest'
      | Raise e => let! _ := modify (set_media (visited ++ rest)) in raise e
      end
  end.

Definition set_logo (media_id : string) : M value :=
  try_except
    (let! m := get_media_by_id media_id in
     let! not_image :=
       if negb (truthy m) then ret true
       else let! c := lift (py_getitem m "category") in
            ret (negb (bool_decide (c = VStr "Images"))) in
     if not_image then
       raise_sanctify "MediaModel" "SET_LOGO_001"
         ("Invalid logo media: " +:+ media_id +:+ " (must be an image)")
     else
     let! l := get media in
     let! _ := mark_logo media_id [] l in
     let! _ := _save_media in
     (* logger.info(f"Set logo: {media['name']}") *)
     let! _ := lift (py_getitem m "name") in
     ret (VBool true))
    (reraise_or_wrap "MediaModel" "SET_LOGO_002" "Error setting logo: ").

(** [next((m for m in self.media if m.get("is_logo", False)), None)] *)
Definition get_logo_media : M value :=
  try_except
    (let! l := get media in
     let! r := lift (py_next (fun m =>
                 let? flag := py_get m "is_logo" (VBool false) in Ok (truthy flag)) l) in
     ret (default VNone r))
    (wrap "MediaModel" "GET_LOGO_001" "Error retrieving logo media: ").

(** [MediaModel.__init__] *)
Definition init : M unit :=
  let! _ := modify (set_media []) in
  try_except
    (let! _ := _ensure_directories in _load_media)
    (wrap "MediaModel" "INIT_001" "Initialization failed: ").

End MediaModel.

(** ** [models/scripture_model.py] *)

Module ScriptureModel.

Definition positive_int (d : gmap string value) (k : string) : bool :=
  match d !! k with
  | Some v => match int_of v with Some z => (0 <? z)%Z | None => false end
  | None => false
  end.

Definition is_verse (verse : value) : bool :=
  match verse with
  | VDict d => positive_int d "verse" && has_text d "text"
  | _ => false
  end.

Definition is_chapter (chapter : value) : bool :=
  match chapter with
  | VDict d =>
      positive_int d "chapter"
      && match d !! "verses" with
         | Some (VList verses) => forallb is_verse verses
         | _ => false
         end
  | _ => false
  end.

Definition is_book (book : value) : bool :=
  match book with
  | VDict d =>
      has_text d "name"
      && match d !! "chapters" with
         | Some (VList chapters) => forallb is_chapter chapters
         | _ => false
         end
  | _ => false
  end.

(** [_validate_bible]; every access in it is guarded, so its handler
    ([VALIDATE_001]) is never entered. *)
Definition _validate_bible (bible : value) : bool :=
  match bible with
  | VDict d =>
      has_text d "name"
      && match d !! "books" with
         | Some (VList books) => forallb is_book books
         | _ => false
         end
  | _ => false
  end.

Definition _ensure_directories : M unit :=
  let! root := get bible_root in
  match root with
  | VStr dir =>
      try_except (os_makedirs dir)
        (wrap "ScriptureModel" "DIR_001" "Error creating bibles directory: ")
  | _ =>
      raise_sanctify "ScriptureModel" "PATH_001"
        ("Invalid bibles path type: " +:+ class_of root +:+ ", expected string")
  end.

(** [os.listdir(dir)]: the names of the files directly in [dir]. *)
Definition os_listdir (dir : string) : M (list string) :=
  get (fun w =>
    omap (fun p =>
      let name := os_path_basename p in
      if bool_decide (os_path_join dir name = p) then Some name else None)
      (map_to_list (disk w)).*1).

Definition _load_bibles : M unit :=
  let! _ := _ensure_directories in
  let! _ := modify (set_bibles ∅) in
  let! root := get bible_root in
  try_except
    (let! dir := lift (as_path root) in
     let! files := os_listdir dir in
     for_each files (fun file =>
       if endswith ".json" file then
         let file_path := os_path_join dir file in
         try_except
           (let! bible_data := json_load file_path in
            if _validate_bible bible_data then
              let bible_id := (os_path_splitext file).1 in
              modify (fun w => set_bibles (<[bible_id := bible_data]> (bibles w)) w)
            else ret tt)
           (fun e =>
              match e with
              | PyError JSONDecodeError _ =>
                  raise_sanctify "ScriptureModel" "LOAD_002"
                    ("Error decoding JSON from " +:+ file_path +:+ ": " +:+ str_exn e)
              | _ =>
                  raise_sanctify "ScriptureModel" "LOAD_003"
                    ("Error loading bible from " +:+ file_path +:+ ": " +:+ str_exn e)
              end)
       else ret tt))
    (wrap "ScriptureModel" "LOAD_001"
       ("Error scanning bibles directory " +:+ py_str root +:+ ": ")).

Definition get_bible_by_id (bible_id : string) : M value :=
  try_except
    (let! b := get bibles in ret (default VNone (b !! bible_id)))
    (wrap "ScriptureModel" "GET_BY_ID_001"
       ("Error retrieving bible by ID " +:+ bible_id +:+ ": ")).

(** [next((b for b in bible["books"] if b["name"].lower() == book_name.lower()), None)] *)
Definition find_book (bible : value) (book_name : string) : result value :=
  let? books := py_getitem bible "books" in
  let? books := py_iter books in
  let? r := py_next (fun b =>
              let? n := name_lower b in Ok (bool_decide (n = lower book_name))) books in
  Ok (default VNone r).

(** [a == n] for a stored value and an integer *)
Definition eq_int (a : value) (n : Z) : bool :=
  match a with
  | VFloat (Finite num den) => bool_decide (num = n * Z.pos den)%Z
  | _ => bool_decide (int_of a = Some n)
  end.

Definition get_books (bible_id : string) : M value :=
  try_except
    (let! bible := get_bible_by_id bible_id in
     if negb (truthy bible) then
       raise_sanctify "ScriptureModel" "GET_BOOKS_001" ("Bible not found: " +:+ bible_id)
     else
     let! names := lift (
       let? books := py_getitem bible "books" in
       let? books := py_iter books in
       py_map (fun book => let? n := py_getitem book "name" in Ok (dict [("name", n)])) books) in
     let! r := lift (py_sorted String.leb name_lower names) in
     ret (VList r))
    (reraise_or_wrap "ScriptureModel" "GET_BOOKS_002"
       ("Error retrieving books for bible " +:+ bible_id +:+ ": ")).

(** The integer key of [sorted]: the values compared are the chapter and
    verse numbers, which [_validate_bible] makes integers. *)
Definition int_key (v : value) : result Z :=
  match int_of v with
  | Some z => Ok z
  | None =>
      Raise (PyError TypeError
        ("'<' not supported between instances of '" +:+ type_name v +:+ "' and 'int'"))
  end.

Definition get_chapters (bible_id book_name : string) : M value :=
  try_except
    (let! bible := get_bible_by_id bible_id in
     if negb (truthy bible) then
       raise_sanctify "ScriptureModel" "GET_CHAPTERS_001" ("Bible not found: " +:+ bible_id)
     else
     let! book := lift (find_book bible book_name) in
     if negb (truthy book) then
       raise_sanctify "ScriptureModel" "GET_CHAPTERS_002" ("Book not found: " +:+ book_name)
     else
     let! numbers := lift (
       let? chapters := py_getitem book "chapters" in
       let? chapters := py_iter chapters in
       py_map (fun chapter => py_getitem chapter "chapter") chapters) in
     let! r := lift (py_sorted Z.leb int_key numbers) in
     ret (VList r))
    (reraise_or_wrap "ScriptureModel" "GET_CHAPTERS_003"
       ("Error retrieving chapters for " +:+ book_name +:+ " in bible " +:+ bible_id +:+ ": ")).

Definition get_verses (bible_id book_name : string) (chapter_number : Z) : M value :=
  try_except
    (let! bible := get_bible_by_id bible_id in
     if negb (truthy bible) then
       raise_sanctify "ScriptureModel" "GET_VERSES_001" ("Bible not found: " +:+ bible_id)
     else
     let! book := lift (find_book bible book_name) in
     if negb (truthy book) then
       raise_sanctify "ScriptureModel" "GET_VERSES_002" ("Book not found: " +:+ book_name)
     else
     let! chapter := lift (
       let? chapters := py_getitem book "chapters" in
       let? chapters := py_iter chapters in
       let? r := py_next (fun c =>
                   let? n := py_getitem c "chapter" in Ok (eq_int n chapter_number)) chapters in
       Ok (default VNone r)) in
     if negb (truthy chapter) then
       raise_sanctify "ScriptureModel" "GET_VERSES_003"
         ("Chapter not found: " +:+ pretty chapter_number)
     else
     let! verses := lift (let? v := py_getitem chapter "verses" in py_iter v) in
     let! r := lift (py_sorted Z.leb
                       (fun x => let? n := py_getitem x "verse" in int_key n) verses) in
     ret (VList r))
    (reraise_or_wrap "ScriptureModel" "GET_VERSES_004"
       ("Error retrieving verses for " +:+ book_name +:+ " chapter "
        +:+ pretty chapter_number +:+ " in bible " +:+ bible_id +:+ ": ")).

Definition search_verses (bible_id query : string) : M value :=
  try_except
    (let! bible := get_bible_by_id bible_id in
     if negb (truthy bible) then
       raise_sanctify "ScriptureModel" "SEARCH_001" ("Bible not found: " +:+ bible_id)
     else
     let query := strip (lower query) in
     let! results := lift (
       let? books := py_getitem bible "books" in
       let? books := py_iter books in
       let? per_book := py_map (fun book =>
         let? chapters := py_getitem book "chapters" in
         let? chapters := py_iter chapters in
         let? per_chapter := py_map (fun chapter =>
           let? verses := py_getitem chapter "verses" in
           let? verses := py_iter verses in
           let? hits := py_map (fun verse =>
             let? text := py_getitem verse "text" in
             let? text_lower := py_lower text in
             if str_contains query text_lower then
               let? b := py_getitem book "name" in
               let? c := py_getitem chapter "chapter" in
               let? v := py_getitem verse "verse" in
               let? t := py_getitem verse "text" in
               Ok [dict [("book", b); ("chapter", c); ("verse", v); ("text", t)]]
             else Ok []) verses in
           Ok (concat hits)) chapters in
         Ok (concat per_chapter)) books in
       Ok (concat per_book)) in
     let! r := lift (py_sorted
       (fun a b : string * Z * Z =>
          match String.compare a.1.1 b.1.1 with
          | Lt => true
          | Gt => false
          | Eq => if (a.1.2 <? b.1.2)%Z then true
                  else if (b.1.2 <? a.1.2)%Z then false
                  else (a.2 <=? b.2)%Z
          end)
       (fun x =>
          let? b := py_getitem x "book" in
          let? b := py_lower b in
          let? c := py_getitem x "chapter" in
          let? c := int_key c in
          let? v := py_getitem x "verse" in
          let? v := int_key v in
          Ok (b, c, v)) results) in
     ret (VList r))
    (reraise_or_wrap "ScriptureModel" "SEARCH_002"
       ("Error searching verses in bible " +:+ bible_id +:+ ": ")).

Definition add_bible (bible_data : value) (bible_id : string) : M value :=
  try_except
    (let! b := get bibles in
     if bool_decide (is_Some (b !! bible_id)) then
       raise_sanctify "ScriptureModel" "ADD_001" ("Bible already exists: " +:+ bible_id)
     else if negb (_validate_bible bible_data) then
       let! n := lift (py_get bible_data "name" (VStr "Unknown")) in
       raise_sanctify "ScriptureModel" "ADD_002" ("Invalid bible data for " +:+ py_str n)
     else
     let! root := get bible_root in
     let! file_path := lift (let? dir := as_path root in
                             Ok (os_path_join dir (bible_id +:+ ".json"))) in
     try_except
       (let! _ := json_dump bible_data file_path in
        let! _ := modify (fun w => set_bibles (<[bible_id := bible_data]> (bibles w)) w) in
        ret (VBool true))
       (wrap "ScriptureModel" "ADD_003"
          ("Error saving bible " +:+ bible_id +:+ " to " +:+ file_path +:+ ": ")))
    (reraise_or_wrap "ScriptureModel" "ADD_004" "Error adding bible: ").

Definition delete_bible (bible_id : string) : M value :=
  try_except
    (let! bible := get_bible_by_id bible_id in
     if negb (truthy bible) then
       raise_sanctify "ScriptureModel" "DELETE_001" ("Bible not found: " +:+ bible_id)
     else
     let! root := get bible_root in
     let! file_path := lift (let? dir := as_path root in
                             Ok (os_path_join dir (bible_id +:+ ".json"))) in
     try_except
       (let! _ := os_remove file_path in
        let! _ := modify (fun w => set_bibles (delete bible_id (bibles w)) w) in
        ret (VBool true))
       (wrap "ScriptureModel" "DELETE_002"
          ("Error deleting bible file " +:+ file_path +:+ ": ")))
    (reraise_or_wrap "ScriptureModel" "DELETE_003" "Error deleting bible: ").

(** [ScriptureModel.__init__]; [bible_root] is read from the settings first. *)
Definition init : M unit :=
  let! root := get_setting "paths" "bibles" (VStr "data/bibles") in
  let! _ := modify (fun w =>
    mkWorld (config_file w) (ui_font w) (settings w) (restart_required w) (emitted w)
      (songs w) (media w) (themes w) (presentations w) (media_model w) (theme_model w)
      root ∅ (disk w)) in
  try_except _load_bibles (wrap "ScriptureModel" "INIT_001" "Initialization failed: ").

End ScriptureModel.

(** * The vocabulary of the specification *)

(** ** Songs *)

Import SongModel.

(** The songs file is configured at [p] and [p] has a directory part, so
    that [os.makedirs] has something to create: [_save_songs] then writes the
    list at [p]; otherwise it raises and writes nothing. *)
Definition save_ok (w : World) (p : string) : Prop :=
  (SongModel.songs_path w).1 = Ok (VStr p) /\ os_path_dirname p <> "".

(** The title of a stored song. *)
Definition title_of (song : value) : string :=
  match song with
  | VDict d => match d !! "title" with Some (VStr t) => t | _ => "" end
  | _ => ""
  end.

(** The song passes [_validate_song]. *)
Definition valid_song (song : value) : Prop := _validate_song song = true.

(** [song["title"].lower() == t.lower()] *)
Definition same_title (t : string) (song : value) : bool :=
  bool_decide (lower (title_of song) = lower t).

(** A mutation followed by [_save_songs] and [return True], as every
    mutating method of the song model ends. *)
Definition commit (w : World) : result value * World :=
  match _save_songs w with
  | (Ok _, w') => (Ok (VBool true), w')
  | (Raise e, w') => (Raise e, w')
  end.

(** The record [duplicate_song] appends. *)
Definition copy_of (song : value) (now : string) : value :=
  match song with
  | VDict d =>
      VDict (<["updated_at" := VStr now]> (<["created_at" := VStr now]>
             (<["title" := VStr (title_of song +:+ " (Copy)")]> d)))
  | _ => song
  end.

(** The string is made of white space only. *)
Fixpoint all_space (s : string) : bool :=
  match s with
  | EmptyString => true
  | String c s' => is_space c && all_space s'
  end.

(** The [created_at] stamp of a stored song. *)
Definition created_at_of (song : value) : value :=
  match song with
  | VDict d => default VNone (d !! "created_at")
  | _ => VNone
  end.

(** The record [update_song] stores for a full replacement record [d]. *)
Definition updated_record (song : value) (d : gmap string value) (now : string) : value :=
  VDict (<["created_at" := created_at_of song]> (<["updated_at" := VStr now]> d)).

(** The candidates that [add_song] turns down whatever it fills in: the
    title is missing, is not a string or is blank; the sections are given
    and are not a list of pairs of strings; the tags are given and are not a
    string; or the candidate is not a dict at all. *)
Definition rejected (song_data : value) : Prop :=
  match song_data with
  | VDict d =>
      match d !! "title" with
      | Some (VStr t) => strip t = ""
      | _ => True
      end
      \/ match d !! "sections" with
         | None => False
         | Some (VList l) => forallb is_section l = false
         | Some _ => True
         end
      \/ match d !! "tags" with
         | None | Some (VStr _) => False
         | Some _ => True
         end
  | _ => True
  end.

(** The record [add_song] builds from the candidate [d]. *)
Definition completed (d : gmap string value) (now : string) : gmap string value :=
  let d1 := <["updated_at" := VStr now]> (<["created_at" := VStr now]> d) in
  let d2 := match d !! "sections" with Some _ => d1 | None => <["sections" := VList []]> d1 end in
  match d !! "tags" with Some _ => d2 | None => <["tags" := VStr ""]> d2 end.

(** Concrete worlds for examples *)
Definition world0 : World :=
  mkWorld "data/config/settings.json" "Arial,12,-1,5,50,0,0,0,0,0"
    (default_settings "Arial,12,-1,5,50,0,0,0,0,0") false []
    [] [] [] [] false false (VStr "data/bibles") ∅ ∅.

Definition sample_song (title : string) : value :=
  dict [("title", VStr title); ("sections", VList [VList [VStr "Verse"; VStr "la la"]]);
        ("tags", VStr "hymn"); ("created_at", VStr "2024-01-01T00:00:00");
        ("updated_at", VStr "2024-01-01T00:00:00")].

Definition world_AB : World := set_songs [sample_song "A"; sample_song "B"] world0.

(** ** Settings *)

Import SettingsManager.

(** The size of a value, on which the recursion of [_merge_settings]
    descends. *)
Fixpoint vsize (v : value) : nat :=
  match v with
  | VList l => S (foldr (fun x n => vsize x + n) 0 l)
  | VDict d => S (map_fold (fun _ x n => vsize x + n) 0 d)
  | _ => 1
  end.

(** ** Scripture *)

Import ScriptureModel.

(** Reading a stored record *)
Definition field (k : string) (v : value) : value :=
  match v with
  | VDict d => default VNone (d !! k)
  | _ => VNone
  end.

(** The items of a list, the text of a string and the number of an int;
    any other value reads as the empty list, the empty string and zero. *)
Definition items_of (v : value) : list value :=
  match v with VList l => l | _ => [] end.

Definition text_of (v : value) : string :=
  match v with VStr s => s | _ => "" end.

Definition number_of (v : value) : Z := default 0%Z (int_of v).

(** The books of a bible, the chapters of a book and the verses of a chapter *)
Definition books_of (bible : value) : list value := items_of (field "books" bible).

Definition chapters_of (book : value) : list value := items_of (field "chapters" book).

Definition verses_of (chapter : value) : list value := items_of (field "verses" chapter).

(** [book["name"].lower() == book_name.lower()] *)
Definition book_named (book_name : string) (book : value) : bool :=
  bool_decide (lower (text_of (field "name" book)) = lower book_name).

(** [chapter["chapter"] == n] *)
Definition chapter_numbered (n : Z) (chapter : value) : bool :=
  bool_decide (number_of (field "chapter" chapter) = n).

(** The order in which [get_verses] returns the verses *)
Definition verse_le (a b : value) : Prop :=
  (number_of (field "verse" a) <= number_of (field "verse" b))%Z.

(** The error [get_verses] raises for what it does not find *)
Definition not_found (code what : string) : exn :=
  Sanctify (SanctifyError_init "ScriptureModel" code what).

(** ** Effects on one attribute, and media *)

(** [c] leaves the attribute [proj] of the world as it is, whether it
    returns or raises. *)
Definition preserves {X A} (proj : World -> X) (c : M A) : Prop :=
  forall w, proj (c w).2 = proj w.

(** [c] moves the attribute along [R]. *)
Definition steps {X A} (proj : World -> X) (R : X -> X -> Prop) (c : M A) : Prop :=
  forall w, R (proj w) (proj (c w).2).

(** The attributes that file operations leave alone *)
Class NotDisk {X} (proj : World -> X) : Prop :=
  not_disk : forall d w, proj (set_disk d w) = proj w.

Import MediaModel.

(** The item is the logo: its [is_logo] is [True]. *)
Definition is_logo (m : value) : bool := bool_decide (field "is_logo" m = VBool true).

(** How many items of the collection are the logo *)
Definition logo_count (l : list value) : nat := length (filter (fun m => is_logo m = true) l).

(** The property the media model keeps *)
Definition at_most_one_logo (l : list value) : Prop := logo_count l <= 1.

(** What the operations may do to the list of media *)
Definition appends_plain_item (l l' : list value) : Prop :=
  l' = l \/ exists item, l' = l ++ [item] /\ field "is_logo" item = VBool false.

Definition replaces_item (l l' : list value) : Prop :=
  l' = l \/ exists l1 m l2 m',
    l = l1 ++ m :: l2 /\ l' = l1 ++ l2 ++ [m'] /\ field "is_logo" m' = field "is_logo" m.

Definition removes_item (l l' : list value) : Prop :=
  l' = l \/ exists l1 m l2, l = l1 ++ m :: l2 /\ l' = l1 ++ l2.

(** Whatever [c] returns satisfies [P]. *)
Definition returns {A} (P : A -> Prop) (c : M A) : Prop :=
  forall w a, (c w).1 = Ok a -> P a.

(** The record is a dict with an id. *)
Definition has_id_field (m : value) : Prop :=
  exists d i, m = VDict d /\ d !! "id" = Some i.

(** [m["id"] == media_id] *)
Definition has_this_id (media_id : string) (m : value) : bool :=
  bool_decide (field "id" m = VStr media_id).

(** The item as the loop of [set_logo] leaves it. *)
Definition mark_as_logo (media_id : string) (m : value) : value :=
  match m with
  | VDict d => VDict (<["is_logo" := VBool (has_this_id media_id m)]> d)
  | _ => m
  end.

(** The operations of the media model that change the collection; the
    time and the fresh id, which the methods read from the clock and from
    [uuid4], are arguments here. *)
Inductive media_op :=
  | AddMedia (source_path category display_name tags scaling new_id now now' : string)
  | UpdateMedia (media_id : string) (media_data : value) (now : string)
  | DeleteMedia (media_id : string)
  | DuplicateMedia (media_id new_id now now' : string)
  | SetLogo (media_id : string).

Definition run_media_op (op : media_op) : M value :=
  match op with
  | AddMedia source_path category display_name tags scaling new_id now now' =>
      add_media source_path category display_name tags scaling new_id now now'
  | UpdateMedia media_id media_data now => update_media media_id media_data now
  | DeleteMedia media_id => delete_media media_id
  | DuplicateMedia media_id new_id now now' => duplicate_media media_id new_id now now'
  | SetLogo media_id => set_logo media_id
  end.

(** ** Names that stay distinct *)

(** Run from a world whose collection [proj] is [x], the method ends with a
    result and a collection that satisfy [Q]. *)
Definition outcome {X A} (proj : World -> X) (c : M A) (x : X)
    (Q : result A -> X -> Prop) : Prop :=
  forall w, proj w = x -> Q (c w).1 (proj (c w).2).

Import SongModel.

(** The song is a dict whose title is a string. *)
Definition titled (s : value) : Prop :=
  exists d t, s = VDict d /\ d !! "title" = Some (VStr t).

(** The title as the uniqueness checks compare it: in lower case. *)
Definition key_title (s : value) : string := lower (title_of s).

(** The method raised a [SanctifyError] and the collection is as it was. *)
Definition unchanged {A} (l : list value) (r : result A) (l' : list value) : Prop :=
  exists e, r = Raise (Sanctify e) /\ l' = l.

(** [s] is a song other than the one titled [old] and has the title of
    [data], letter case apart. *)
Definition other_with_title (old : string) (data s : value) : bool :=
  negb (bool_decide (key_title s = lower old)) && bool_decide (key_title s = key_title data).

(** The record is a dict whose name is a string. *)
Definition named (s : value) : Prop :=
  exists d n, s = VDict d /\ d !! "name" = Some (VStr n).

(** The name as the uniqueness checks compare it: in lower case. *)
Definition key_name (s : value) : string := lower (text_of (field "name" s)).

(** [s] is a record other than those with the id [id] and has the name of
    [data], letter case apart. *)
Definition other_with_name (id : string) (data s : value) : bool :=
  negb (has_this_id id s) && bool_decide (key_name s = key_name data).

(** The three collections whose records are told apart by a title or a name *)
Inductive collection := Songs | Themes | Presentations.

Definition contents (c : collection) (w : World) : list value :=
  match c with
  | Songs => songs w
  | Themes => themes w
  | Presentations => presentations w
  end.

(** The add, update and duplicate operations of the three models; the time
    and the fresh id, which the methods read from the clock and from
    [uuid4], are arguments here. *)
Inductive name_op :=
  | AddSong (song_data : value) (now : string)
  | UpdateSong (old_title : string) (song_data : value) (now : string)
  | DuplicateSong (title now : string)
  | CreateTheme (name context alignment font_color background_color : string)
      (font_size : Z) (font_family tags new_id now now' : string)
  | UpdateTheme (theme_id : string) (updated_data : value) (now : string)
  | DuplicateTheme (theme_id new_id now : string)
  | CreatePresentation (name theme : string) (slides : value) (tags new_id now now' : string)
  | UpdatePresentation (presentation_id : string) (updated_data : value) (now : string)
  | DuplicatePresentation (presentation_id new_id now : string).

(** The collection an operation works on *)
Definition target (o : name_op) : collection :=
  match o with
  | AddSong _ _ | UpdateSong _ _ _ | DuplicateSong _ _ => Songs
  | CreateTheme _ _ _ _ _ _ _ _ _ _ _ | UpdateTheme _ _ _ | DuplicateTheme _ _ _ => Themes
  | CreatePresentation _ _ _ _ _ _ _ | UpdatePresentation _ _ _
  | DuplicatePresentation _ _ _ => Presentations
  end.

Definition run_op (o : name_op) : M value :=
  match o with
  | AddSong song_data now => SongModel.add_song song_data now
  | UpdateSong old_title song_data now => SongModel.update_song old_title song_data now
  | DuplicateSong title now => SongModel.duplicate_song title now
  | CreateTheme name context alignment font_color background_color font_size font_family
      tags new_id now now' =>
      ThemeModel.create_theme name context alignment font_color background_color font_size
        font_family tags new_id now now'
  | UpdateTheme theme_id updated_data now => ThemeModel.update_theme theme_id updated_data now
  | DuplicateTheme theme_id new_id now => ThemeModel.duplicate_theme theme_id new_id now
  | CreatePresentation name theme slides tags new_id now now' =>
      PresentationModel.create_presentation name theme slides tags new_id now now'
  | UpdatePresentation presentation_id updated_data now =>
      PresentationModel.update_presentation presentation_id updated_data now
  | DuplicatePresentation presentation_id new_id now =>
      PresentationModel.duplicate_presentation presentation_id new_id now
  end.

(** The world after the operations ran one after the other; an operation
    that raised is caught by its caller and the next one runs. *)
Fixpoint run_ops (ops : list name_op) (w : World) : World :=
  match ops with
  | [] => w
  | o :: rest => run_ops rest (run_op o w).2
  end.

(** The record has an id, a string. *)
Definition identified (s : value) : Prop := exists i, field "id" s = VStr i.

(** Songs: every record has a title and no two titles are equal, letter
    case apart. *)
Definition distinct_titles (l : list value) : Prop :=
  Forall titled l /\ NoDup (key_title <$> l).

(** Themes and presentations: every record has a name and an id, no two names
    are equal, letter case apart, and no two ids are equal. *)
Definition distinct_names (l : list value) : Prop :=
  Forall named l /\ Forall identified l /\
  NoDup (key_name <$> l) /\ NoDup (field "id" <$> l).

Definition well_kept (c : collection) (l : list value) : Prop :=
  match c with
  | Songs => distinct_titles l
  | Themes | Presentations => distinct_names l
  end.

(** The state in which the three collections are kept *)
Definition names_distinct (w : World) : Prop :=
  forall c, well_kept c (contents c w).

(** The id that [uuid.uuid4()] hands to the operation is not in use. *)
Definition fresh_id (o : name_op) (w : World) : Prop :=
  match o with
  | CreateTheme _ _ _ _ _ _ _ _ new_id _ _ | DuplicateTheme _ new_id _ =>
      VStr new_id ∉ field "id" <$> themes w
  | CreatePresentation _ _ _ _ new_id _ _ | DuplicatePresentation _ new_id _ =>
      VStr new_id ∉ field "id" <$> presentations w
  | _ => True
  end.

Fixpoint fresh_ids (ops : list name_op) (w : World) : Prop :=
  match ops with
  | [] => True
  | o :: rest => fresh_id o w /\ fresh_ids rest (run_op o w).2
  end.

(** The name the operation asks for is the name, letter case apart, of a
    record other than the one it replaces. *)
Definition would_duplicate (o : name_op) (w : World) : Prop :=
  match o with
  | AddSong song_data _ =>
      exists t, field "title" song_data = VStr t /\ lower t ∈ key_title <$> songs w
  | UpdateSong old_title song_data _ =>
      exists t s, field "title" song_data = VStr t /\ s ∈ songs w /\
                  key_title s <> lower old_title /\ key_title s = lower t
  | DuplicateSong title _ => lower (title +:+ " (Copy)") ∈ key_title <$> songs w
  | CreateTheme name _ _ _ _ _ _ _ _ _ _ => lower name ∈ key_name <$> themes w
  | UpdateTheme theme_id updated_data _ =>
      exists n s, field "name" updated_data = VStr n /\ s ∈ themes w /\
                  field "id" s <> VStr theme_id /\ key_name s = lower n
  | DuplicateTheme theme_id _ _ =>
      exists m, m ∈ themes w /\ field "id" m = VStr theme_id /\
                lower (text_of (field "name" m) +:+ " (Copy)") ∈ key_name <$> themes w
  | CreatePresentation name _ _ _ _ _ _ => lower name ∈ key_name <$> presentations w
  | UpdatePresentation presentation_id updated_data _ =>
      exists n s, field "name" updated_data = VStr n /\ s ∈ presentations w /\
                  field "id" s <> VStr presentation_id /\ key_name s = lower n
  | DuplicatePresentation presentation_id _ _ =>
      exists m, m ∈ presentations w /\ field "id" m = VStr presentation_id /\
                lower (text_of (field "name" m) +:+ " (Copy)") ∈ key_name <$> presentations w
  end.

(** Checking the hypotheses of the theorem on a given world *)
Definition check_titles (l : list value) : bool :=
  forallb (fun s => is_str (field "title" s)) l && bool_decide (NoDup (key_title <$> l)).

Definition check_names (l : list value) : bool :=
  forallb (fun s => is_str (field "name" s) && is_str (field "id" s)) l
  && bool_decide (NoDup (key_name <$> l)) && bool_decide (NoDup (field "id" <$> l)).

(** Concrete themes for examples *)
Definition sample_theme (id name : string) : value :=
  dict [("id", VStr id); ("name", VStr name); ("context", VStr "Songs");
        ("alignment", VStr "Centered"); ("font_color", VStr "#ffffff");
        ("background_color", VStr "#000000"); ("font_size", VInt 32);
        ("font_family", VStr "Arial"); ("tags", VStr "");
        ("created_at", VStr "2024-01-01T00:00:00");
        ("updated_at", VStr "2024-01-01T00:00:00")].

Definition world_themes : World := set_themes [sample_theme "x" "A"; sample_theme "y" "B"] world_AB.

Definition sample_ops : list name_op :=
  [AddSong (sample_song "C") "2024-05-05T10:00:00";
   UpdateSong "A" (sample_song "D") "2024-05-05T10:00:01";
   DuplicateSong "B" "2024-05-05T10:00:02";
   CreateTheme "C" "Songs" "Left" "#000000" "#ffffff" 20 "Arial" "" "z"
     "2024-05-05T10:00:03" "2024-05-05T10:00:03";
   UpdateTheme "x" (dict [("name", VStr "E")]) "2024-05-05T10:00:04";
   DuplicateTheme "y" "u" "2024-05-05T10:00:05"].

Definition sample_clash : name_op :=
  CreateTheme "b (copy)" "Songs" "Left" "#000000" "#ffffff" 20 "Arial" "" "v"
    "2024-05-05T10:00:06" "2024-05-05T10:00:06".

(** Two themes that share an id: each passes [_validate_theme] and their
    names differ. *)
Definition world_shared_id : World := set_themes [sample_theme "x" "A"; sample_theme "x" "B"] world0.

(** ** What a method may raise *)

(** The error was built by [SanctifyError.__init__]: its message is
    ["[module] error_code: message"]. *)
Definition formatted (e : SanctifyError) : Prop :=
  exists m c msg, e = SanctifyError_init m c msg.

(** What may travel inside a method body: any Python exception, and
    [SanctifyError]s that were built by the constructor. *)
Definition tame (e : exn) : Prop :=
  match e with
  | Sanctify s => formatted s
  | PyError _ _ => True
  end.

(** A plain computation raises no [SanctifyError]. *)
Definition pure {A} (r : result A) : Prop :=
  match r with
  | Raise (Sanctify _) => False
  | _ => True
  end.

Definition inner {A} (c : M A) : Prop :=
  forall w e, (c w).1 = Raise e -> tame e.

Definition outer {A} (c : M A) : Prop :=
  forall w e, (c w).1 = Raise e -> exists s, e = Sanctify s /\ formatted s.

(** The operations of the six modules; the time and the fresh id, which the
    methods read from the clock and from [uuid4], are arguments here. *)
Inductive operation :=
  | Song_load
  | Song_save
  | Song_add (song_data : value) (now : string)
  | Song_update (old_title : string) (song_data : value) (now : string)
  | Song_delete (title : string)
  | Song_duplicate (title now : string)
  | Song_search (query search_mode tag : string)
  | Song_get (title : string)
  | Song_get_all
  | Theme_load
  | Theme_save
  | Theme_create (name context alignment font_color background_color : string)
      (font_size : Z) (font_family tags new_id now now' : string)
  | Theme_update (theme_id : string) (updated_data : value) (now : string)
  | Theme_delete (theme_id : string)
  | Theme_duplicate (theme_id new_id now : string)
  | Theme_search (query context tag : string)
  | Theme_get (theme_id : string)
  | Media_load
  | Media_save
  | Media_add (source_path category display_name tags scaling new_id now now' : string)
  | Media_update (media_id : string) (media_data : value) (now : string)
  | Media_delete (media_id : string)
  | Media_duplicate (media_id new_id now now' : string)
  | Media_search (query category tag : string)
  | Media_get (media_id : string)
  | Media_set_logo (media_id : string)
  | Presentation_load
  | Presentation_save
  | Presentation_create (name theme : string) (slides : value) (tags new_id now now' : string)
  | Presentation_update (presentation_id : string) (updated_data : value) (now : string)
  | Presentation_delete (presentation_id : string)
  | Presentation_duplicate (presentation_id new_id now : string)
  | Presentation_search (query tag : string)
  | Presentation_get (presentation_id : string)
  | Presentation_import (ppt_path new_id now now' : string)
  | Scripture_load
  | Scripture_add (bible_data : value) (bible_id : string)
  | Scripture_delete (bible_id : string)
  | Scripture_search (bible_id query : string)
  | Scripture_get (bible_id : string)
  | Scripture_books (bible_id : string)
  | Scripture_chapters (bible_id book_name : string)
  | Scripture_verses (bible_id book_name : string) (chapter_number : Z)
  | Settings_init
  | Settings_load
  | Settings_save
  | Settings_get (section key : string) (dflt : value)
  | Settings_set (section key : string) (v : value)
  | Settings_reset
  | Settings_export (file_path : string)
  | Settings_import (file_path : string).

(** The exception a call ends with, if it raises. *)
Definition failure {A} (r : result A * World) : option exn :=
  match r.1 with
  | Ok _ => None
  | Raise e => Some e
  end.

(** Loading is what a model does when it is constructed: [__init__] is the
    only caller of [_load_songs], [_load_themes], [_load_media],
    [_load_presentations] and [_load_bibles]. *)
Definition raised (o : operation) (w : World) : option exn :=
  match o with
  | Song_load => failure (SongModel.init w)
  | Song_save => failure (SongModel._save_songs w)
  | Song_add song_data now => failure (SongModel.add_song song_data now w)
  | Song_update old_title song_data now =>
      failure (SongModel.update_song old_title song_data now w)
  | Song_delete title => failure (SongModel.delete_song title w)
  | Song_duplicate title now => failure (SongModel.duplicate_song title now w)
  | Song_search query search_mode tag =>
      failure (SongModel.search_songs query search_mode tag w)
  | Song_get title => failure (SongModel.get_song_by_title title w)
  | Song_get_all => failure (SongModel.get_all_songs w)
  | Theme_load => failure (ThemeModel.init w)
  | Theme_save => failure (ThemeModel._save_themes w)
  | Theme_create name context alignment font_color background_color font_size font_family
      tags new_id now now' =>
      failure (ThemeModel.create_theme name context alignment font_color background_color
                 font_size font_family tags new_id now now' w)
  | Theme_update theme_id updated_data now =>
      failure (ThemeModel.update_theme theme_id updated_data now w)
  | Theme_delete theme_id => failure (ThemeModel.delete_theme theme_id w)
  | Theme_duplicate theme_id new_id now =>
      failure (ThemeModel.duplicate_theme theme_id new_id now w)
  | Theme_search query context tag => failure (ThemeModel.search_themes query context tag w)
  | Theme_get theme_id => failure (ThemeModel.get_theme_by_id theme_id w)
  | Media_load => failure (MediaModel.init w)
  | Media_save => failure (MediaModel._save_media w)
  | Media_add source_path category display_name tags scaling new_id now now' =>
      failure (MediaModel.add_media source_path category display_name tags scaling
                 new_id now now' w)
  | Media_update media_id media_data now =>
      failure (MediaModel.update_media media_id media_data now w)
  | Media_delete media_id => failure (MediaModel.delete_media media_id w)
  | Media_duplicate media_id new_id now now' =>
      failure (MediaModel.duplicate_media media_id new_id now now' w)
  | Media_search query category tag => failure (MediaModel.search_media query category tag w)
  | Media_get media_id => failure (MediaModel.get_media_by_id media_id w)
  | Media_set_logo media_id => failure (MediaModel.set_logo media_id w)
  | Presentation_load => failure (PresentationModel.init w)
  | Presentation_save => failure (PresentationModel._save_presentations w)
  | Presentation_create name theme slides tags new_id now now' =>
      failure (PresentationModel.create_presentation name theme slides tags new_id now now' w)
  | Presentation_update presentation_id updated_data now =>
      failure (PresentationModel.update_presentation presentation_id updated_data now w)
  | Presentation_delete presentation_id =>
      failure (PresentationModel.delete_presentation presentation_id w)
  | Presentation_duplicate presentation_id new_id now =>
      failure (PresentationModel.duplicate_presentation presentation_id new_id now w)
  | Presentation_search query tag =>
      failure (PresentationModel.search_presentations query tag w)
  | Presentation_get presentation_id =>
      failure (PresentationModel.get_presentation_by_id presentation_id w)
  | Presentation_import ppt_path new_id now now' =>
      failure (PresentationModel.import_from_ppt ppt_path new_id now now' w)
  | Scripture_load => failure (ScriptureModel.init w)
  | Scripture_add bible_data bible_id =>
      failure (ScriptureModel.add_bible bible_data bible_id w)
  | Scripture_delete bible_id => failure (ScriptureModel.delete_bible bible_id w)
  | Scripture_search bible_id query => failure (ScriptureModel.search_verses bible_id query w)
  | Scripture_get bible_id => failure (ScriptureModel.get_bible_by_id bible_id w)
  | Scripture_books bible_id => failure (ScriptureModel.get_books bible_id w)
  | Scripture_chapters bible_id book_name =>
      failure (ScriptureModel.get_chapters bible_id book_name w)
  | Scripture_verses bible_id book_name chapter_number =>
      failure (ScriptureModel.get_verses bible_id book_name chapter_number w)
  | Settings_init => failure (SettingsManager.init w)
  | Settings_load => failure (SettingsManager.load_settings w)
  | Settings_save => failure (SettingsManager._save_settings w)
  | Settings_get section key dflt => failure (get_setting section key dflt w)
  | Settings_set section key v => failure (SettingsManager.set_setting section key v w)
  | Settings_reset => failure (SettingsManager.reset_settings w)
  | Settings_export file_path => failure (SettingsManager.export_settings file_path w)
  | Settings_import file_path => failure (SettingsManager.import_settings file_path w)
  end.

(** ** Examples *)

(** A bible whose first chapter lists its verses out of order. *)
Definition sample_verse (n : Z) (text : string) : value :=
  dict [("verse", VInt n); ("text", VStr text)].

Definition chapter_one : value :=
  dict [("chapter", VInt 1);
        ("verses", VList [sample_verse 3 "And God said"; sample_verse 1 "In the beginning";
                          sample_verse 2 "And the earth was"])].

Definition sample_bible : value :=
  dict [("name", VStr "Sample");
        ("books", VList [dict [("name", VStr "Genesis"); ("chapters", VList [chapter_one])]])].

Definition world_bible : World := set_bibles {["sample" := sample_bible]} world0.

(** Media items; their files are on the disk of [world_media]. *)
Definition media_item (id name path : string) (logo : bool) : value :=
  dict [("id", VStr id); ("name", VStr name); ("path", VStr path);
        ("category", VStr "Images"); ("tags", VStr ""); ("scaling", VStr "fit");
        ("is_logo", VBool logo); ("created_at", VStr "2024-01-01T00:00:00");
        ("updated_at", VStr "2024-01-01T00:00:00")].

Definition media_disk : gmap string file :=
  {["data/media/Images/cross" := RawFile "png"; "data/media/Images/dove.png" := RawFile "png"]}.

Definition world_media : World :=
  set_media [media_item "m1" "cross" "Images/cross" true;
             media_item "m2" "dove.png" "Images/dove.png" false]
    (set_disk media_disk world0).

(** The same two files described by two records that share an id. *)
Definition world_media_shared_id : World :=
  set_media [media_item "x" "cross" "Images/cross" false;
             media_item "x" "dove.png" "Images/dove.png" false]
    (set_disk media_disk world0).

(** * The vocabulary of the further properties *)

(** ** Reading the collections *)

(** The order of two keyed elements under the comparison [le] *)
Definition le_key {K A} (le : K -> K -> bool) (a b : K * A) : Prop := le a.1 b.1 = true.

(** What [sorted(l, key=...)] returns when [k] is the key, a string: the
    elements of [l], in ascending order of their keys, those with the same
    key in the order they have in [l]. *)
Definition sorted_by_lower (k : value -> string) (l vs : list value) : Prop :=
  vs ≡ₚ l /\
  Sorted (fun a b => String.leb (k a) (k b) = true) vs /\
  forall s, filter (fun x => k x = s) vs = filter (fun x => k x = s) l.

(** The record is a dict with the key [k]. *)
Definition has_key (k : string) (x : value) : Prop :=
  exists d v, x = VDict d /\ d !! k = Some v.

(** The records that [get_all_media] and [get_all_themes] keep: all of them
    for the empty string, else those whose field [k] is [wanted]. *)
Definition selected (k wanted : string) (l : list value) : list value :=
  if decide (wanted = "") then l else filter (fun x => field k x = VStr wanted) l.

(** The record is a dict whose tags, when it has any, are a string. *)
Definition tags_ok (x : value) : bool :=
  match x with
  | VDict d => match d !! "tags" with None | Some (VStr _) => true | Some _ => false end
  | _ => false
  end.

(** The four models that list their tags *)
Inductive tag_source := SongTags | ThemeTags | PresentationTags | MediaTags.

Definition get_all_tags_of (m : tag_source) : M value :=
  match m with
  | SongTags => SongModel.get_all_tags
  | ThemeTags => ThemeModel.get_all_tags
  | PresentationTags => PresentationModel.get_all_tags
  | MediaTags => MediaModel.get_all_tags
  end.

Definition records_of (m : tag_source) (w : World) : list value :=
  match m with
  | SongTags => songs w
  | ThemeTags => themes w
  | PresentationTags => presentations w
  | MediaTags => media w
  end.

(** The verdict of a test that did not raise *)
Definition accepts {A} (f : A -> result bool) (x : A) : bool :=
  match f x with Ok b => b | Raise _ => false end.

(** ** Settings *)

(** The section is a dict and holds no value that [_validate_settings]
    resets. *)
Definition section_valid (section : string) (x : value) : Prop :=
  exists d, x = VDict d /\
    forall key v, d !! key = Some v -> SettingsManager.invalid_setting section key v = false.

(** ** Scripture *)

(** The entry of [get_books] for a book *)
Definition book_entry (book : value) : value := dict [("name", field "name" book)].

(** The record [search_verses] reports for a verse *)
Definition hit_of (book chapter verse : value) : value :=
  dict [("book", field "name" book); ("chapter", field "chapter" chapter);
        ("verse", field "verse" verse); ("text", field "text" verse)].

(** The verses of a bible whose text in lower case contains [q], book by
    book and chapter by chapter *)
Definition verse_hits (q : string) (bible : value) : list value :=
  concat ((fun book =>
    concat ((fun chapter =>
      concat ((fun verse =>
        if str_contains q (lower (text_of (field "text" verse)))
        then [hit_of book chapter verse] else []) <$> verses_of chapter))
      <$> chapters_of book))
    <$> books_of bible).

(** The key by which [search_verses] sorts its results, and its order:
    by book name in lower case, then chapter, then verse *)
Definition hit_key (h : value) : string * Z * Z :=
  (lower (text_of (field "book" h)), number_of (field "chapter" h),
   number_of (field "verse" h)).

Definition hit_le (a b : value) : Prop :=
  match String.compare (hit_key a).1.1 (hit_key b).1.1 with
  | Lt => True
  | Gt => False
  | Eq => ((hit_key a).1.2 < (hit_key b).1.2)%Z
          \/ ((hit_key a).1.2 = (hit_key b).1.2 /\ ((hit_key a).2 <= (hit_key b).2)%Z)
  end.

(** ** Examples *)

(** A songs file and a settings file holding the document [doc] *)
Definition world_songs_file (doc : value) : World :=
  set_disk {["data/songs/songs.json" := JsonFile doc]} world0.

Definition world_settings_file (doc : value) : World :=
  set_disk {["data/config/settings.json" := JsonFile doc]} world0.

(** Two presentations *)
Definition sample_presentation (id name theme : string) : value :=
  dict [("id", VStr id); ("name", VStr name); ("theme", VStr theme);
        ("slides", VList [VList [VStr "Text"; VStr "Welcome"]]); ("tags", VStr "easter, choir");
        ("created_at", VStr "2024-01-01T00:00:00");
        ("updated_at", VStr "2024-01-01T00:00:00")].

Definition world_presentations : World :=
  set_presentations [sample_presentation "p2" "Vigil" "x"; sample_presentation "p1" "easter" "x"]
    world_themes.

(** The themes of [world_themes], with the theme model attached to the
    presentation model *)
Definition world_theme_model : World :=
  mkWorld (config_file world_themes) (ui_font world_themes) (settings world_themes)
    (restart_required world_themes) (emitted world_themes) (songs world_themes)
    (media world_themes) (themes world_themes) (presentations world_themes)
    false true (bible_root world_themes) (bibles world_themes) (disk world_themes).

(** A settings file with a language and an auto-save interval that
    [_validate_settings] resets, and the general section after loading it *)
Definition world_bad_settings : World :=
  world_settings_file
    (dict [("general", dict [("language", VStr "Latin")]);
           ("behavior", dict [("auto_save_interval", VInt 5)])]).

Definition loaded_general : value :=
  dict [("startup_screen", VStr "Songs"); ("language", VStr "English");
        ("enable_tips", VBool true);
        ("window_geometry", dict [("width", VInt 1280); ("height", VInt 720);
                                  ("x", VInt 100); ("y", VInt 100)])].

(** The records that the examples create *)
Definition advent_theme : value :=
  dict [("id", VStr "z"); ("name", VStr "Advent"); ("context", VStr "Songs");
        ("alignment", VStr "Left"); ("font_color", VStr "#000000");
        ("background_color", VStr "#ffffff"); ("font_size", VInt 20);
        ("font_family", VStr "Arial"); ("tags", VStr "candles");
        ("created_at", VStr "2024-05-05T10:00:00");
        ("updated_at", VStr "2024-05-05T10:00:01")].

Definition imported_deck (id now : string) : value :=
  dict [("id", VStr id); ("name", VStr "Easter"); ("theme", VStr "default");
        ("slides", VList [VList [VStr "Text"; VStr "Slide 1: Imported content..."];
                          VList [VStr "Text"; VStr "Slide 2: More content..."]]);
        ("tags", VStr "imported,pptx"); ("created_at", VStr now); ("updated_at", VStr now)].

Definition dove_copy : value :=
  dict [("id", VStr "m3"); ("name", VStr "dove.png"); ("path", VStr "Images/m3.png");
        ("category", VStr "Images"); ("tags", VStr "doves"); ("scaling", VStr "fit");
        ("created_at", VStr "2024-05-05T10:00:00");
        ("updated_at", VStr "2024-05-05T10:00:01"); ("is_logo", VBool false)].

(** * Songs: saving, loading and the four mutations *)

Import SongModel.

Ltac munfold :=
  unfold bind, ret, lift, get, modify, raise_sanctify, raise, try_except, wrap, reraise_or_wrap in *.

Lemma default_settings_dict font section v :
  default_settings font !! section = Some v -> exists d, v = VDict d.
Proof.
  unfold default_settings. cbn [list_to_map foldr uncurry fst snd].
  repeat (rewrite lookup_insert; case_decide; [intros [= <-]; unfold dict; eauto|]).
  rewrite lookup_empty. discriminate.
Qed.

Lemma get_setting_cases section key dflt w :
  (exists v, get_setting section key dflt w = (Ok v, w)) \/
  (exists e, get_setting section key dflt w = (Raise (Sanctify e), w)).
Proof.
  assert (Hd : forall k, exists v, (let? sec := py_get (VDict (default_settings (ui_font w))) section (VDict ∅) in py_get sec k VNone) = Ok v).
  { intros k. simpl. destruct (default_settings (ui_font w) !! section) as [v|] eqn:E; simpl; eauto.
    apply default_settings_dict in E as [d ->]. simpl. eauto. }
  unfold get_setting. munfold. simpl.
  assert (Hk : (exists v, match dflt with
     | VNone => λ w0 : World,
           (py_get (default (VDict ∅) (default_settings (ui_font w0) !! section)) key VNone, w0)
     | _ => λ w0 : World, (Ok dflt, w0)
     end w = (Ok v, w))).
  { destruct dflt; simpl; eauto. destruct (Hd key) as [v Hv]. simpl in Hv. rewrite Hv. eauto. }
  destruct (settings w !! section) as [sec|]; simpl; [|by left].
  destruct (py_getitem sec key) as [v|[e|[] t]] eqn:E; simpl; eauto.
Qed.

Lemma get_setting_frame section key dflt w w' :
  settings w' = settings w -> ui_font w' = ui_font w ->
  (get_setting section key dflt w').1 = (get_setting section key dflt w).1.
Proof.
  intros Hs Hf. unfold get_setting. munfold. simpl. rewrite Hs.
  destruct (settings w !! section) as [sec|]; simpl.
  - destruct (py_getitem sec key) as [v|[e|[] t]]; simpl; try done.
    destruct dflt; simpl; try done. by rewrite Hf.
  - destruct dflt; simpl; try done. by rewrite Hf.
Qed.

Lemma save_songs_ok w p :
  save_ok w p ->
  _save_songs w = (Ok tt, set_disk (<[p := JsonFile (VList (songs w))]> (disk w)) w).
Proof.
  intros [Hp Hd]. unfold _save_songs, SongModel.songs_path in *.
  destruct (get_setting_cases "paths" "songs" (VStr "data/songs/songs.json") w) as [[v E]|[e E]];
    rewrite E in Hp; simpl in Hp; [|discriminate]. injection Hp as ->.
  munfold. rewrite E. simpl. unfold os_makedirs. rewrite bool_decide_false by done.
  reflexivity.
Qed.

Lemma save_songs_cases w :
  (exists p, save_ok w p /\
     _save_songs w = (Ok tt, set_disk (<[p := JsonFile (VList (songs w))]> (disk w)) w))
  \/ (exists e, _save_songs w = (Raise (Sanctify e), w)).
Proof.
  destruct (get_setting_cases "paths" "songs" (VStr "data/songs/songs.json") w) as [[v E]|[e E]].
  - destruct v as [| | | |p| |].
    5: { destruct (decide (os_path_dirname p = "")) as [Hd|Hd].
         - right. unfold _save_songs, SongModel.songs_path. munfold. rewrite E. simpl.
           unfold os_makedirs. rewrite bool_decide_true by done. simpl. eauto.
         - left. exists p. assert (save_ok w p) by (split; [unfold SongModel.songs_path; by rewrite E|done]).
           split; [done|]. by apply save_songs_ok. }
    all: right; unfold _save_songs, SongModel.songs_path; munfold; rewrite E; simpl; eauto.
  - right. unfold _save_songs, SongModel.songs_path. munfold. rewrite E. eauto.
Qed.

Lemma save_songs_songs w : songs (_save_songs w).2 = songs w.
Proof.
  destruct (save_songs_cases w) as [(p & _ & ->)|[e ->]]; reflexivity.
Qed.

Lemma valid_song_inv song :
  valid_song song ->
  exists d sections tags created updated,
    song = VDict d /\
    d !! "title" = Some (VStr (title_of song)) /\ strip (title_of song) <> "" /\
    d !! "sections" = Some (VList sections) /\ forallb is_section sections = true /\
    d !! "tags" = Some (VStr tags) /\
    d !! "created_at" = Some (VStr created) /\
    d !! "updated_at" = Some (VStr updated).
Proof.
  unfold valid_song, _validate_song, has_str. destruct song as [| | | | | |d]; try discriminate.
  simpl.
  destruct (d !! "title") as [[| | | |t| |]|] eqn:Et; try discriminate.
  destruct (d !! "sections") as [[| | | | |l|]|] eqn:Es; try (rewrite andb_false_r; discriminate).
  destruct (d !! "tags") as [[| | | |tg| |]|] eqn:Eg; try (rewrite ?andb_false_r; discriminate).
  destruct (d !! "created_at") as [[| | | |c| |]|] eqn:Ec; try (rewrite ?andb_false_r; discriminate).
  destruct (d !! "updated_at") as [[| | | |u| |]|] eqn:Eu; try (rewrite ?andb_false_r; discriminate).
  rewrite !andb_true_r. intros [H1 H2]%andb_true_iff.
  exists d, l, tg, c, u. repeat split; try done.
  simpl in H1. apply negb_true_iff, bool_decide_eq_false in H1. done.
Qed.

Lemma valid_title_lower song :
  valid_song song -> title_lower song = Ok (lower (title_of song)).
Proof.
  intros (d & ? & ? & ? & ? & -> & Ht & _)%valid_song_inv.
  unfold title_lower. simpl in *. rewrite Ht. reflexivity.
Qed.

Lemma valid_truthy song : valid_song song -> truthy song = true.
Proof.
  intros (d & ? & ? & ? & ? & -> & Ht & _)%valid_song_inv. simpl.
  apply negb_true_iff, bool_decide_eq_false. intros ->. by rewrite lookup_empty in Ht.
Qed.

Lemma py_next_title t l :
  Forall valid_song l ->
  py_next (fun song => let? x := title_lower song in Ok (bool_decide (x = lower t))) l
  = Ok (List.find (same_title t) l).
Proof.
  induction 1 as [|s l Hs Hl IH]; [done|]. simpl.
  rewrite (valid_title_lower s Hs). simpl. unfold same_title at 1.
  destruct (bool_decide _); [done|]. exact IH.
Qed.

Lemma py_any_title t l :
  Forall valid_song l ->
  py_any (fun song => let? x := title_lower song in Ok (bool_decide (x = lower t))) l
  = Ok (existsb (same_title t) l).
Proof.
  induction 1 as [|s l Hs Hl IH]; [done|]. simpl.
  rewrite (valid_title_lower s Hs). simpl. unfold same_title at 1.
  destruct (bool_decide _); [done|]. exact IH.
Qed.

Lemma get_song_by_title_spec t w :
  Forall valid_song (songs w) ->
  get_song_by_title t w = (Ok (default VNone (List.find (same_title t) (songs w))), w).
Proof.
  intros H. unfold get_song_by_title. munfold. simpl.
  rewrite (py_next_title t _ H). reflexivity.
Qed.

Lemma for_each_load items : forall w,
  Forall valid_song items ->
  for_each items (fun song =>
     if _validate_song song then modify (fun w => set_songs (songs w ++ [song]) w)
     else let! _ := lift (py_get song "title" (VStr "Unknown")) in ret tt) w
  = (Ok tt, set_songs (songs w ++ items) w).
Proof.
  induction items as [|s items IH]; intros w H.
  - simpl. unfold ret. rewrite app_nil_r. by destruct w.
  - inversion H as [|?? Hs Hl]; subst. simpl. munfold. rewrite Hs. simpl.
    rewrite (IH _ Hl). simpl. rewrite <- app_assoc. reflexivity.
Qed.

Lemma load_after_save w w1 :
  Forall valid_song (songs w) ->
  _save_songs w = (Ok tt, w1) ->
  _load_songs w1 = (Ok tt, w1) /\ songs w1 = songs w /\
  exists p, disk w1 !! p = Some (JsonFile (VList (songs w))).
Proof.
  intros Hv Hs.
  destruct (save_songs_cases w) as [(p & [Hp Hd] & E)|[e E]]; rewrite E in Hs; [|discriminate].
  injection Hs as <-. split; [|split; [done|]].
  2: { exists p. simpl. apply lookup_insert_eq. }
  unfold _load_songs.
  pose proof (get_setting_frame "paths" "songs" (VStr "data/songs/songs.json") w
    (set_disk (<[p:=JsonFile (VList (songs w))]> (disk w)) w) eq_refl eq_refl) as Hf.
  unfold SongModel.songs_path in *. rewrite Hp in Hf.
  destruct (get_setting_cases "paths" "songs" (VStr "data/songs/songs.json")
    (set_disk (<[p:=JsonFile (VList (songs w))]> (disk w)) w)) as [[v Ev]|[e Ev]];
    rewrite Ev in Hf; simpl in Hf; [|discriminate]. injection Hf as ->.
  unfold bind at 1. rewrite Ev.
  unfold bind at 1. unfold modify at 1. 
  unfold bind at 1. unfold os_path_exists, get. cbn [disk set_songs set_disk].
  rewrite lookup_insert_eq. rewrite bool_decide_true by eauto.
  unfold try_except, bind at 1. unfold json_load. cbn [disk set_songs set_disk].
  rewrite lookup_insert_eq.
  rewrite for_each_load by done. simpl. destruct w; reflexivity.
Qed.

Lemma lower_app a b : lower (a +:+ b) = lower a +:+ lower b.
Proof.
  induction a as [|c a IH]; [done|].
  change (lower (String c (a +:+ b)) = String (lower_ascii c) (lower a +:+ lower b)).
  simpl. by rewrite IH.
Qed.

Lemma commit_songs w : songs (commit w).2 = songs w.
Proof.
  unfold commit. pose proof (save_songs_songs w) as H.
  destruct (_save_songs w) as [[|] ?]; exact H.
Qed.

Lemma commit_ok w p : save_ok w p -> (commit w).1 = Ok (VBool true).
Proof. intros H. unfold commit. by rewrite (save_songs_ok _ _ H). Qed.

Lemma commit_sanctify w :
  match (commit w).1 with Raise (PyError _ _) => False | _ => True end.
Proof.
  unfold commit. destruct (save_songs_cases w) as [(p & _ & ->)|[e ->]]; done.
Qed.

Lemma commit_handler w prefix code :
  match commit w with
  | (Raise e, w') => @reraise_or_wrap value "SongModel" code prefix e w'
  | r => r
  end = commit w.
Proof.
  pose proof (commit_sanctify w) as H. destruct (commit w) as [[v|[e|c t]] w']; done.
Qed.

Lemma find_valid {A} (P : A -> Prop) f l (x : A) : Forall P l -> List.find f l = Some x -> P x.
Proof. intros H Hf. apply find_some in Hf as [Hin _]. rewrite Forall_forall in H. by apply H, list_elem_of_In. Qed.

Lemma duplicate_song_spec t now w song :
  Forall valid_song (songs w) ->
  List.find (same_title t) (songs w) = Some song ->
  existsb (same_title (title_of song +:+ " (Copy)")) (songs w) = false ->
  duplicate_song t now w = commit (set_songs (songs w ++ [copy_of song now]) w).
Proof.
  intros Hv Hf Hn. unfold duplicate_song.
  unfold try_except, bind at 1. rewrite get_song_by_title_spec by done. rewrite Hf. simpl.
  pose proof (find_valid _ _ _ _ Hv Hf) as Hs.
  rewrite (valid_truthy _ Hs). simpl.
  destruct (valid_song_inv _ Hs) as (d & ? & ? & ? & ? & -> & Ht & _).
  munfold. cbn [py_getitem]. rewrite Ht. cbn [py_str].
  rewrite py_any_title by done. rewrite Hn. simpl.
  rewrite lookup_insert_eq. unfold append_song, modify. 
  fold (commit (set_songs (songs w ++ [VDict (<["updated_at":=VStr now]> (<["created_at":=VStr now]> (<["title":=VStr (title_of (VDict d) +:+ " (Copy)")]> d)))]) w)).
  apply commit_handler.
Qed.

Lemma remove_first_split (f : value -> bool) l1 x l2 :
  f x = true -> Forall (fun y => f y = false) l1 ->
  remove_first x (l1 ++ x :: l2) = Some (l1 ++ l2).
Proof.
  intros Hx. induction 1 as [|y l1 Hy Hl IH]; simpl.
  - by rewrite decide_True.
  - rewrite decide_False by (intros ->; congruence). by rewrite IH.
Qed.

Lemma find_split (f : value -> bool) l1 x l2 :
  f x = true -> Forall (fun y => f y = false) l1 ->
  List.find f (l1 ++ x :: l2) = Some x.
Proof.
  intros Hx. induction 1 as [|y l1 Hy Hl IH]; simpl.
  - by rewrite Hx.
  - by rewrite Hy.
Qed.

Lemma find_Some_split (f : value -> bool) l x :
  List.find f l = Some x ->
  exists l1 l2, l = l1 ++ x :: l2 /\ f x = true /\ Forall (fun y => f y = false) l1.
Proof.
  induction l as [|y l IH]; [done|]. simpl. destruct (f y) eqn:Hy.
  - intros [= ->]. exists [], l. by repeat split.
  - intros (l1 & l2 & -> & Hx & Hl)%IH. exists (y :: l1), l2. repeat split; [done|]. by constructor.
Qed.

Lemma delete_song_spec t w l1 song l2 :
  Forall valid_song (songs w) ->
  songs w = l1 ++ song :: l2 ->
  same_title t song = true -> Forall (fun s => same_title t s = false) l1 ->
  delete_song t w = commit (set_songs (l1 ++ l2) w).
Proof.
  intros Hv El Hs Hl. unfold delete_song.
  unfold try_except, bind at 1. rewrite get_song_by_title_spec by done. rewrite El.
  rewrite (find_split _ _ _ _ Hs Hl). simpl.
  assert (valid_song song) as Hvs.
  { rewrite El in Hv. apply Forall_app in Hv as [_ Hv]. by inversion Hv. }
  rewrite (valid_truthy _ Hvs). simpl. munfold. rewrite El.
  unfold py_list_remove. rewrite (remove_first_split _ _ _ _ Hs Hl).
  fold (commit (set_songs (l1 ++ l2) w)). apply commit_handler.
Qed.

Lemma copy_of_title song now :
  valid_song song -> title_of (copy_of song now) = title_of song +:+ " (Copy)".
Proof.
  intros (d & ? & ? & ? & ? & -> & _)%valid_song_inv. unfold copy_of.
  unfold title_of at 1. by rewrite !lookup_insert_ne, lookup_insert_eq by done.
Qed.

Lemma lstrip_empty s : lstrip s = "" <-> all_space s = true.
Proof.
  induction s as [|c s IH]; simpl; [done|].
  destruct (is_space c); simpl; [done|]. split; discriminate.
Qed.

Lemma all_space_lstrip s : all_space (lstrip s) = all_space s.
Proof.
  induction s as [|c s IH]; simpl; [done|].
  destruct (is_space c) eqn:E; simpl; [done|]. by rewrite E.
Qed.

Lemma all_space_rev_app s acc :
  all_space (String.rev_app s acc) = all_space s && all_space acc.
Proof.
  revert acc. induction s as [|c s IH]; intros acc; simpl; [done|].
  rewrite IH. simpl. destruct (is_space c), (all_space s); simpl; try done.
Qed.

Lemma rev_app_empty s acc : String.rev_app s acc = "" -> s = "" /\ acc = "".
Proof.
  revert acc. induction s as [|c s IH]; intros acc; simpl; [done|].
  intros [_ [=]]%IH.
Qed.

Lemma strip_empty s : strip s = "" <-> all_space s = true.
Proof.
  unfold strip, rstrip, String.rev. split.
  - intros [H _]%rev_app_empty. apply lstrip_empty in H.
    rewrite all_space_rev_app, all_space_lstrip, andb_true_r in H. done.
  - intros H.
    assert (lstrip (String.rev_app (lstrip s) "") = "") as ->; [|done].
    apply lstrip_empty. by rewrite all_space_rev_app, all_space_lstrip, andb_true_r.
Qed.

Lemma all_space_app a b : all_space (a +:+ b) = all_space a && all_space b.
Proof.
  induction a as [|c a IH]; [done|].
  change (all_space (String c (a +:+ b)) = all_space (String c a) && all_space b).
  simpl. by rewrite IH, andb_assoc.
Qed.

Lemma strip_copy_nonempty t : strip (t +:+ " (Copy)") <> "".
Proof.
  rewrite strip_empty, all_space_app. rewrite andb_comm. simpl. done.
Qed.

Lemma copy_of_valid song now : valid_song song -> valid_song (copy_of song now).
Proof.
  intros H. destruct (valid_song_inv _ H) as (d & ss & tg & c & u & -> & Ht & Hn & Hs & Hss & Hg & Hc & Hu).
  unfold valid_song, copy_of, _validate_song, has_str.
  repeat (rewrite lookup_insert_eq || rewrite lookup_insert_ne by done).
  rewrite Hs, Hss, Hg. simpl. rewrite !andb_true_r.
  apply negb_true_iff, bool_decide_eq_false, strip_copy_nonempty.
Qed.

Lemma commit_world w :
  settings (commit w).2 = settings w /\ ui_font (commit w).2 = ui_font w.
Proof.
  unfold commit. destruct (save_songs_cases w) as [(p & _ & ->)|[e ->]]; done.
Qed.

Lemma save_ok_frame w w' p :
  settings w' = settings w -> ui_font w' = ui_font w -> save_ok w p -> save_ok w' p.
Proof.
  intros Hs Hf [H1 H2]. split; [|done]. unfold SongModel.songs_path in *.
  by rewrite (get_setting_frame _ _ _ w w').
Qed.

Lemma same_title_copy t s :
  same_title t s = true -> forall x, same_title (title_of s +:+ " (Copy)") x = same_title (t +:+ " (Copy)") x.
Proof.
  unfold same_title. intros H%bool_decide_eq_true x. by rewrite !lower_app, H.
Qed.


Lemma updated_record_valid song d now :
  valid_song song -> valid_song (VDict d) -> valid_song (updated_record song d now).
Proof.
  intros (ds & ? & ? & c & ? & -> & _ & _ & _ & _ & _ & Hc & _)%valid_song_inv H.
  destruct (valid_song_inv _ H) as (d' & ss & tg & c' & u & [= <-] & Ht & Hn & Hs & Hss & Hg & _).
  unfold updated_record, created_at_of. rewrite Hc. simpl.
  unfold valid_song, _validate_song, has_str.
  repeat (rewrite lookup_insert_eq || rewrite lookup_insert_ne by done).
  rewrite Ht, Hs, Hss, Hg. simpl in *. rewrite !andb_true_r.
  by apply negb_true_iff, bool_decide_eq_false.
Qed.

Lemma py_any_other_title old data l :
  valid_song data -> Forall valid_song l ->
  py_any (fun s =>
     let? a := title_lower s in
     if negb (bool_decide (a = lower old)) then
       let? a := title_lower s in
       let? b := title_lower data in
       Ok (bool_decide (a = b))
     else Ok false) l
  = Ok (existsb (fun s => negb (same_title old s) && same_title (title_of data) s) l).
Proof.
  intros Hd. rewrite (valid_title_lower _ Hd).
  induction 1 as [|s l Hs Hl IH]; [done|]. simpl.
  rewrite (valid_title_lower s Hs). simpl. unfold same_title at 1 2.
  destruct (bool_decide (lower (title_of s) = lower old)); simpl; [exact IH|].
  destruct (bool_decide _); [done|]. exact IH.
Qed.

Section SongUpdates.

Local Arguments _save_songs : simpl never.
Local Arguments get_song_by_title : simpl never.
Local Arguments commit : simpl never.
Local Arguments _validate_song : simpl never.
Local Arguments title_of : simpl never.

Lemma update_song_spec old_title d now w l1 song l2 :
Forall valid_song (songs w) ->
songs w = l1 ++ song :: l2 ->
same_title old_title song = true -> Forall (fun s => same_title old_title s = false) l1 ->
valid_song (VDict d) ->
existsb (fun s => negb (same_title old_title s) && same_title (title_of (VDict d)) s) (songs w) = false ->
update_song old_title (VDict d) now w
= commit (set_songs (l1 ++ l2 ++ [updated_record song d now]) w).
Proof.
intros Hv El Hs Hl Hd Hfree. unfold update_song.
unfold try_except, bind at 1. rewrite get_song_by_title_spec by done. rewrite El.
rewrite (find_split _ _ _ _ Hs Hl). simpl.
assert (valid_song song) as Hvs.
{ rewrite El in Hv. apply Forall_app in Hv as [_ Hv]. by inversion Hv. }
rewrite (valid_truthy _ Hvs). simpl.
pose proof (updated_record_valid song d now Hvs Hd) as Hu.
pose proof (py_any_other_title old_title _ _ Hd Hv) as Hany.
rewrite Hfree in Hany.
pose proof (valid_title_lower _ Hd) as Htl.
destruct (valid_song_inv _ Hd) as (d' & ss & tg & c' & u & [= <-] & Ht & Hn & Hss & _ & Hg & _).
destruct (valid_song_inv _ Hvs) as (ds & ? & ? & c & ? & -> & _ & _ & _ & _ & _ & Hc & _).
unfold updated_record, created_at_of in *. rewrite Hc in *. simpl in Hu |- *.
munfold. simpl. rewrite Ht. simpl.
rewrite (bool_decide_false (strip _ = "")) by done. simpl.
rewrite Htl in Hany |- *. simpl in Hany |- *. rewrite Hany.
assert (forall b : bool, (let (r, w') := (if b then fun w0 : World => (@Ok bool false, w0)
           else fun w0 : World => (Ok false, w0)) w in (r, w')) = (Ok false, w)) as Hb by (by intros []).
destruct (negb (bool_decide _)); simpl; rewrite Hc; simpl.
all: unfold setdefault; simpl.
all: repeat (rewrite lookup_insert_eq || rewrite lookup_insert_ne by done).
all: rewrite Hss, (bool_decide_true (is_Some _)) by eauto; simpl.
all: repeat (rewrite lookup_insert_eq || rewrite lookup_insert_ne by done).
all: rewrite Hg, (bool_decide_true (is_Some _)) by eauto; simpl.
all: unfold valid_song in Hu; rewrite Hu; simpl.
all: rewrite El; unfold py_list_remove; rewrite (remove_first_split _ _ _ _ Hs Hl).
all: rewrite <- app_assoc.
all: match goal with |- context [_save_songs ?w1] =>
       replace w1 with (set_songs (l1 ++ l2 ++ [VDict (<["created_at":=VStr c]> (<["updated_at":=VStr now]> d))]) w)
         by (by destruct w) end.
all: apply (commit_handler _ _ "UPDATE_004").
Qed.


Lemma completion_eq d now :
(let? d0 := py_copy (VDict d) in
 let? d0 := py_setitem d0 "created_at" (VStr now) in
 let? d0 := py_setitem d0 "updated_at" (VStr now) in
 let? d0 := setdefault d0 "sections" (Ok (VList [])) in
 setdefault d0 "tags" (Ok (VStr ""))) = Ok (VDict (completed d now)).
Proof.
unfold completed, setdefault. simpl.
repeat (rewrite lookup_insert_eq || rewrite lookup_insert_ne by done).
destruct (d !! "sections") as [secs|] eqn:Es; simpl;
  repeat (rewrite lookup_insert_eq || rewrite lookup_insert_ne by done);
  destruct (d !! "tags") as [tags|] eqn:Eg; simpl; done.
Qed.

Lemma completed_lookup d now :
completed d now !! "title" = d !! "title" /\
completed d now !! "sections" = Some (default (VList []) (d !! "sections")) /\
completed d now !! "tags" = Some (default (VStr "") (d !! "tags")) /\
completed d now !! "created_at" = Some (VStr now) /\
completed d now !! "updated_at" = Some (VStr now).
Proof.
unfold completed.
destruct (d !! "sections") as [secs|] eqn:Es, (d !! "tags") as [tags|] eqn:Eg; simpl;
  repeat (rewrite lookup_insert_eq || rewrite lookup_insert_ne by done);
  rewrite ?Es, ?Eg; done.
Qed.

Lemma rejected_completed d now : rejected (VDict d) -> _validate_song (VDict (completed d now)) = false.
Proof.
destruct (completed_lookup d now) as (Ht & Hs & Hg & Hc & Hu).
unfold rejected, _validate_song, has_str. rewrite Ht, Hs, Hg, Hc, Hu.
intros [H|[H|H]].
- destruct (d !! "title") as [[| | | |t| |]|]; try done. rewrite H. done.
- destruct (d !! "sections") as [[| | | | |l|]|]; simpl; rewrite ?andb_false_r; try done.
  rewrite H. by rewrite ?andb_false_r.
- destruct (d !! "tags") as [[| | | |t| |]|]; simpl; rewrite ?andb_false_r; try done.
Qed.

Local Arguments completed : simpl never.







End SongUpdates.

(** * Merging settings *)

Import SettingsManager.

Lemma vsize_lookup (d : gmap string value) k v :
  d !! k = Some v -> vsize v < vsize (VDict d).
Proof.
  intros H. simpl. rewrite (map_fold_delete_L _ _ k v d); [lia| |done].
  intros. lia.
Qed.

Lemma merge_settings_unfold defaults (items : gmap string value) :
  _merge_settings defaults (VDict items) =
  map_fold (fun key value acc =>
    let? result := acc in
    match result !! key with
    | Some (VDict sub) =>
        if is_dict value then
          let? merged := _merge_settings sub value in
          Ok (<[key := VDict merged]> result)
        else Ok (<[key := value]> result)
    | _ => Ok (<[key := value]> result)
    end) (Ok defaults) items.
Proof. reflexivity. Qed.

Lemma merge_settings_total n : forall (loaded defaults : gmap string value),
  vsize (VDict loaded) < n ->
  exists result, _merge_settings defaults (VDict loaded) = Ok result.
Proof.
  induction n as [|n IH]; intros loaded defaults Hn; [lia|].
  rewrite merge_settings_unfold.
  assert (Hsmall : forall k v, loaded !! k = Some v -> vsize v < n).
  { intros k v Hk. apply vsize_lookup in Hk. lia. }
  clear Hn. revert Hsmall.
  match goal with |- _ -> exists r, map_fold ?f ?b loaded = Ok r =>
    apply (map_fold_weak_ind (fun acc (m : gmap string value) =>
      (forall k v, m !! k = Some v -> vsize v < n) -> exists r, acc = Ok r) f b) end.
  - eauto.
  - intros i x m acc Hi IHm Hs.
    destruct IHm as [r ->].
    { intros k v Hk. apply (Hs k v). rewrite lookup_insert_ne; [done|]. intros ->. congruence. }
    cbn [rbind]. destruct (r !! i) as [[| | | | | |sub]|]; eauto.
    destruct x as [| | | | | |lx]; cbn [is_dict]; eauto.
    destruct (IH lx sub) as [merged ->]; [|cbn [rbind]; eauto].
    apply (Hs i). apply lookup_insert_eq.
Qed.

(** Claim C8: [_merge_settings defaults loaded] returns a dict that has every
    key of [defaults]; for a key of [loaded] the loaded value replaces the
    default, unless both are dicts, in which case the value is their merge by
    the same rule; a key of [loaded] alone is in the result with its loaded
    value, and a key absent from [loaded] keeps its default. *)
Theorem merge_settings_spec (defaults loaded : gmap string value) :
  exists result,
    _merge_settings defaults (VDict loaded) = Ok result /\
    (forall key, is_Some (defaults !! key) -> is_Some (result !! key)) /\
    (forall key v, loaded !! key = Some v ->
       match defaults !! key, v with
       | Some (VDict sub), VDict _ =>
           exists merged, _merge_settings sub v = Ok merged /\
                          result !! key = Some (VDict merged)
       | _, _ => result !! key = Some v
       end) /\
    (forall key, loaded !! key = None -> result !! key = defaults !! key).
Proof.
  rewrite merge_settings_unfold.
  match goal with |- exists result, map_fold ?f ?b loaded = Ok result /\ _ =>
    apply (map_fold_weak_ind (fun acc (m : gmap string value) =>
      exists result, acc = Ok result /\
        (forall key, is_Some (defaults !! key) -> is_Some (result !! key)) /\
        (forall key v, m !! key = Some v ->
           match defaults !! key, v with
           | Some (VDict sub), VDict _ =>
               exists merged, _merge_settings sub v = Ok merged /\
                              result !! key = Some (VDict merged)
           | _, _ => result !! key = Some v
           end) /\
        (forall key, m !! key = None -> result !! key = defaults !! key)) f b) end.
  - exists defaults. repeat split; done.
  - intros i x m acc Hi (r & -> & Hdom & Hin & Hout).
    cbn [rbind]. rewrite (Hout i Hi).
    assert (Hother : forall (y : value) key v, <[i:=x]> m !! key = Some v -> key <> i ->
       match defaults !! key, v with
       | Some (VDict sub), VDict _ =>
           exists merged, _merge_settings sub v = Ok merged /\
                          <[i:=y]> r !! key = Some (VDict merged)
       | _, _ => <[i:=y]> r !! key = Some v
       end).
    { intros y key v Hk Hne. rewrite lookup_insert_ne in Hk by done.
      specialize (Hin key v Hk). rewrite lookup_insert_ne by done. exact Hin. }
    assert (Hplain : forall y : value,
      (match defaults !! i, x with
       | Some (VDict sub), VDict _ =>
           exists merged, _merge_settings sub x = Ok merged /\ y = VDict merged
       | _, _ => y = x
       end) ->
      exists result, Ok (<[i:=y]> r) = Ok result /\
        (forall key, is_Some (defaults !! key) -> is_Some (result !! key)) /\
        (forall key v, <[i:=x]> m !! key = Some v ->
           match defaults !! key, v with
           | Some (VDict sub), VDict _ =>
               exists merged, _merge_settings sub v = Ok merged /\
                              result !! key = Some (VDict merged)
           | _, _ => result !! key = Some v
           end) /\
        (forall key, <[i:=x]> m !! key = None -> result !! key = defaults !! key)).
    { intros y Hy. eexists. split; [done|]. split; [|split].
      - intros key Hk. destruct (decide (key = i)) as [->|Hne].
        + rewrite lookup_insert_eq. eauto.
        + rewrite lookup_insert_ne by done. by apply Hdom.
      - intros key v Hk. destruct (decide (key = i)) as [->|Hne]; [|by apply Hother].
        rewrite lookup_insert_eq in Hk. injection Hk as <-. rewrite lookup_insert_eq.
        destruct (defaults !! i) as [[| | | | | |sub]|]; try (by rewrite Hy).
        destruct x; try (by rewrite Hy). destruct Hy as (merged & ? & ->). eauto.
      - intros key Hk. apply lookup_insert_None in Hk as [Hk Hne].
        rewrite lookup_insert_ne by done. by apply Hout. }
    destruct (defaults !! i) as [[| | | | | |sub]|] eqn:Ed; try (by apply Hplain).
    destruct x as [| | | | | |lx]; cbn [is_dict]; try (by apply Hplain).
    destruct (merge_settings_total _ lx sub (Nat.lt_succ_diag_r _)) as [merged Hm].
    rewrite Hm. cbn [rbind]. apply Hplain. eauto.
Qed.

(** * Looking up verses *)

Import ScriptureModel.

Section SortFacts.
Context {A : Type}.
Implicit Types l : list (Z * A).

Lemma insert_by_perm x l : insert_by Z.leb x l ≡ₚ x :: l.
Proof.
  induction l as [|y l IH]; simpl; [done|].
  destruct (Z.leb x.1 y.1); [done|]. rewrite IH. apply Permutation_swap.
Qed.

Lemma sort_by_perm l : sort_by Z.leb l ≡ₚ l.
Proof.
  induction l as [|x l IH]; simpl; [done|].
  rewrite insert_by_perm. by rewrite IH.
Qed.

Definition key_le (a b : Z * A) : Prop := (a.1 <= b.1)%Z.

Lemma insert_by_sorted x l :
  Sorted key_le l -> Sorted key_le (insert_by Z.leb x l).
Proof.
  induction 1 as [|y l Hl IH Hhd]; simpl.
  - repeat constructor.
  - destruct (Z.leb x.1 y.1) eqn:E.
    + constructor; [by constructor|]. constructor. apply Z.leb_le in E. exact E.
    + constructor; [exact IH|].
      apply Z.leb_gt in E.
      destruct l as [|z l]; simpl.
      * constructor. unfold key_le. lia.
      * destruct (Z.leb x.1 z.1); constructor; [unfold key_le; lia|].
        by inversion Hhd.
Qed.

Lemma sort_by_sorted l : Sorted key_le (sort_by Z.leb l).
Proof.
  induction l as [|x l IH]; simpl; [constructor|]. by apply insert_by_sorted.
Qed.
End SortFacts.

Lemma has_text_inv d k : has_text d k = true -> exists s, d !! k = Some (VStr s).
Proof. unfold has_text. destruct (d !! k) as [[]|]; try done. eauto. Qed.

Lemma positive_int_inv d k : positive_int d k = true -> exists v z, d !! k = Some v /\ int_of v = Some z.
Proof. unfold positive_int. destruct (d !! k) as [v|]; [|done]. destruct (int_of v) eqn:E; [|done]. eauto. Qed.

Lemma nonempty_truthy d k (v : value) : d !! k = Some v -> truthy (VDict d) = true.
Proof. intros H. simpl. apply negb_true_iff, bool_decide_eq_false. intros ->. by rewrite lookup_empty in H. Qed.

Lemma forallb_Forall {A} (f : A -> bool) l :
  forallb f l = true -> Forall (fun x => f x = true) l.
Proof.
  induction l as [|x l IH]; simpl; [constructor|].
  intros [??]%andb_true_iff. constructor; auto.
Qed.

Lemma valid_bible_inv bible :
  _validate_bible bible = true ->
  truthy bible = true /\
  py_getitem bible "books" = Ok (VList (books_of bible)) /\
  Forall (fun b => is_book b = true) (books_of bible).
Proof.
  destruct bible as [| | | | | |d]; try done. simpl.
  intros [H1 H2]%andb_true_iff. apply has_text_inv in H1 as [s Hs].
  split; [by eapply nonempty_truthy|].
  unfold books_of, field. destruct (d !! "books") as [[| | | | |l|]|]; try done.
  simpl. split; [done|]. by apply forallb_Forall.
Qed.

Lemma is_book_inv book :
  is_book book = true ->
  truthy book = true /\
  name_lower book = Ok (lower (text_of (field "name" book))) /\
  py_getitem book "chapters" = Ok (VList (chapters_of book)) /\
  Forall (fun c => is_chapter c = true) (chapters_of book).
Proof.
  destruct book as [| | | | | |d]; try done. simpl.
  intros [H1 H2]%andb_true_iff. apply has_text_inv in H1 as [s Hs].
  split; [by eapply nonempty_truthy|].
  unfold name_lower, chapters_of, field. simpl. rewrite Hs. simpl. split; [done|].
  destruct (d !! "chapters") as [[| | | | |l|]|]; try done.
  simpl. split; [done|]. by apply forallb_Forall.
Qed.

Lemma is_chapter_inv chapter n :
  is_chapter chapter = true ->
  truthy chapter = true /\
  (let? x := py_getitem chapter "chapter" in Ok (eq_int x n)) = Ok (chapter_numbered n chapter) /\
  py_getitem chapter "verses" = Ok (VList (verses_of chapter)) /\
  Forall (fun v => is_verse v = true) (verses_of chapter).
Proof.
  destruct chapter as [| | | | | |d]; try done. simpl.
  intros [H1 H2]%andb_true_iff. apply positive_int_inv in H1 as (v & z & Hv & Hz).
  split; [by eapply nonempty_truthy|].
  unfold chapter_numbered, verses_of, field, number_of. rewrite Hv. simpl. rewrite Hz. simpl.
  split.
  { f_equal. unfold eq_int. rewrite Hz. destruct v as [| | |[]| | |]; try done;
      apply bool_decide_ext; split; congruence. }
  destruct (d !! "verses") as [[| | | | |l|]|]; try done.
  simpl. split; [done|]. by apply forallb_Forall.
Qed.

Lemma is_verse_inv verse :
  is_verse verse = true ->
  (let? n := py_getitem verse "verse" in int_key n) = Ok (number_of (field "verse" verse)).
Proof.
  destruct verse as [| | | | | |d]; try done. simpl.
  intros [H1 H2]%andb_true_iff. apply positive_int_inv in H1 as (v & z & Hv & Hz).
  unfold field, number_of, int_key. rewrite Hv. simpl. by rewrite Hz.
Qed.

Lemma py_next_pure {A} (f : A -> result bool) (g : A -> bool) l :
  Forall (fun x => f x = Ok (g x)) l -> py_next f l = Ok (List.find g l).
Proof.
  induction 1 as [|x l Hx Hl IH]; [done|]. simpl. rewrite Hx. by destruct (g x).
Qed.

Lemma py_map_pure {A B} (f : A -> result B) (g : A -> B) l :
  Forall (fun x => f x = Ok (g x)) l -> py_map f l = Ok (g <$> l).
Proof.
  induction 1 as [|x l Hx Hl IH]; [done|]. simpl. rewrite Hx, IH. done.
Qed.

Lemma sorted_by_key (k : value -> Z) (l : list (Z * value)) :
  Forall (fun p => p.1 = k p.2) l ->
  Sorted key_le l -> Sorted (fun a b => (k a <= k b)%Z) l.*2.
Proof.
  intros Hk. induction 1 as [|p l Hl IH Hhd]; simpl; [constructor|].
  inversion Hk as [|?? Hp Hk']; subst. constructor; [by apply IH|].
  destruct Hhd as [|q l' Hpq]; simpl; constructor.
  inversion Hk' as [|?? Hq _]; subst. unfold key_le in Hpq. by rewrite <- Hp, <- Hq.
Qed.

Lemma py_sorted_keyed (k : value -> Z) (key : value -> result Z) l :
  Forall (fun x => key x = Ok (k x)) l ->
  exists vs, py_sorted Z.leb key l = Ok vs /\ vs ≡ₚ l /\
             Sorted (fun a b => (k a <= k b)%Z) vs.
Proof.
  intros H. unfold py_sorted.
  rewrite (py_map_pure _ (fun x => (k x, x))).
  2: { eapply Forall_impl; [exact H|]. intros x Hx. simpl. by rewrite Hx. }
  simpl. eexists. split; [done|].
  assert (Hl : ((fun x => (k x, x)) <$> l).*2 = l).
  { rewrite <- list_fmap_compose. apply list_fmap_id. }
  split.
  - rewrite sort_by_perm. by rewrite Hl.
  - apply sorted_by_key; [|apply sort_by_sorted].
    rewrite sort_by_perm. apply Forall_fmap, Forall_forall. done.
Qed.


(** * How a method moves one attribute of the world *)

Section Steps.
Context {X : Type} (proj : World -> X).

Lemma preserves_ret {A} (a : A) : preserves proj (ret a).
Proof. done. Qed.
Lemma preserves_raise {A} e : preserves proj (@raise A e).
Proof. done. Qed.
Lemma preserves_raise_sanctify {A} m c t : preserves proj (@raise_sanctify A m c t).
Proof. done. Qed.
Lemma preserves_lift {A} (r : result A) : preserves proj (lift r).
Proof. done. Qed.
Lemma preserves_get {A} (f : World -> A) : preserves proj (get f).
Proof. done. Qed.
Lemma preserves_wrap {A} m c t e : preserves proj (@wrap A m c t e).
Proof. done. Qed.
Lemma preserves_reraise_or_wrap {A} m c t e : preserves proj (@reraise_or_wrap A m c t e).
Proof. by destruct e. Qed.

Lemma preserves_bind {A B} (c : M A) (k : A -> M B) :
  preserves proj c -> (forall a, preserves proj (k a)) -> preserves proj (bind c k).
Proof.
  intros Hc Hk w. unfold bind. specialize (Hc w).
  destruct (c w) as [[a|e] w']; simpl in *; [|done]. by rewrite Hk.
Qed.

Lemma preserves_try_except {A} (body : M A) handler :
  preserves proj body -> (forall e, preserves proj (handler e)) -> preserves proj (try_except body handler).
Proof.
  intros Hc Hk w. unfold try_except. specialize (Hc w).
  destruct (body w) as [[a|e] w']; simpl in *; [done|]. by rewrite Hk.
Qed.

Lemma preserves_for_each {A} (l : list A) body :
  (forall x, preserves proj (body x)) -> preserves proj (for_each l body).
Proof.
  intros H. induction l as [|x l IH]; [done|]. simpl.
  apply preserves_bind; [apply H|done].
Qed.

Lemma preserves_modify (f : World -> World) :
  (forall w, proj (f w) = proj w) -> preserves proj (modify f).
Proof. done. Qed.

Lemma steps_preserves {A} (R : X -> X -> Prop) (c : M A) :
  Reflexive R -> preserves proj c -> steps proj R c.
Proof. intros HR Hc w. by rewrite Hc. Qed.

Lemma steps_bind_l {A B} R (c : M A) (k : A -> M B) :
  preserves proj c -> (forall a, steps proj R (k a)) -> Reflexive R -> steps proj R (bind c k).
Proof.
  intros Hc Hk HR w. unfold bind. specialize (Hc w).
  destruct (c w) as [[a|e] w']; simpl in *.
  - rewrite <- Hc. apply Hk.
  - by rewrite Hc.
Qed.

Lemma steps_bind_r {A B} R (c : M A) (k : A -> M B) :
  steps proj R c -> (forall a, preserves proj (k a)) -> steps proj R (bind c k).
Proof.
  intros Hc Hk w. unfold bind. specialize (Hc w).
  destruct (c w) as [[a|e] w']; simpl in *; [|done]. by rewrite Hk.
Qed.

Lemma steps_try_except {A} R (body : M A) handler :
  steps proj R body -> (forall e, preserves proj (handler e)) -> steps proj R (try_except body handler).
Proof.
  intros Hc Hk w. unfold try_except. specialize (Hc w).
  destruct (body w) as [[a|e] w']; simpl in *; [done|]. by rewrite Hk.
Qed.
End Steps.

Create HintDb frame discriminated.
#[export] Hint Resolve preserves_ret preserves_raise preserves_raise_sanctify preserves_lift
  preserves_get preserves_wrap preserves_reraise_or_wrap : frame.

(** Stepping through a method body *)
Ltac frame_step :=
  first
    [ apply preserves_ret | apply preserves_raise | apply preserves_raise_sanctify
    | apply preserves_lift | apply preserves_get | apply preserves_wrap
    | apply preserves_reraise_or_wrap
    | apply preserves_bind; [|intros ?]
    | apply preserves_try_except; [|intros ?]
    | apply preserves_for_each; intros ?
    | apply preserves_modify; intros ?; reflexivity
    | match goal with
      | |- preserves _ (if ?b then _ else _) => destruct b
      | |- preserves _ (match ?x with _ => _ end) => destruct x
      | |- preserves _ (let (_, _) := ?x in _) => destruct x
      end
    | solve [eauto with frame] ].
Ltac frame := repeat frame_step.

Lemma get_setting_preserves {X} (proj : World -> X) s k d : preserves proj (get_setting s k d).
Proof.
  intros w. destruct (get_setting_cases s k d w) as [[v ->]|[e ->]]; done.
Qed.
#[export] Hint Resolve get_setting_preserves : frame.

Lemma os_path_exists_preserves {X} (proj : World -> X) p : preserves proj (os_path_exists p).
Proof. done. Qed.
Lemma os_makedirs_preserves {X} (proj : World -> X) p : preserves proj (os_makedirs p).
Proof. unfold os_makedirs. by destruct (bool_decide _). Qed.
Lemma json_load_preserves {X} (proj : World -> X) p : preserves proj (json_load p).
Proof. intros w. unfold json_load. by destruct (disk w !! p) as [[]|]. Qed.
#[export] Hint Resolve os_path_exists_preserves os_makedirs_preserves json_load_preserves : frame.

Global Instance media_not_disk : NotDisk media.
Proof. done. Qed.
Global Instance songs_not_disk : NotDisk songs.
Proof. done. Qed.
Global Instance themes_not_disk : NotDisk themes.
Proof. done. Qed.
Global Instance presentations_not_disk : NotDisk presentations.
Proof. done. Qed.

Section Files.
Context {X} (proj : World -> X) `{!NotDisk proj}.

Lemma json_dump_preserves v p : preserves proj (json_dump v p).
Proof. intros w. apply not_disk. Qed.
Lemma shutil_copy2_preserves a b : preserves proj (shutil_copy2 a b).
Proof. intros w. unfold shutil_copy2. destruct (disk w !! a); [apply not_disk|done]. Qed.
Lemma os_remove_preserves a : preserves proj (os_remove a).
Proof. intros w. unfold os_remove. destruct (disk w !! a); [apply not_disk|done]. Qed.
Lemma os_rename_preserves a b : preserves proj (os_rename a b).
Proof. intros w. unfold os_rename. destruct (disk w !! a); [apply not_disk|done]. Qed.
End Files.
#[export] Hint Resolve json_dump_preserves shutil_copy2_preserves os_remove_preserves
  os_rename_preserves media_not_disk songs_not_disk themes_not_disk
  presentations_not_disk : frame.

Import MediaModel.

Section MediaFrame.
Context {X} (proj : World -> X) `{!NotDisk proj}.

Lemma validate_media_preserves m : preserves proj (_validate_media m).
Proof. unfold _validate_media, media_dir. frame. Qed.

Lemma save_media_preserves : preserves proj _save_media.
Proof. unfold _save_media, media_file. frame. Qed.

Lemma get_media_by_id_preserves id : preserves proj (get_media_by_id id).
Proof. unfold get_media_by_id. frame. Qed.

Lemma remove_quietly_preserves p : preserves proj (remove_quietly p).
Proof. unfold remove_quietly. frame. Qed.
End MediaFrame.
#[export] Hint Resolve validate_media_preserves save_media_preserves get_media_by_id_preserves
  remove_quietly_preserves : frame.

Lemma rpartition_none c s : str_contains (String c "") s = false -> rpartition c s = None.
Proof.
  induction s as [|a s IH]; [done|]. simpl.
  intros [H1 H2]%orb_false_iff. rewrite IH by done.
  rewrite andb_true_r in H1. apply bool_decide_eq_false in H1.
  rewrite bool_decide_false; [done|]. congruence.
Qed.

(** Claim C10: when the item found under [media_id] has a name with no ['.']
    in it, [duplicate_media] raises [SanctifyError] and leaves the world, its
    media collection included, as it was: no record is added. *)
Theorem duplicate_media_without_dot w media_id new_id now now' d name :
  (get_media_by_id media_id w).1 = Ok (VDict d) ->
  d !! "name" = Some (VStr name) ->
  str_contains "." name = false ->
  exists e, duplicate_media media_id new_id now now' w = (Raise (Sanctify e), w).
Proof.
  intros Hm Hname Hdot. unfold duplicate_media.
  assert (Hget : get_media_by_id media_id w = (Ok (VDict d), w)).
  { pose proof (get_media_by_id_preserves id media_id w) as Hw. unfold id in Hw.
    destruct (get_media_by_id media_id w) as [r w']. simpl in *. by subst. }
  unfold try_except, bind at 1. rewrite Hget.
  rewrite (nonempty_truthy _ _ _ Hname). cbn [negb].
  unfold bind at 1. unfold media_dir.
  destruct (get_setting_cases "paths" "media" (VStr "data/media") w) as [[dir ->]|[e ->]];
    [|simpl; eauto].
  assert (Hnew : forall stem, (let? name0 := py_getitem (VDict d) "name" in
         let? suffix := rsplit_dot_at name0 1 in Ok (stem +:+ " (Copy)." +:+ suffix))
         = Raise (PyError IndexError "list index out of range")).
  { intros stem. simpl. rewrite Hname. simpl. unfold rsplit1. by rewrite rpartition_none. }
  munfold. simpl.
  destruct (d !! "path") as [old_path|]; simpl; eauto.
  destruct (as_path old_path) as [p|[]]; simpl; eauto.
  destruct (d !! "category") as [category|]; simpl; eauto.
  destruct (join dir category) as [dd|[]]; simpl; eauto.
  rewrite Hname. simpl. unfold rsplit1. rewrite rpartition_none by done. simpl. eauto.
Qed.

(** * The logo flag *)

Global Instance appends_plain_item_refl : Reflexive appends_plain_item.
Proof. by left. Qed.
Global Instance replaces_item_refl : Reflexive replaces_item.
Proof. by left. Qed.
Global Instance removes_item_refl : Reflexive removes_item.
Proof. by left. Qed.

Lemma steps_bind_lift {X A B} (proj : World -> X) R (r : result A) (k : A -> M B) :
  (forall a, r = Ok a -> steps proj R (k a)) -> Reflexive R -> steps proj R (bind (lift r) k).
Proof.
  intros Hk HR w. unfold bind, lift. destruct r as [a|e]; simpl; [by apply Hk|done].
Qed.

Ltac steps_step :=
  first
    [ apply steps_try_except; [|intros ?; solve [frame]]
    | apply steps_bind_lift; [intros ? ?|apply _]
    | apply steps_bind_l; [solve [frame]|intros ?|apply _]
    | match goal with
      | |- steps _ _ (if ?b then _ else _) => destruct b
      | |- steps _ _ (match ?x with _ => _ end) => destruct x
      end
    | apply steps_preserves; [apply _|solve [frame]] ].
Ltac steps_go := repeat steps_step.

(** Inverting a chain of [let?] that returned *)
Ltac invert_ok H :=
  repeat match type of H with
  | rbind ?c _ = Ok _ =>
      let E := fresh "E" in
      destruct c eqn:E; cbn [rbind] in H; [|discriminate H]
  | (if ?b then _ else _) = Ok _ =>
      let E := fresh "E" in destruct b eqn:E
  | Ok _ = Ok _ => injection H as H
  | Raise _ = Ok _ => discriminate H
  end.

Lemma add_media_steps source_path category display_name tags scaling new_id now now' :
  steps media appends_plain_item
    (add_media source_path category display_name tags scaling new_id now now').
Proof.
  unfold add_media, media_dir. steps_go.
  apply steps_bind_r; [|intros ?; solve [frame]].
  intros w. right. eexists. split; [reflexivity|]. reflexivity.
Qed.

Lemma duplicate_media_steps media_id new_id now now' :
  steps media appends_plain_item (duplicate_media media_id new_id now now').
Proof.
  unfold duplicate_media, media_dir. steps_go.
  apply steps_bind_r; [|intros ?; solve [frame]].
  intros w. right. eexists. split; [reflexivity|].
  match goal with H : _ = Ok ?a |- field _ ?a = _ => invert_ok H; subst a end.
  reflexivity.
Qed.

(** * What a method returns *)

Lemma returns_ret {A} (P : A -> Prop) a : P a -> returns P (ret a).
Proof. intros H w a' [= <-]. done. Qed.
Lemma returns_raise {A} (P : A -> Prop) e : returns P (raise e).
Proof. intros w a' [=]. Qed.
Lemma returns_raise_sanctify {A} (P : A -> Prop) m c t : returns P (raise_sanctify m c t).
Proof. intros w a' [=]. Qed.
Lemma returns_wrap {A} (P : A -> Prop) m c t e : returns P (wrap m c t e).
Proof. intros w a' [=]. Qed.
Lemma returns_reraise_or_wrap {A} (P : A -> Prop) m c t e : returns P (reraise_or_wrap m c t e).
Proof. intros w a'. by destruct e. Qed.
Lemma returns_lift {A} (P : A -> Prop) r : (forall a, r = Ok a -> P a) -> returns P (lift r).
Proof. intros H w a' E. by apply H. Qed.
Lemma returns_bind {A B} (P : B -> Prop) (c : M A) (k : A -> M B) :
  (forall a, returns P (k a)) -> returns P (bind c k).
Proof.
  intros Hk w b. unfold bind. destruct (c w) as [[a|e] w']; [apply Hk|done].
Qed.
Lemma returns_bind_lift {A B} (P : B -> Prop) (r : result A) (k : A -> M B) :
  (forall a, r = Ok a -> returns P (k a)) -> returns P (bind (lift r) k).
Proof.
  intros Hk w b. unfold bind, lift. destruct r as [a|e]; [by apply Hk|done].
Qed.
Lemma returns_try_except {A} (P : A -> Prop) (body : M A) handler :
  returns P body -> (forall e, returns P (handler e)) -> returns P (try_except body handler).
Proof.
  intros Hb Hh w a. unfold try_except. specialize (Hb w).
  destruct (body w) as [[a'|e] w']; [apply Hb|apply Hh].
Qed.

Ltac returns_step :=
  first
    [ apply returns_raise | apply returns_raise_sanctify | apply returns_wrap
    | apply returns_reraise_or_wrap
    | apply returns_try_except; [|intros ?]
    | apply returns_bind_lift; intros ? ?
    | apply returns_bind; intros ?
    | match goal with
      | |- returns _ (if ?b then _ else _) => destruct b
      | |- returns _ (match ?x with _ => _ end) => destruct x
      end ].
Ltac returns_go := repeat returns_step.

(** [c] leaves the attribute alone and what it returns satisfies [P]. *)
Lemma steps_bind_returns {X A B} (proj : World -> X) R (P : A -> Prop) (c : M A) (k : A -> M B) :
  preserves proj c -> returns P c -> (forall a, P a -> steps proj R (k a)) -> Reflexive R ->
  steps proj R (bind c k).
Proof.
  intros Hc Hp Hk HR w. unfold bind. specialize (Hc w). specialize (Hp w).
  destruct (c w) as [[a|e] w']; simpl in *.
  - rewrite <- Hc. by apply Hk, Hp.
  - by rewrite Hc.
Qed.

Lemma remove_first_Some x l l' :
  remove_first x l = Some l' -> exists l1 l2, l = l1 ++ x :: l2 /\ l' = l1 ++ l2.
Proof.
  revert l'. induction l as [|y l IH]; intros l'; [done|]. simpl.
  destruct (decide (y = x)) as [->|].
  - intros [= <-]. by exists [], l.
  - destruct (remove_first x l) as [r|]; [|done]. intros [= <-].
    destruct (IH r eq_refl) as (l1 & l2 & -> & ->). by exists (y :: l1), l2.
Qed.

(** The closing block of [update_media] and [delete_media]:
    [self.media.remove(m)], an optional append, and the save. *)
Lemma remove_then {A} (m : value) (rest : list value -> M A) R :
  Reflexive R ->
  (forall l1 l2 w, media w = l1 ++ m :: l2 ->
     R (l1 ++ m :: l2) (media (rest (l1 ++ l2) (set_media (l1 ++ l2) w)).2)) ->
  steps media R
    (let! l := get media in
     let! l := lift (py_list_remove m l) in
     let! _ := modify (set_media l) in
     rest l).
Proof.
  intros HR H w. unfold bind, get, lift, modify, py_list_remove. simpl.
  destruct (remove_first m (media w)) as [l'|] eqn:E; simpl; [|done].
  apply remove_first_Some in E as (l1 & l2 & E & ->). rewrite E. by apply H.
Qed.

Ltac steps_step_to_get :=
  lazymatch goal with
  | |- steps _ _ (bind (get _) _) => fail
  | |- steps _ _ (bind (if _ then _ else _) _) => fail
  | _ => steps_step
  end.

Lemma delete_media_steps media_id : steps media removes_item (delete_media media_id).
Proof.
  unfold delete_media, media_dir. repeat steps_step_to_get.
  apply remove_then; [apply _|]. intros l1 l2 w E.
  right. exists l1, a, l2. split; [done|].
  assert (Hp : preserves media (let! _ := _save_media in
      let! _ := lift (py_getitem a "name") in ret (VBool true))) by frame.
  apply Hp.
Qed.

Lemma py_getitem_field v k x : py_getitem v k = Ok x -> field k v = x.
Proof.
  destruct v as [| | | | | |d]; try done. simpl. destruct (d !! k); [|done]. by intros [= ->].
Qed.

Lemma py_setitem_field_eq v k x v' : py_setitem v k x = Ok v' -> field k v' = x.
Proof.
  destruct v as [| | | | | |d]; try done. intros [= <-]. simpl. by rewrite lookup_insert_eq.
Qed.

Lemma py_setitem_field_ne v k x v' k' :
  py_setitem v k x = Ok v' -> k' <> k -> field k' v' = field k' v.
Proof.
  destruct v as [| | | | | |d]; try done. intros [= <-] Hne. simpl.
  by rewrite lookup_insert_ne.
Qed.

Lemma setdefault_field_ne v k r v' k' :
  setdefault v k r = Ok v' -> k' <> k -> field k' v' = field k' v.
Proof.
  unfold setdefault. intros H Hne. invert_ok H; [by subst|].
  by eapply py_setitem_field_ne.
Qed.

Lemma update_media_steps media_id media_data now :
  steps media replaces_item (update_media media_id media_data now).
Proof.
  unfold update_media, media_dir. repeat steps_step_to_get.
  match goal with H : _ = Ok ?md |- steps _ _ (bind ?c ?k) =>
    apply (steps_bind_returns media _ (fun x => field "is_logo" x = field "is_logo" a) c k)
  end; [solve [frame]| |intros md' Hmd'; repeat steps_step_to_get|apply _].
  - match goal with H : _ = Ok ?md |- _ =>
      assert (Hl : field "is_logo" md = field "is_logo" a) end.
    { invert_ok H.
      repeat match goal with
      | E : setdefault _ _ _ = Ok _ |- _ =>
          apply (fun E' => setdefault_field_ne _ _ _ _ "is_logo" E') in E; [|done]
      end.
      match goal with E : py_getitem a "is_logo" = Ok _ |- _ => apply py_getitem_field in E end.
      match goal with E : py_setitem _ "is_logo" _ = Ok _ |- _ =>
        apply py_setitem_field_eq in E end.
      congruence. }
    returns_go; try (by apply returns_ret).
    apply returns_lift. intros x Hx.
    apply (fun E' => py_setitem_field_ne _ _ _ _ "is_logo" E') in Hx; [|done]. congruence.
  - apply remove_then; [apply _|]. intros l1 l2 w E.
    right. exists l1, a, l2, md'. split; [done|]. split; [|done].
    assert (Hp : preserves media (let! _ := _save_media in ret (VBool true))) by frame.
    unfold bind at 1, append_media, modify. simpl.
    rewrite (Hp _). simpl. by rewrite <- app_assoc.
Qed.

(** * [set_logo] *)

Lemma has_id_ok media_id m :
  has_id_field m -> has_id media_id m = Ok (has_this_id media_id m).
Proof. intros (d & i & -> & Hi). unfold has_id, has_this_id. simpl. by rewrite Hi. Qed.

Lemma mark_logo_spec media_id rest : forall visited w,
  Forall has_id_field rest ->
  mark_logo media_id visited rest w
  = (Ok tt, set_media (visited ++ (mark_as_logo media_id <$> rest)) w).
Proof.
  induction rest as [|m rest IH]; intros visited w H.
  - simpl. by rewrite app_nil_r.
  - inversion H as [|?? Hm Hr]; subst. simpl. rewrite (has_id_ok _ _ Hm). simpl.
    destruct Hm as (d & i & -> & Hi). simpl. rewrite IH by done.
    by rewrite <- app_assoc.
Qed.

Lemma find_by_id_spec media_id l :
  Forall has_id_field l ->
  find_by_id media_id l = Ok (default VNone (List.find (has_this_id media_id) l)).
Proof.
  intros H. unfold find_by_id. rewrite (py_next_pure _ (has_this_id media_id)); [done|].
  eapply Forall_impl; [exact H|]. intros m Hm. by apply has_id_ok.
Qed.

Lemma mark_as_logo_id media_id m : field "id" (mark_as_logo media_id m) = field "id" m.
Proof. destruct m; try done. simpl. by rewrite lookup_insert_ne. Qed.

Lemma mark_as_logo_flag media_id m :
  has_id_field m -> is_logo (mark_as_logo media_id m) = has_this_id media_id m.
Proof.
  intros (d & i & -> & Hi). unfold is_logo. simpl. rewrite lookup_insert_eq. simpl.
  destruct (has_this_id media_id (VDict d)); [by apply bool_decide_eq_true|by apply bool_decide_eq_false].
Qed.

Lemma logo_count_marked media_id l :
  Forall has_id_field l ->
  logo_count (mark_as_logo media_id <$> l)
  = length (filter (fun m => has_this_id media_id m = true) l).
Proof.
  unfold logo_count. induction 1 as [|m l Hm Hl IH]; [done|]. rewrite fmap_cons.
  rewrite !filter_cons, (mark_as_logo_flag _ _ Hm).
  destruct (decide (has_this_id media_id m = true)); simpl; by rewrite IH.
Qed.

Lemma count_unique_id media_id l :
  NoDup (field "id" <$> l) ->
  length (filter (fun m => has_this_id media_id m = true) l) <= 1.
Proof.
  induction l as [|m l IH]; simpl; [lia|]. intros [Hm Hl]%NoDup_cons.
  rewrite filter_cons. destruct (decide (has_this_id media_id m = true)) as [E|E]; [|by apply IH].
  simpl. assert (filter (fun m => has_this_id media_id m = true) l = []) as ->; [|simpl; lia].
  destruct (filter _ l) as [|x f] eqn:Ef; [done|]. exfalso.
  assert (x ∈ filter (fun m => has_this_id media_id m = true) l) as [Ex Hx]%list_elem_of_filter
    by (rewrite Ef; left).
  apply Hm. apply bool_decide_eq_true in E, Ex. rewrite E, <- Ex. by apply list_elem_of_fmap_2.
Qed.

Lemma count_present_id media_id l m :
  List.find (has_this_id media_id) l = Some m ->
  1 <= length (filter (fun m => has_this_id media_id m = true) l).
Proof.
  intros [Hin Hm]%find_some. apply list_elem_of_In in Hin.
  assert (m ∈ filter (fun m => has_this_id media_id m = true) l) as Hf
    by (by apply list_elem_of_filter).
  destruct (filter _ l); [by apply elem_of_nil in Hf|simpl; lia].
Qed.

Lemma get_media_by_id_spec media_id w :
  Forall has_id_field (media w) ->
  get_media_by_id media_id w
  = (Ok (default VNone (List.find (has_this_id media_id) (media w))), w).
Proof.
  intros H. unfold get_media_by_id. munfold. simpl. by rewrite find_by_id_spec.
Qed.

Theorem set_logo_spec media_id w :
  Forall has_id_field (media w) ->
  let r := set_logo media_id w in
  match List.find (has_this_id media_id) (media w) with
  | Some m =>
      if bool_decide (field "category" m = VStr "Images")
      then media r.2 = mark_as_logo media_id <$> media w
      else exists e, r = (Raise (Sanctify e), w)
  | None => exists e, r = (Raise (Sanctify e), w)
  end.
Proof.
  intros Hid r. subst r.
  pose proof (get_media_by_id_spec media_id w Hid) as Hget.
  destruct (List.find (has_this_id media_id) (media w)) as [m|] eqn:Ef; simpl in Hget.
  2: { unfold set_logo. munfold. rewrite Hget. simpl. eauto. }
  assert (Hm : has_id_field m).
  { apply find_some in Ef as [Hin _]. rewrite Forall_forall in Hid. by apply Hid, list_elem_of_In. }
  destruct Hm as (d & i & -> & Hi).
  assert (Hrun : set_logo media_id w =
    match d !! "category" with
    | Some c =>
        if bool_decide (c = VStr "Images") then
          let w1 := set_media (mark_as_logo media_id <$> media w) w in
          match _save_media w1 with
          | (Ok _, w2) =>
              match py_getitem (VDict d) "name" with
              | Ok _ => (Ok (VBool true), w2)
              | Raise e => reraise_or_wrap "MediaModel" "SET_LOGO_002" "Error setting logo: " e w2
              end
          | (Raise e, w2) => reraise_or_wrap "MediaModel" "SET_LOGO_002" "Error setting logo: " e w2
          end
        else raise_sanctify "MediaModel" "SET_LOGO_001"
               ("Invalid logo media: " +:+ media_id +:+ " (must be an image)") w
    | None => raise_sanctify "MediaModel" "SET_LOGO_002"
                ("Error setting logo: " +:+ "'" +:+ "category" +:+ "'") w
    end).
  { unfold set_logo. unfold try_except, bind at 1. rewrite Hget.
    rewrite (nonempty_truthy _ _ _ Hi). munfold. simpl.
    destruct (d !! "category") as [c|] eqn:Ec; simpl; [|done].
    destruct (bool_decide (c = VStr "Images")); simpl; [|done].
    rewrite mark_logo_spec by done. simpl.
    destruct (_save_media _) as [[[]|e] w']; simpl; [|done].
    by destruct (d !! "name"). }
  rewrite Hrun. simpl. destruct (d !! "category") as [c|] eqn:Ec; simpl.
  2: { munfold. eauto. }
  destruct (bool_decide (c = VStr "Images")); simpl; [|munfold; eauto].
  pose proof (save_media_preserves media (set_media (mark_as_logo media_id <$> media w) w)) as Hs.
  destruct (_save_media _) as [[[]|e] w']; simpl in *.
  - destruct (d !! "name"); simpl; exact Hs.
  - destruct e; exact Hs.
Qed.

Lemma logo_count_app l1 l2 : logo_count (l1 ++ l2) = logo_count l1 + logo_count l2.
Proof. unfold logo_count. by rewrite filter_app, length_app. Qed.

Lemma logo_count_cons m l :
  logo_count (m :: l) = (if is_logo m then 1 else 0) + logo_count l.
Proof.
  unfold logo_count. rewrite filter_cons.
  destruct (is_logo m); [by rewrite decide_True|by rewrite decide_False].
Qed.

Lemma is_logo_field m m' : field "is_logo" m' = field "is_logo" m -> is_logo m' = is_logo m.
Proof. unfold is_logo. by intros ->. Qed.

Lemma appends_plain_item_count l l' : appends_plain_item l l' -> logo_count l' = logo_count l.
Proof.
  intros [->|(item & -> & H)]; [done|].
  rewrite logo_count_app, logo_count_cons. unfold is_logo. rewrite H.
  rewrite bool_decide_false by done. simpl. unfold logo_count. simpl. lia.
Qed.

Lemma replaces_item_count l l' : replaces_item l l' -> logo_count l' = logo_count l.
Proof.
  intros [->|(l1 & m & l2 & m' & -> & -> & H)]; [done|].
  rewrite !logo_count_app, !logo_count_cons, (is_logo_field _ _ H).
  unfold logo_count at 3. simpl. lia.
Qed.

Lemma removes_item_count l l' : removes_item l l' -> logo_count l' <= logo_count l.
Proof.
  intros [->|(l1 & m & l2 & -> & ->)]; [done|].
  rewrite !logo_count_app, !logo_count_cons. lia.
Qed.

(** Claim C5 (as amended): from a media collection whose items carry
    pairwise distinct ids and of which at most one is the logo, every
    operation leaves at most one logo.  [set_logo media_id] makes the item
    with that id the only logo when it is an image, and raises
    [SanctifyError], changing nothing, when the id is unknown or the item is
    not an image; [add_media] and [duplicate_media] append at most one item,
    whose flag is [False]; [update_media] keeps the flag of the item it
    replaces. *)
Theorem media_keeps_one_logo w :
  Forall has_id_field (media w) ->
  NoDup (field "id" <$> media w) ->
  at_most_one_logo (media w) ->
  (forall op, at_most_one_logo (media (run_media_op op w).2)) /\
  (forall media_id,
     let r := set_logo media_id w in
     match List.find (has_this_id media_id) (media w) with
     | Some m =>
         if bool_decide (field "category" m = VStr "Images")
         then field "id" <$> media r.2 = field "id" <$> media w /\
              Forall (fun x => is_logo x = has_this_id media_id x) (media r.2) /\
              logo_count (media r.2) = 1
         else exists e, r = (Raise (Sanctify e), w)
     | None => exists e, r = (Raise (Sanctify e), w)
     end) /\
  (forall source_path category display_name tags scaling new_id now now',
     appends_plain_item (media w)
       (media (add_media source_path category display_name tags scaling new_id now now' w).2)) /\
  (forall media_id new_id now now',
     appends_plain_item (media w) (media (duplicate_media media_id new_id now now' w).2)) /\
  (forall media_id media_data now,
     replaces_item (media w) (media (update_media media_id media_data now w).2)).
Proof.
  intros Hid Hnd Hone.
  assert (Hset : forall media_id,
     let r := set_logo media_id w in
     match List.find (has_this_id media_id) (media w) with
     | Some m =>
         if bool_decide (field "category" m = VStr "Images")
         then field "id" <$> media r.2 = field "id" <$> media w /\
              Forall (fun x => is_logo x = has_this_id media_id x) (media r.2) /\
              logo_count (media r.2) = 1
         else exists e, r = (Raise (Sanctify e), w)
     | None => exists e, r = (Raise (Sanctify e), w)
     end).
  { intros media_id r. subst r. pose proof (set_logo_spec media_id w Hid) as H. simpl in H.
    destruct (List.find (has_this_id media_id) (media w)) as [m|] eqn:Ef; [|done].
    destruct (bool_decide (field "category" m = VStr "Images")); [|done].
    rewrite H. split; [|split].
    - rewrite <- list_fmap_compose. apply list_fmap_ext. intros ? x _. apply mark_as_logo_id.
    - apply Forall_fmap. eapply Forall_impl; [exact Hid|]. intros x Hx. simpl.
      rewrite mark_as_logo_flag by done. unfold has_this_id. by rewrite mark_as_logo_id.
    - rewrite logo_count_marked by done.
      pose proof (count_unique_id media_id _ Hnd). pose proof (count_present_id _ _ _ Ef). lia. }
  split; [|split; [exact Hset|split; [|split]]].
  - intros [source_path category display_name tags scaling new_id now now'
           |media_id media_data now|media_id|media_id new_id now now'|media_id];
      unfold at_most_one_logo in *; simpl.
    + by rewrite (appends_plain_item_count _ _ (add_media_steps _ _ _ _ _ _ _ _ w)).
    + by rewrite (replaces_item_count _ _ (update_media_steps _ _ _ w)).
    + pose proof (removes_item_count _ _ (delete_media_steps media_id w)). lia.
    + by rewrite (appends_plain_item_count _ _ (duplicate_media_steps _ _ _ _ w)).
    + specialize (Hset media_id). simpl in Hset.
      destruct (List.find (has_this_id media_id) (media w)) as [m|].
      * destruct (bool_decide _); [lia|]. destruct Hset as [e ->]. done.
      * destruct Hset as [e ->]. done.
  - intros. apply add_media_steps.
  - intros. apply duplicate_media_steps.
  - intros. apply update_media_steps.
Qed.

(** * The outcome of a method on one collection *)

Section Outcome.
Context {X : Type} (proj : World -> X).

Lemma outcome_ret {A} (a : A) x Q : Q (Ok a) x -> outcome proj (ret a) x Q.
Proof. by intros H w <-. Qed.

Lemma outcome_raise {A} e x (Q : result A -> X -> Prop) : Q (Raise e) x -> outcome proj (raise e) x Q.
Proof. by intros H w <-. Qed.

Lemma outcome_raise_sanctify {A} m c t x (Q : result A -> X -> Prop) :
  Q (Raise (Sanctify (SanctifyError_init m c t))) x -> outcome proj (raise_sanctify m c t) x Q.
Proof. by intros H w <-. Qed.

Lemma outcome_lift {A} (r : result A) x Q : Q r x -> outcome proj (lift r) x Q.
Proof. by intros H w <-. Qed.

Lemma outcome_bind {A B} (c : M A) (k : A -> M B) x Q :
  outcome proj c x (fun r x' =>
    match r with
    | Ok a => outcome proj (k a) x' Q
    | Raise e => Q (Raise e) x'
    end) ->
  outcome proj (bind c k) x Q.
Proof.
  intros H w Hw. specialize (H w Hw). unfold bind.
  destruct (c w) as [[a|e] w']; simpl in *; [by apply H|done].
Qed.

Lemma outcome_bind_lift {A B} (r : result A) (k : A -> M B) x Q :
  match r with
  | Ok a => outcome proj (k a) x Q
  | Raise e => Q (Raise e) x
  end ->
  outcome proj (bind (lift r) k) x Q.
Proof. intros H. apply outcome_bind, outcome_lift. exact H. Qed.

Lemma outcome_bind_get {B} (k : X -> M B) x Q :
  outcome proj (k x) x Q -> outcome proj (bind (get proj) k) x Q.
Proof. intros H w Hw. unfold bind, get. simpl. rewrite Hw. by apply H. Qed.

Lemma outcome_try_except {A} (body : M A) handler x Q :
  outcome proj body x (fun r x' =>
    match r with
    | Ok a => Q (Ok a) x'
    | Raise e => outcome proj (handler e) x' Q
    end) ->
  outcome proj (try_except body handler) x Q.
Proof.
  intros H w Hw. specialize (H w Hw). unfold try_except.
  destruct (body w) as [[a|e] w']; simpl in *; [done|by apply H].
Qed.

Lemma outcome_preserves {A} (c : M A) x Q :
  preserves proj c -> (forall r, Q r x) -> outcome proj c x Q.
Proof. intros Hc H w <-. rewrite Hc. apply H. Qed.

Lemma outcome_preserves_returns {A} (P : A -> Prop) (c : M A) x Q :
  preserves proj c -> returns P c ->
  (forall r, (forall a, r = Ok a -> P a) -> Q r x) -> outcome proj c x Q.
Proof. intros Hc Hp H w <-. rewrite Hc. apply H. intros a Ha. by eapply Hp. Qed.

Lemma outcome_modify (f : World -> World) x y Q :
  (forall w, proj w = x -> proj (f w) = y) -> Q (Ok tt) y -> outcome proj (modify f) x Q.
Proof. intros Hf H w Hw. unfold modify. simpl. by rewrite (Hf w Hw). Qed.

(** With the two handlers that close a public method, a raise inside the
    body reaches the caller as a [SanctifyError] and the collection is as
    the body left it. *)
Lemma outcome_reraise_or_wrap {A} m c t e x (Q : result A -> X -> Prop) :
  (forall s, Q (Raise (Sanctify s)) x) -> outcome proj (reraise_or_wrap m c t e) x Q.
Proof. intros H w <-. destruct e; apply H. Qed.
End Outcome.

Lemma py_any_pure {A} (f : A -> result bool) (g : A -> bool) l :
  Forall (fun x => f x = Ok (g x)) l -> py_any f l = Ok (existsb g l).
Proof.
  induction 1 as [|x l Hx Hl IH]; [done|]. simpl. rewrite Hx. by destruct (g x).
Qed.

(** * Distinct names *)

Section Keys.
Context {K : Type} `{EqDecision K} (key : value -> K).

Lemma NoDup_keys_snoc l x :
  NoDup (key <$> l) -> key x ∉ key <$> l -> NoDup (key <$> (l ++ [x])).
Proof.
  intros Hl Hx. rewrite fmap_app. apply NoDup_app. split; [done|]. split.
  - intros k Hk [->|[]%elem_of_nil]%elem_of_cons. done.
  - simpl. apply NoDup_singleton.
Qed.

Lemma NoDup_keys_drop l1 m l2 :
  NoDup (key <$> (l1 ++ m :: l2)) ->
  NoDup (key <$> (l1 ++ l2)) /\ (key m ∉ key <$> (l1 ++ l2)).
Proof.
  rewrite !fmap_app, fmap_cons. intros H.
  apply NoDup_app in H as (H1 & H2 & H3). apply NoDup_cons in H3 as [H3 H4].
  split.
  - apply NoDup_app. split; [done|]. split; [|done].
    intros k Hk Hk'. apply (H2 k Hk). by right.
  - intros [Hin|Hin]%elem_of_app; [|done]. apply (H2 _ Hin). by left.
Qed.

Lemma NoDup_keys_replace l1 m l2 x :
  NoDup (key <$> (l1 ++ m :: l2)) -> key x ∉ key <$> (l1 ++ l2) ->
  NoDup (key <$> (l1 ++ l2 ++ [x])).
Proof.
  intros [H _]%NoDup_keys_drop Hx. rewrite app_assoc. by apply NoDup_keys_snoc.
Qed.

Lemma existsb_key (k : K) l :
  existsb (fun x => bool_decide (key x = k)) l = true <-> k ∈ key <$> l.
Proof.
  rewrite existsb_exists, list_elem_of_fmap. split.
  - intros (x & Hx & E). exists x. apply bool_decide_eq_true in E.
    split; [done|]. by apply list_elem_of_In.
  - intros (x & -> & Hx). exists x. split; [by apply list_elem_of_In|].
    by apply bool_decide_eq_true.
Qed.
End Keys.

(** * Songs *)

Import SongModel.

Lemma titled_title_lower s : titled s -> title_lower s = Ok (key_title s).
Proof.
  intros (d & t & -> & Ht). unfold title_lower, key_title, title_of. simpl. by rewrite Ht.
Qed.

Lemma valid_song_titled s : _validate_song s = true -> titled s.
Proof. intros (d & ? & ? & ? & ? & -> & Ht & _)%valid_song_inv. by exists d, (title_of (VDict d)). Qed.

Ltac out_raise :=
  first [ apply outcome_raise_sanctify | apply outcome_reraise_or_wrap; intros ?
        | apply outcome_raise ];
  try (left; eexists; split; reflexivity).

Lemma save_songs_preserves {X} (proj : World -> X) `{!NotDisk proj} : preserves proj _save_songs.
Proof. unfold _save_songs, songs_path. frame. Qed.
#[export] Hint Resolve save_songs_preserves : frame.

(** [let! x := lift r in raise ...] and the like: every path raises. *)
Ltac out_raise_lift :=
  repeat (apply outcome_bind_lift; match goal with |- match ?r with _ => _ end => destruct r end);
  out_raise.

(** The tail [self._save_*(); return v] after the collection was changed. *)
Ltac out_saved :=
  cbn beta iota;
  apply outcome_preserves;
  [solve [frame]|intros [?|?]; [|apply outcome_reraise_or_wrap; intros ?]].

Lemma add_song_outcome song_data now l :
  Forall titled l ->
  outcome songs (add_song song_data now) l (fun r l' =>
    unchanged l r l' \/
    exists rec, l' = l ++ [rec] /\ titled rec /\ (key_title rec ∉ key_title <$> l) /\
                field "title" rec = field "title" song_data).
Proof.
  intros Hl. unfold add_song. apply outcome_try_except.
  apply outcome_bind_lift.
  destruct (let? t := py_get song_data "title" (VStr "") in py_strip t) as [title|e] eqn:Et;
    [|out_raise].
  destruct (negb (truthy (VStr title))) eqn:Etr; [out_raise; out_raise|].
  apply outcome_bind_get. apply outcome_bind_lift.
  assert (Hsd : exists d t, song_data = VDict d /\ d !! "title" = Some (VStr t)).
  { destruct song_data as [| | | | | |d]; try done. simpl in Et.
    destruct (d !! "title") as [[| | | |t| |]|] eqn:E; simpl in *; try done; [eauto|].
    injection Et as <-. done. }
  destruct Hsd as (d & t & -> & Ht).
  rewrite (py_any_pure _ (fun s => bool_decide (key_title s = lower t))).
  2: { eapply Forall_impl; [exact Hl|]. intros s Hs. simpl.
       rewrite (titled_title_lower _ Hs). unfold title_lower. simpl. by rewrite Ht. }
  destruct (existsb _ l) eqn:Etaken; [out_raise_lift; out_raise|].
  rewrite completion_eq. apply outcome_bind_lift.
  destruct (negb (_validate_song (VDict (completed d now)))) eqn:Ev; [out_raise_lift; out_raise|].
  apply negb_false_iff in Ev.
  apply outcome_bind. eapply outcome_modify; [intros w Hw; simpl; by rewrite Hw|].
  destruct (completed_lookup d now) as (Hct & _).
  assert (Hk : key_title (VDict (completed d now)) = lower t).
  { unfold key_title, title_of. by rewrite Hct, Ht. }
  out_saved.
  all: right; eexists; split; [done|]; split; [by apply valid_song_titled|].
  all: split; [rewrite Hk, <- existsb_key; by rewrite Etaken|simpl; by rewrite Hct].
Qed.

Lemma titled_truthy s : titled s -> truthy s = true.
Proof. intros (d & t & -> & Ht). by eapply nonempty_truthy. Qed.

Lemma get_song_by_title_outcome t l Q :
  Forall titled l ->
  Q (Ok (default VNone (List.find (same_title t) l))) l ->
  outcome songs (get_song_by_title t) l Q.
Proof.
  intros Hl HQ. unfold get_song_by_title. apply outcome_try_except, outcome_bind_get.
  apply outcome_bind_lift. rewrite (py_next_pure _ (same_title t)).
  2: { eapply Forall_impl; [exact Hl|]. intros s Hs. simpl.
       by rewrite (titled_title_lower _ Hs). }
  by apply outcome_ret.
Qed.

Lemma title_of_field s t : field "title" s = VStr t -> title_of s = t.
Proof. destruct s as [| | | | | |d]; try done. simpl. by destruct (d !! "title") as [[]|]; intros [= ->]. Qed.

Lemma titled_field s : titled s -> field "title" s = VStr (title_of s).
Proof. intros (d & t & -> & Ht). simpl. by rewrite Ht. Qed.

Lemma duplicate_song_outcome title now l :
  Forall titled l ->
  outcome songs (duplicate_song title now) l (fun r l' =>
    unchanged l r l' \/
    exists rec, l' = l ++ [rec] /\ titled rec /\ (key_title rec ∉ key_title <$> l) /\
                key_title rec = lower (title +:+ " (Copy)")).
Proof.
  intros Hl. unfold duplicate_song. apply outcome_try_except, outcome_bind.
  apply get_song_by_title_outcome; [done|].
  destruct (List.find (same_title title) l) as [song|] eqn:Ef; simpl; [|out_raise; out_raise].
  assert (Hs : titled song).
  { apply find_some in Ef as [Hin _]. rewrite Forall_forall in Hl. by apply Hl, list_elem_of_In. }
  apply find_some in Ef as [_ Hsame].
  rewrite (titled_truthy _ Hs). simpl.
  destruct Hs as (d & t & -> & Ht).
  apply outcome_bind_lift. simpl. rewrite Ht. simpl.
  apply outcome_bind_get, outcome_bind_lift.
  rewrite (py_any_pure _ (fun s => bool_decide (key_title s = lower (t +:+ " (Copy)")))).
  2: { eapply Forall_impl; [exact Hl|]. intros s Hs. simpl.
       by rewrite (titled_title_lower _ Hs). }
  destruct (existsb _ l) eqn:Etaken; [out_raise; out_raise|].
  apply outcome_bind_lift. rewrite lookup_insert_eq. simpl.
  apply outcome_bind. eapply outcome_modify; [intros w Hw; simpl; by rewrite Hw|].
  assert (Hk : key_title (VDict (<["updated_at":=VStr now]> (<["created_at":=VStr now]>
                 (<["title":=VStr (t +:+ " (Copy)")]> d)))) = lower (title +:+ " (Copy)")).
  { unfold key_title, title_of. rewrite !lookup_insert_ne, lookup_insert_eq by done.
    unfold same_title, title_of in Hsame. rewrite Ht in Hsame.
    apply bool_decide_eq_true in Hsame. by rewrite !lower_app, Hsame. }
  out_saved.
  all: right; eexists; split; [done|]; split;
    [eexists _, _; split; [done|]; by rewrite !lookup_insert_ne, lookup_insert_eq by done|].
  all: split; [|done]; rewrite Hk, <- existsb_key.
  all: unfold same_title, title_of in Hsame; rewrite Ht in Hsame;
    apply bool_decide_eq_true in Hsame; rewrite !lower_app, <- Hsame, <- lower_app;
    by rewrite Etaken.
Qed.

Lemma taken_outcome (renamed : bool) old data l Q :
  Forall titled l ->
  (renamed = true -> titled data) ->
  (forall taken, (renamed = true -> taken = existsb (other_with_title old data) l) ->
     Q (Ok taken) l) ->
  outcome songs
    (if renamed then
       lift (py_any (fun s =>
         let? a := title_lower s in
         if negb (bool_decide (a = lower old)) then
           let? a := title_lower s in
           let? b := title_lower data in
           Ok (bool_decide (a = b))
         else Ok false) l)
     else ret false) l Q.
Proof.
  intros Hl Hd HQ. destruct renamed.
  - apply outcome_lift. rewrite (py_any_pure _ (other_with_title old data)); [by apply HQ|].
    eapply Forall_impl; [exact Hl|]. intros s Hs. simpl.
    rewrite (titled_title_lower _ Hs), (titled_title_lower _ (Hd eq_refl)). simpl.
    unfold other_with_title. by destruct (bool_decide (key_title s = lower old)).
  - apply outcome_ret, HQ. done.
Qed.

Lemma renamed_inv old data (renamed : bool) :
  (let? t := py_get data "title" (VStr "") in
   let? t := py_strip t in
   if truthy (VStr t) then
     let? b := title_lower data in
     Ok (negb (bool_decide (b = lower old)))
   else Ok false) = Ok renamed ->
  (renamed = true -> titled data /\ key_title data <> lower old) /\
  (renamed = false -> forall t, field "title" data = VStr t -> strip t <> "" ->
                      key_title data = lower old).
Proof.
  destruct data as [| | | | | |d]; try done. simpl.
  destruct (d !! "title") as [[| | | |t| |]|] eqn:Et; simpl; try done.
  - destruct (bool_decide (strip t = "")) eqn:Es; simpl.
    + intros [= <-]. split; [done|]. intros _ t' [= <-] Hne.
      by apply bool_decide_eq_true in Es.
    + unfold title_lower. simpl. rewrite Et. simpl. intros [= <-].
      unfold key_title, title_of. rewrite Et. split.
      * intros H%negb_true_iff%bool_decide_eq_false. split; [by exists d, t|done].
      * intros H%negb_false_iff%bool_decide_eq_true. done.
  - intros [= <-]. split; [done|]. done.
Qed.

Lemma updated_song_title data song now sd :
  (let? d := py_copy data in
   let? d := py_setitem d "updated_at" (VStr now) in
   let? created := py_getitem song "created_at" in
   let? d := py_setitem d "created_at" created in
   let? d := setdefault d "sections" (py_getitem song "sections") in
   setdefault d "tags" (py_getitem song "tags")) = Ok sd ->
  field "title" sd = field "title" data.
Proof.
  destruct data as [| | | | | |d]; try done. simpl.
  destruct (py_getitem song "created_at") as [c|]; [|done]. simpl.
  unfold setdefault. simpl.
  destruct (bool_decide (is_Some _)); simpl.
  - destruct (bool_decide (is_Some _)); simpl.
    + intros [= <-]. simpl. by rewrite !lookup_insert_ne.
    + destruct (py_getitem song "tags"); [|done]. simpl. intros [= <-]. simpl.
      by rewrite !lookup_insert_ne.
  - destruct (py_getitem song "sections"); [|done]. simpl.
    destruct (bool_decide (is_Some _)); simpl.
    + intros [= <-]. simpl. by rewrite !lookup_insert_ne.
    + destruct (py_getitem song "tags"); [|done]. simpl. intros [= <-]. simpl.
      by rewrite !lookup_insert_ne.
Qed.

Lemma key_title_field a b : field "title" a = field "title" b -> titled a -> key_title a = key_title b.
Proof.
  intros H Ha. rewrite (titled_field _ Ha) in H. symmetry in H.
  unfold key_title. by rewrite (title_of_field _ _ H).
Qed.

Lemma update_song_outcome old data now l :
  Forall titled l -> NoDup (key_title <$> l) ->
  outcome songs (update_song old data now) l (fun r l' =>
    unchanged l r l' \/
    exists l1 m l2 rec, l = l1 ++ m :: l2 /\ l' = l1 ++ l2 ++ [rec] /\
      key_title m = lower old /\ titled rec /\
      (key_title rec ∉ key_title <$> (l1 ++ l2)) /\
      field "title" rec = field "title" data).
Proof.
  intros Hl Hnd. unfold update_song. apply outcome_try_except, outcome_bind.
  apply get_song_by_title_outcome; [done|].
  destruct (List.find (same_title old) l) as [song|] eqn:Ef; simpl; [|out_raise; out_raise].
  apply find_Some_split in Ef as (l1 & l2 & -> & Hsame & Hl1).
  assert (Hs : titled song).
  { apply Forall_app in Hl as [_ Hl]. by inversion Hl. }
  rewrite (titled_truthy _ Hs). simpl.
  apply outcome_bind_lift.
  match goal with |- match ?r with _ => _ end => destruct r as [renamed|e] eqn:Hren end;
    [|out_raise].
  apply renamed_inv in Hren as [Hren1 Hren0].
  apply outcome_bind_get, outcome_bind, taken_outcome; [done|by intros H; apply Hren1|].
  intros taken Htaken.
  destruct taken; [out_raise_lift; out_raise|].
  apply outcome_bind_lift.
  match goal with |- match ?r with _ => _ end => destruct r as [sd|e] eqn:Esd end;
    [|out_raise].
  apply updated_song_title in Esd.
  destruct (negb (_validate_song sd)) eqn:Ev; [out_raise_lift; out_raise|].
  apply negb_false_iff in Ev.
  apply outcome_bind_get, outcome_bind_lift.
  unfold py_list_remove. rewrite (remove_first_split _ _ _ _ Hsame Hl1).
  apply outcome_bind. apply (outcome_modify _ _ _ (l1 ++ l2)); [by intros w Hw|].
  apply outcome_bind. eapply outcome_modify; [intros w Hw; simpl; by rewrite Hw|].
  assert (Hm : key_title song = lower old).
  { unfold same_title in Hsame. by apply bool_decide_eq_true in Hsame. }
  assert (Hfree : key_title sd ∉ key_title <$> (l1 ++ l2)).
  { destruct (NoDup_keys_drop key_title _ _ _ Hnd) as [_ Hout].
    pose proof (valid_song_titled _ Ev) as Hsd.
    rewrite (key_title_field _ _ Esd Hsd).
    destruct renamed.
    - destruct (Hren1 eq_refl) as [_ Hne]. specialize (Htaken eq_refl). symmetry in Htaken.
      intros (s & Hk & Hin)%list_elem_of_fmap.
      assert (other_with_title old data s = false) as Hf.
      { destruct (other_with_title old data s) eqn:E; [|done].
        rewrite <- Htaken. symmetry. apply existsb_exists. exists s. split; [|done].
        apply list_elem_of_In. rewrite elem_of_app in Hin |- *. destruct Hin; [by left|].
        right. by right. }
      unfold other_with_title in Hf. rewrite <- Hk in Hf.
      rewrite (bool_decide_true (key_title data = key_title data)), andb_true_r in Hf by done.
      apply negb_false_iff, bool_decide_eq_true in Hf. done.
    - destruct (valid_song_inv _ Ev) as (dd & ? & ? & ? & ? & -> & Ht & Hne & _).
      simpl in Esd. rewrite Ht in Esd. symmetry in Esd.
      rewrite (Hren0 eq_refl _ Esd Hne), <- Hm. done. }
  out_saved.
  all: right; exists l1, song, l2, sd; split; [done|]; split; [by rewrite app_assoc|].
  all: split; [done|]; split; [by apply valid_song_titled|]; done.
Qed.

(** * Themes and presentations: records with an id and a name *)

Lemma named_name_lower s : named s -> name_lower s = Ok (key_name s).
Proof.
  intros (d & n & -> & Hn). unfold name_lower, key_name. simpl. by rewrite Hn.
Qed.

Lemma named_truthy s : named s -> truthy s = true.
Proof. intros (d & t & -> & Ht). by eapply nonempty_truthy. Qed.

Lemma field_named s n : field "name" s = VStr n -> named s.
Proof.
  destruct s as [| | | | | |d]; try done. simpl.
  destruct (d !! "name") as [v|] eqn:E; [|done]. simpl. intros ->. by exists d, n.
Qed.

Lemma field_has_id s i : field "id" s = VStr i -> has_id_field s.
Proof.
  destruct s as [| | | | | |d]; try done. simpl.
  destruct (d !! "id") as [v|] eqn:E; [|done]. simpl. intros ->. by exists d, (VStr i).
Qed.

Lemma name_taken_pure name l :
  Forall named l ->
  py_any (fun t => let? n := name_lower t in Ok (bool_decide (n = lower name))) l
  = Ok (existsb (fun s => bool_decide (key_name s = lower name)) l).
Proof.
  intros Hl. apply py_any_pure. eapply Forall_impl; [exact Hl|].
  intros s Hs. simpl. by rewrite (named_name_lower _ Hs).
Qed.

Lemma same_name_pure rec l :
  Forall named l -> named rec ->
  py_any (fun t => let? a := name_lower t in let? b := name_lower rec in
                   Ok (bool_decide (a = b))) l
  = Ok (existsb (fun s => bool_decide (key_name s = key_name rec)) l).
Proof.
  intros Hl Hr. apply py_any_pure. eapply Forall_impl; [exact Hl|].
  intros s Hs. simpl. by rewrite (named_name_lower _ Hs), (named_name_lower _ Hr).
Qed.

Lemma taken_by_id_outcome {X} (proj : World -> X) (renamed : bool) id data l x Q :
  Forall named l -> Forall has_id_field l ->
  (renamed = true -> named data) ->
  (forall taken, (renamed = true -> taken = existsb (other_with_name id data) l) ->
     Q (Ok taken) x) ->
  outcome proj
    (if renamed then
       lift (py_any (fun t =>
         let? same := has_id id t in
         if negb same then
           let? a := name_lower t in
           let? b := name_lower data in
           Ok (bool_decide (a = b))
         else Ok false) l)
     else ret false) x Q.
Proof.
  intros Hl Hi Hd HQ. destruct renamed.
  - apply outcome_lift. rewrite (py_any_pure _ (other_with_name id data)); [by apply HQ|].
    apply Forall_forall. intros s Hs.
    rewrite Forall_forall in Hl. rewrite Forall_forall in Hi.
    rewrite (has_id_ok _ _ (Hi _ Hs)). simpl.
    rewrite (named_name_lower _ (Hl _ Hs)), (named_name_lower _ (Hd eq_refl)). simpl.
    unfold other_with_name. by destruct (has_this_id id s).
  - apply outcome_ret, HQ. done.
Qed.

Lemma renamed_name_inv data rec (renamed : bool) :
  named rec ->
  (let? n := py_get data "name" (VStr "") in
   let? n := py_strip n in
   if truthy (VStr n) then
     let? a := name_lower data in
     let? b := name_lower rec in
     Ok (negb (bool_decide (a = b)))
   else Ok false) = Ok renamed ->
  (renamed = true -> named data /\ key_name data <> key_name rec) /\
  (renamed = false -> forall n, field "name" data = VStr n -> strip n <> "" ->
                      key_name data = key_name rec).
Proof.
  intros Hr. destruct data as [| | | | | |d]; try done. simpl.
  destruct (d !! "name") as [[| | | |t| |]|] eqn:Et; simpl; try done.
  - destruct (bool_decide (strip t = "")) eqn:Es; simpl.
    + intros [= <-]. split; [done|]. intros _ t' [= <-] Hne.
      by apply bool_decide_eq_true in Es.
    + unfold name_lower at 1. simpl. rewrite Et. simpl.
      rewrite (named_name_lower _ Hr). simpl. intros [= <-].
      unfold key_name. simpl. rewrite Et. simpl. split.
      * intros H%negb_true_iff%bool_decide_eq_false. split; [by exists d, t|done].
      * intros H%negb_false_iff%bool_decide_eq_true. done.
  - intros [= <-]. split; [done|]. done.
Qed.

Lemma py_update_field d other r k :
  py_update d other = Ok r ->
  exists b, other = VDict b /\ field k r = default (field k d) (b !! k).
Proof.
  destruct d as [| | | | | |a]; try done. destruct other as [| | | | | |b]; try done.
  intros [= <-]. exists b. split; [done|]. simpl. rewrite lookup_union.
  by destruct (b !! k), (a !! k).
Qed.

Lemma py_copy_inv v r : py_copy v = Ok r -> r = v.
Proof. destruct v; try done; by intros [= <-]. Qed.

(** The name of the record that replaces [m] is free among the others. *)
Lemma update_name_free id data b m l1 l2 rec n (renamed : bool) :
  Forall named (l1 ++ m :: l2) ->
  NoDup (key_name <$> (l1 ++ m :: l2)) ->
  NoDup (field "id" <$> (l1 ++ m :: l2)) ->
  field "id" m = VStr id ->
  field "name" rec = VStr n -> strip n <> "" ->
  data = VDict b ->
  field "name" rec = default (field "name" m) (b !! "name") ->
  (renamed = true -> named data /\ key_name data <> key_name m) ->
  (renamed = false -> forall n, field "name" data = VStr n -> strip n <> "" ->
                      key_name data = key_name m) ->
  (renamed = true -> false = existsb (other_with_name id data) (l1 ++ m :: l2)) ->
  key_name rec ∉ key_name <$> (l1 ++ l2).
Proof.
  intros Hl Hnd Hids Hid Hn Hne -> Hname Hren1 Hren0 Htaken.
  destruct (NoDup_keys_drop key_name _ _ _ Hnd) as [_ Hout].
  destruct (NoDup_keys_drop (field "id") _ _ _ Hids) as [_ Hidout].
  destruct (b !! "name") as [v|] eqn:Eb; simpl in Hname.
  - assert (Hd : field "name" (VDict b) = VStr n) by (simpl; rewrite Eb; simpl; congruence).
    assert (Hk : key_name rec = key_name (VDict b)) by (unfold key_name; by rewrite Hn, Hd).
    rewrite Hk. destruct renamed.
    + specialize (Htaken eq_refl).
      intros (s & Hks & Hin)%list_elem_of_fmap.
      assert (other_with_name id (VDict b) s = false) as Hf.
      { destruct (other_with_name id (VDict b) s) eqn:E; [|done].
        rewrite Htaken. symmetry. apply existsb_exists. exists s. split; [|done].
        apply list_elem_of_In. rewrite elem_of_app in Hin |- *. destruct Hin; [by left|].
        right. by right. }
      unfold other_with_name in Hf. rewrite <- Hks in Hf.
      rewrite (bool_decide_true (key_name (VDict b) = key_name (VDict b))), andb_true_r in Hf
        by done.
      apply negb_false_iff, bool_decide_eq_true in Hf.
      apply Hidout. rewrite Hid, <- Hf. apply list_elem_of_fmap. by exists s.
    + by rewrite (Hren0 eq_refl _ Hd Hne).
  - assert (key_name rec = key_name m) as -> by (unfold key_name; by rewrite Hname).
    done.
Qed.

Lemma has_text_field d k : has_text d k = true -> exists n, field k (VDict d) = VStr n /\ strip n <> "".
Proof.
  unfold has_text. simpl. destruct (d !! k) as [[| | | |t| |]|]; try done. simpl.
  intros H%negb_true_iff%bool_decide_eq_false. by exists t.
Qed.

Lemma has_str_field d k : has_str d k = true -> exists n, field k (VDict d) = VStr n.
Proof.
  unfold has_str. simpl. destruct (d !! k) as [[| | | |t| |]|]; try done. simpl. by exists t.
Qed.

(** ** Themes *)

Section Themes.
Import ThemeModel.

Lemma valid_theme_inv t :
_validate_theme t = true ->
exists n i, field "name" t = VStr n /\ strip n <> "" /\ field "id" t = VStr i.
Proof.
destruct t as [| | | | | |d]; try done. unfold _validate_theme.
rewrite !andb_true_iff. intros [[[[[[[[[[Hid Hname] _] _] _] _] _] _] _] _] _].
destruct (has_text_field d "name") as (n & Hn & Hne); [done|].
destruct (has_str_field d "id") as (i & Hi); [done|].
by exists n, i.
Qed.

Lemma save_themes_preserves {X} (proj : World -> X) `{!NotDisk proj} : preserves proj _save_themes.
Proof. unfold _save_themes, theme_file. frame. Qed.

Lemma get_theme_by_id_preserves {X} (proj : World -> X) id : preserves proj (get_theme_by_id id).
Proof. unfold get_theme_by_id. frame. Qed.

Lemma get_theme_by_id_outcome id l Q :
Forall has_id_field l ->
Q (Ok (default VNone (List.find (has_this_id id) l))) l ->
outcome themes (get_theme_by_id id) l Q.
Proof.
intros Hl HQ. unfold get_theme_by_id. apply outcome_try_except, outcome_bind_get.
apply outcome_lift. by rewrite find_by_id_spec.
Qed.
End Themes.
#[export] Hint Resolve save_themes_preserves get_theme_by_id_preserves : frame.

Section Themes.
Import ThemeModel.

Lemma create_theme_outcome name context alignment font_color background_color font_size
  font_family tags new_id now now' l :
Forall named l ->
outcome themes
  (create_theme name context alignment font_color background_color font_size
     font_family tags new_id now now') l (fun r l' =>
  unchanged l r l' \/
  exists rec, l' = l ++ [rec] /\ named rec /\ (key_name rec ∉ key_name <$> l) /\
              field "id" rec = VStr new_id /\ key_name rec = lower name).
Proof.
intros Hl. unfold create_theme. apply outcome_try_except.
destruct (bool_decide (strip name = "")); [out_raise; out_raise|].
apply outcome_bind_get, outcome_bind_lift. unfold name_taken.
rewrite name_taken_pure by done.
destruct (existsb _ l) eqn:Etaken; [out_raise; out_raise|].
match goal with |- context [_validate_theme ?t] => set (theme := t) end.
destruct (negb (_validate_theme theme)) eqn:Ev; [out_raise; out_raise|].
apply outcome_bind. eapply outcome_modify; [intros w Hw; simpl; by rewrite Hw|].
assert (Hn : field "name" theme = VStr name) by reflexivity.
assert (Hk : key_name theme = lower name) by (unfold key_name; by rewrite Hn).
out_saved.
all: right; exists theme; split; [done|]; split; [by eapply field_named|].
all: split; [rewrite Hk, <- existsb_key; by rewrite Etaken|done].
Qed.

Lemma update_theme_outcome theme_id data now l :
Forall named l -> Forall has_id_field l ->
NoDup (key_name <$> l) -> NoDup (field "id" <$> l) ->
outcome themes (update_theme theme_id data now) l (fun r l' =>
  unchanged l r l' \/
  exists l1 m l2 rec, l = l1 ++ m :: l2 /\ l' = l1 ++ l2 ++ [rec] /\
    field "id" m = VStr theme_id /\ named rec /\ field "id" rec = field "id" m /\
    (key_name rec ∉ key_name <$> (l1 ++ l2)) /\
    (forall n, field "name" data = VStr n -> key_name rec = lower n)).
Proof.
intros Hl Hi Hnd Hids. unfold update_theme. apply outcome_try_except, outcome_bind.
apply get_theme_by_id_outcome; [done|].
destruct (List.find (has_this_id theme_id) l) as [theme|] eqn:Ef; simpl;
  [|out_raise; out_raise].
apply find_Some_split in Ef as (l1 & l2 & -> & Hsame & Hl1).
assert (Hs : named theme).
{ apply Forall_app in Hl as [_ Hl']. by inversion Hl'. }
rewrite (named_truthy _ Hs). simpl.
apply outcome_bind_lift.
match goal with |- match ?r with _ => _ end => destruct r as [renamed|e] eqn:Hren end;
  [|out_raise].
apply (renamed_name_inv _ _ _ Hs) in Hren as [Hren1 Hren0].
apply outcome_bind_get, outcome_bind, taken_by_id_outcome;
  [done|done|by intros H; apply Hren1|].
intros taken Htaken.
destruct taken; [out_raise_lift; out_raise|].
apply outcome_bind_lift.
match goal with |- match ?r with _ => _ end => destruct r as [rec|e] eqn:Erec end;
  [|out_raise].
destruct (negb (_validate_theme rec)) eqn:Ev; [out_raise_lift; out_raise|].
apply negb_false_iff in Ev.
apply outcome_bind_get, outcome_bind_lift.
unfold py_list_remove. rewrite (remove_first_split _ _ _ _ Hsame Hl1).
apply outcome_bind. apply (outcome_modify _ _ _ (l1 ++ l2)); [by intros w Hw|].
apply outcome_bind. eapply outcome_modify; [intros w Hw; simpl; by rewrite Hw|].
assert (Hm : field "id" theme = VStr theme_id).
{ unfold has_this_id in Hsame. by apply bool_decide_eq_true in Hsame. }
destruct (valid_theme_inv _ Ev) as (n & i & Hn & Hne & _).
invert_ok Erec. apply py_copy_inv in E as ->.
destruct (py_update_field _ _ _ "name" E0) as (b & -> & Hb).
assert (Hname : field "name" rec = default (field "name" theme) (b !! "name")).
{ rewrite <- Hb. rewrite (py_setitem_field_ne _ _ _ _ "name" Erec) by done.
  rewrite (py_setitem_field_ne _ _ _ _ "name" E4) by done.
  by rewrite (py_setitem_field_ne _ _ _ _ "name" E2). }
assert (Hid : field "id" rec = field "id" theme).
{ rewrite (py_setitem_field_ne _ _ _ _ "id" Erec) by done.
  rewrite (py_setitem_field_ne _ _ _ _ "id" E4) by done.
  rewrite (py_setitem_field_eq _ _ _ _ E2). symmetry. by apply py_getitem_field. }
pose proof (update_name_free _ _ _ _ _ _ _ _ _ Hl Hnd Hids Hm Hn Hne eq_refl Hname
              Hren1 Hren0 Htaken) as Hfree.
assert (Hgiven : forall n', field "name" (VDict b) = VStr n' -> key_name rec = lower n').
{ intros n' Hn'. simpl in Hn'. unfold key_name. rewrite Hname.
  destruct (b !! "name"); simpl in Hn' |- *; [by rewrite Hn'|done]. }
out_saved.
all: right; exists l1, theme, l2, rec; split; [done|]; split; [by rewrite app_assoc|].
all: split; [done|]; split; [by eapply field_named|]; done.
Qed.
End Themes.

(** The copy that [duplicate_theme] and [duplicate_presentation] build. *)
Lemma copy_record_fields rec new_id now copy :
  named rec ->
  (let? d := py_copy rec in
   let? d := py_setitem d "id" (VStr new_id) in
   let? n := py_getitem rec "name" in
   let? d := py_setitem d "name" (VStr (py_str n +:+ " (Copy)")) in
   let? d := py_setitem d "created_at" (VStr now) in
   let? created := py_getitem d "created_at" in
   py_setitem d "updated_at" created) = Ok copy ->
  field "id" copy = VStr new_id /\
  field "name" copy = VStr (text_of (field "name" rec) +:+ " (Copy)").
Proof.
  intros (d & n & -> & Hn) H. simpl in H. rewrite Hn in H. simpl in H.
  rewrite lookup_insert_eq in H. simpl in H. injection H as <-. simpl.
  rewrite Hn. simpl.
  repeat (rewrite lookup_insert_eq || rewrite lookup_insert_ne by done). done.
Qed.

Section Themes.
Import ThemeModel.

Lemma duplicate_theme_outcome theme_id new_id now l :
Forall named l -> Forall has_id_field l ->
outcome themes (duplicate_theme theme_id new_id now) l (fun r l' =>
  unchanged l r l' \/
  exists m rec, m ∈ l /\ field "id" m = VStr theme_id /\ l' = l ++ [rec] /\
    named rec /\ (key_name rec ∉ key_name <$> l) /\ field "id" rec = VStr new_id /\
    key_name rec = lower (text_of (field "name" m) +:+ " (Copy)")).
Proof.
intros Hl Hi. unfold duplicate_theme. apply outcome_try_except, outcome_bind.
apply get_theme_by_id_outcome; [done|].
destruct (List.find (has_this_id theme_id) l) as [theme|] eqn:Ef; simpl;
  [|out_raise; out_raise].
apply find_some in Ef as [Hin Hsame]. apply list_elem_of_In in Hin.
assert (Hs : named theme) by (rewrite Forall_forall in Hl; by apply Hl).
rewrite (named_truthy _ Hs). simpl.
apply outcome_bind_lift.
match goal with |- match ?r with _ => _ end => destruct r as [rec|e] eqn:Erec end;
  [|out_raise].
apply (copy_record_fields _ _ _ _ Hs) in Erec as [Hid Hname].
pose proof (field_named _ _ Hname) as Hrec.
apply outcome_bind_get, outcome_bind_lift.
rewrite same_name_pure by done.
destruct (existsb _ l) eqn:Etaken; [out_raise_lift; out_raise|].
apply outcome_bind. eapply outcome_modify; [intros w Hw; simpl; by rewrite Hw|].
assert (Hm : field "id" theme = VStr theme_id).
{ unfold has_this_id in Hsame. by apply bool_decide_eq_true in Hsame. }
out_saved.
all: right; exists theme, rec; split; [done|]; split; [done|]; split; [done|].
all: split; [done|]; split; [rewrite <- existsb_key; by rewrite Etaken|].
all: split; [done|]; unfold key_name; by rewrite Hname.
Qed.
End Themes.

(** ** Presentations *)

Section Presentations.
Import PresentationModel.

Lemma well_formed_inv p :
well_formed p = true ->
exists n i, field "name" p = VStr n /\ strip n <> "" /\ field "id" p = VStr i.
Proof.
destruct p as [| | | | | |d]; try done. unfold well_formed.
rewrite !andb_true_iff. intros [[[[[[Hid Hname] _] _] _] _] _].
destruct (has_text_field d "name") as (n & Hn & Hne); [done|].
destruct (has_str_field d "id") as (i & Hi); [done|].
by exists n, i.
Qed.

Lemma media_exist_preserves {X} (proj : World -> X) media_dir slides :
preserves proj (media_exist media_dir slides).
Proof.
induction slides as [|slide rest IH]; simpl; [frame|].
apply preserves_bind; [frame|]. intros kv.
destruct (bool_decide _); [|done].
apply preserves_bind; [frame|]. intros p.
apply preserves_bind; [frame|]. intros [|]; [done|frame].
Qed.

Lemma validate_presentation_preserves {X} (proj : World -> X) p :
preserves proj (_validate_presentation p).
Proof.
unfold _validate_presentation.
apply preserves_try_except; [|intros ?; frame].
destruct (negb (well_formed p)); [frame|].
apply preserves_bind; [frame|]. intros [|].
- apply preserves_bind.
  + apply preserves_bind; [frame|]. intros ?.
    apply preserves_bind; [frame|]. intros ?. apply media_exist_preserves.
  + intros [|]; simpl; [|frame].
    apply preserves_bind; [frame|]. intros [|]; [|frame].
    apply preserves_bind; [frame|]. intros id.
    apply preserves_bind; [|intros ?; frame].
    destruct id; frame.
- apply preserves_bind; [frame|].
  intros [|]; simpl; [|frame].
  apply preserves_bind; [frame|]. intros [|]; [|frame].
  apply preserves_bind; [frame|]. intros id.
  apply preserves_bind; [|intros ?; frame].
  destruct id; frame.
Qed.

Lemma validate_presentation_returns p :
returns (fun ok : bool => ok = true -> well_formed p = true) (_validate_presentation p).
Proof.
unfold _validate_presentation. apply returns_try_except; [|intros ?; apply returns_wrap].
destruct (well_formed p); simpl.
- intros w a _ _. done.
- by apply returns_ret.
Qed.

Lemma save_presentations_preserves {X} (proj : World -> X) `{!NotDisk proj} :
preserves proj _save_presentations.
Proof. unfold _save_presentations, presentations_file. frame. Qed.

Lemma get_presentation_by_id_outcome id l Q :
Forall has_id_field l ->
Q (Ok (default VNone (List.find (has_this_id id) l))) l ->
outcome presentations (get_presentation_by_id id) l Q.
Proof.
intros Hl HQ. unfold get_presentation_by_id. apply outcome_try_except, outcome_bind_get.
apply outcome_lift. by rewrite find_by_id_spec.
Qed.

Lemma keep_unless_given_field_ne data p d k d' k' :
keep_unless_given data p d k = Ok d' -> k' <> k -> field k' d' = field k' d.
Proof.
unfold keep_unless_given. intros H Hne. invert_ok H; [by subst|].
by eapply py_setitem_field_ne.
Qed.
End Presentations.
#[export] Hint Resolve save_presentations_preserves validate_presentation_preserves
  media_exist_preserves : frame.

(** [ok = self._validate_presentation(p)] inside a public method. *)
Ltac out_validated p ok Hok :=
  apply outcome_bind;
  apply (outcome_preserves_returns _ _ _ _ _
           (validate_presentation_preserves _ p) (validate_presentation_returns p));
  intros [ok|?] Hok; [specialize (Hok ok eq_refl)|out_raise].

Section Presentations.
Import PresentationModel.

Lemma create_presentation_outcome name theme slides tags new_id now now' l :
Forall named l ->
outcome presentations (create_presentation name theme slides tags new_id now now') l
  (fun r l' =>
    unchanged l r l' \/
    exists rec, l' = l ++ [rec] /\ named rec /\ (key_name rec ∉ key_name <$> l) /\
                field "id" rec = VStr new_id /\ key_name rec = lower name).
Proof.
intros Hl. unfold create_presentation. apply outcome_try_except.
destruct (bool_decide (strip name = "")); [out_raise; out_raise|].
apply outcome_bind_get, outcome_bind_lift.
rewrite name_taken_pure by done.
destruct (existsb _ l) eqn:Etaken; [out_raise; out_raise|].
match goal with |- context [_validate_presentation ?t] => set (rec := t) end.
out_validated rec ok Hok.
destruct ok; simpl; [|out_raise; out_raise].
apply outcome_bind. eapply outcome_modify; [intros w Hw; simpl; by rewrite Hw|].
assert (Hn : field "name" rec = VStr name) by reflexivity.
assert (Hk : key_name rec = lower name) by (unfold key_name; by rewrite Hn).
out_saved.
all: right; exists rec; split; [done|]; split; [by eapply field_named|].
all: split; [rewrite Hk, <- existsb_key; by rewrite Etaken|done].
Qed.

Lemma update_presentation_outcome presentation_id data now l :
Forall named l -> Forall has_id_field l ->
NoDup (key_name <$> l) -> NoDup (field "id" <$> l) ->
outcome presentations (update_presentation presentation_id data now) l (fun r l' =>
  unchanged l r l' \/
  exists l1 m l2 rec, l = l1 ++ m :: l2 /\ l' = l1 ++ l2 ++ [rec] /\
    field "id" m = VStr presentation_id /\ named rec /\ field "id" rec = field "id" m /\
    (key_name rec ∉ key_name <$> (l1 ++ l2)) /\
    (forall n, field "name" data = VStr n -> key_name rec = lower n)).
Proof.
intros Hl Hi Hnd Hids. unfold update_presentation. apply outcome_try_except, outcome_bind.
apply get_presentation_by_id_outcome; [done|].
destruct (List.find (has_this_id presentation_id) l) as [p|] eqn:Ef; simpl;
  [|out_raise; out_raise].
apply find_Some_split in Ef as (l1 & l2 & -> & Hsame & Hl1).
assert (Hs : named p).
{ apply Forall_app in Hl as [_ Hl']. by inversion Hl'. }
rewrite (named_truthy _ Hs). simpl.
apply outcome_bind_lift.
match goal with |- match ?r with _ => _ end => destruct r as [renamed|e] eqn:Hren end;
  [|out_raise].
apply (renamed_name_inv _ _ _ Hs) in Hren as [Hren1 Hren0].
apply outcome_bind_get, outcome_bind, taken_by_id_outcome;
  [done|done|by intros H; apply Hren1|].
intros taken Htaken.
destruct taken; [out_raise_lift; out_raise|].
apply outcome_bind_lift.
match goal with |- match ?r with _ => _ end => destruct r as [rec|e] eqn:Erec end;
  [|out_raise].
out_validated rec ok Hok.
destruct ok; simpl; [|out_raise_lift; out_raise].
apply outcome_bind_get, outcome_bind_lift.
unfold py_list_remove. rewrite (remove_first_split _ _ _ _ Hsame Hl1).
apply outcome_bind. apply (outcome_modify _ _ _ (l1 ++ l2)); [by intros w Hw|].
apply outcome_bind. eapply outcome_modify; [intros w Hw; simpl; by rewrite Hw|].
assert (Hm : field "id" p = VStr presentation_id).
{ unfold has_this_id in Hsame. by apply bool_decide_eq_true in Hsame. }
destruct (well_formed_inv _ (Hok eq_refl)) as (n & i & Hn & Hne & _).
invert_ok Erec. apply py_copy_inv in E as ->.
destruct (py_update_field _ _ _ "name" E0) as (b & -> & Hb).
assert (Hname : field "name" rec = default (field "name" p) (b !! "name")).
{ rewrite <- Hb. rewrite (keep_unless_given_field_ne _ _ _ _ _ "name" Erec) by done.
  rewrite (keep_unless_given_field_ne _ _ _ _ _ "name" E7) by done.
  rewrite (keep_unless_given_field_ne _ _ _ _ _ "name" E6) by done.
  rewrite (py_setitem_field_ne _ _ _ _ "name" E5) by done.
  rewrite (py_setitem_field_ne _ _ _ _ "name" E4) by done.
  by rewrite (py_setitem_field_ne _ _ _ _ "name" E2). }
assert (Hid : field "id" rec = field "id" p).
{ rewrite (keep_unless_given_field_ne _ _ _ _ _ "id" Erec) by done.
  rewrite (keep_unless_given_field_ne _ _ _ _ _ "id" E7) by done.
  rewrite (keep_unless_given_field_ne _ _ _ _ _ "id" E6) by done.
  rewrite (py_setitem_field_ne _ _ _ _ "id" E5) by done.
  rewrite (py_setitem_field_ne _ _ _ _ "id" E4) by done.
  rewrite (py_setitem_field_eq _ _ _ _ E2). symmetry. by apply py_getitem_field. }
pose proof (update_name_free _ _ _ _ _ _ _ _ _ Hl Hnd Hids Hm Hn Hne eq_refl Hname
              Hren1 Hren0 Htaken) as Hfree.
assert (Hgiven : forall n', field "name" (VDict b) = VStr n' -> key_name rec = lower n').
{ intros n' Hn'. simpl in Hn'. unfold key_name. rewrite Hname.
  destruct (b !! "name"); simpl in Hn' |- *; [by rewrite Hn'|done]. }
out_saved.
all: right; exists l1, p, l2, rec; split; [done|]; split; [by rewrite app_assoc|].
all: split; [done|]; split; [by eapply field_named|]; done.
Qed.

Lemma duplicate_presentation_outcome presentation_id new_id now l :
Forall named l -> Forall has_id_field l ->
outcome presentations (duplicate_presentation presentation_id new_id now) l (fun r l' =>
  unchanged l r l' \/
  exists m rec, m ∈ l /\ field "id" m = VStr presentation_id /\ l' = l ++ [rec] /\
    named rec /\ (key_name rec ∉ key_name <$> l) /\ field "id" rec = VStr new_id /\
    key_name rec = lower (text_of (field "name" m) +:+ " (Copy)")).
Proof.
intros Hl Hi. unfold duplicate_presentation. apply outcome_try_except, outcome_bind.
apply get_presentation_by_id_outcome; [done|].
destruct (List.find (has_this_id presentation_id) l) as [p|] eqn:Ef; simpl;
  [|out_raise; out_raise].
apply find_some in Ef as [Hin Hsame]. apply list_elem_of_In in Hin.
assert (Hs : named p) by (rewrite Forall_forall in Hl; by apply Hl).
rewrite (named_truthy _ Hs). simpl.
apply outcome_bind_lift.
match goal with |- match ?r with _ => _ end => destruct r as [rec|e] eqn:Erec end;
  [|out_raise].
apply (copy_record_fields _ _ _ _ Hs) in Erec as [Hid Hname].
pose proof (field_named _ _ Hname) as Hrec.
apply outcome_bind_get, outcome_bind_lift.
rewrite same_name_pure by done.
destruct (existsb _ l) eqn:Etaken; [out_raise_lift; out_raise|].
apply outcome_bind. eapply outcome_modify; [intros w Hw; simpl; by rewrite Hw|].
assert (Hm : field "id" p = VStr presentation_id).
{ unfold has_this_id in Hsame. by apply bool_decide_eq_true in Hsame. }
out_saved.
all: right; exists p, rec; split; [done|]; split; [done|]; split; [done|].
all: split; [done|]; split; [rewrite <- existsb_key; by rewrite Etaken|].
all: split; [done|]; unfold key_name; by rewrite Hname.
Qed.
End Presentations.

(** * Sequences of add, update and duplicate operations *)

Global Instance collection_eq_dec : EqDecision collection.
Proof. solve_decision. Defined.

Lemma run_op_frame o c : c <> target o -> preserves (contents c) (run_op o).
Proof.
  destruct o, c; try done; intros _; simpl;
    unfold SongModel.add_song, SongModel.update_song, SongModel.duplicate_song,
      SongModel.get_song_by_title, SongModel.append_song,
      ThemeModel.create_theme, ThemeModel.update_theme, ThemeModel.duplicate_theme,
      ThemeModel.append_theme,
      PresentationModel.create_presentation, PresentationModel.update_presentation,
      PresentationModel.duplicate_presentation, PresentationModel.append_presentation,
      PresentationModel.get_presentation_by_id;
    frame.
Qed.

Lemma identified_has_id s : identified s -> has_id_field s.
Proof. intros [i Hi]. by eapply field_has_id. Qed.

Lemma distinct_names_ids l : distinct_names l -> Forall has_id_field l.
Proof. intros (_ & H & _). eapply Forall_impl; [exact H|]. apply identified_has_id. Qed.

Lemma distinct_titles_snoc l rec :
  distinct_titles l -> titled rec -> key_title rec ∉ key_title <$> l ->
  distinct_titles (l ++ [rec]).
Proof.
  intros [Ht Hnd] Hrec Hfree. split.
  - apply Forall_app. split; [done|]. by constructor.
  - by apply NoDup_keys_snoc.
Qed.

Lemma distinct_titles_replace l1 m l2 rec :
  distinct_titles (l1 ++ m :: l2) -> titled rec -> key_title rec ∉ key_title <$> (l1 ++ l2) ->
  distinct_titles (l1 ++ l2 ++ [rec]).
Proof.
  intros [Ht Hnd] Hrec Hfree. split.
  - apply Forall_app in Ht as [H1 H2]. inversion H2; subst.
    rewrite !Forall_app. repeat split; try done. by constructor.
  - by eapply NoDup_keys_replace.
Qed.

Lemma distinct_names_snoc l rec i :
  distinct_names l -> named rec -> key_name rec ∉ key_name <$> l ->
  field "id" rec = VStr i -> VStr i ∉ field "id" <$> l ->
  distinct_names (l ++ [rec]).
Proof.
  intros (Hn & Hi & Hnd & Hids) Hrec Hfree Hid Hfresh. repeat split.
  - apply Forall_app. split; [done|]. by constructor.
  - apply Forall_app. split; [done|]. constructor; [by exists i|done].
  - by apply NoDup_keys_snoc.
  - apply NoDup_keys_snoc; [done|]. by rewrite Hid.
Qed.

Lemma distinct_names_replace l1 m l2 rec :
  distinct_names (l1 ++ m :: l2) -> named rec -> field "id" rec = field "id" m ->
  key_name rec ∉ key_name <$> (l1 ++ l2) ->
  distinct_names (l1 ++ l2 ++ [rec]).
Proof.
  intros (Hn & Hi & Hnd & Hids) Hrec Hid Hfree. repeat split.
  - apply Forall_app in Hn as [H1 H2]. inversion H2; subst.
    rewrite !Forall_app. repeat split; try done. by constructor.
  - apply Forall_app in Hi as [H1 H2]. inversion H2 as [|? ? [i Hm] H3]; subst.
    rewrite !Forall_app. repeat split; try done. constructor; [|done].
    exists i. by rewrite Hid.
  - by eapply NoDup_keys_replace.
  - eapply NoDup_keys_replace; [done|]. rewrite Hid.
    by destruct (NoDup_keys_drop (field "id") _ _ _ Hids).
Qed.

Lemma NoDup_keys_elem {K} (key : value -> K) l x y :
  NoDup (key <$> l) -> x ∈ l -> y ∈ l -> key x = key y -> x = y.
Proof.
  induction l as [|z l IH]; [by intros _ ?%elem_of_nil|].
  rewrite fmap_cons. intros [Hz Hl]%NoDup_cons [->|Hx]%elem_of_cons [->|Hy]%elem_of_cons E.
  - done.
  - exfalso. apply Hz. rewrite E. apply list_elem_of_fmap. by exists y.
  - exfalso. apply Hz. rewrite <- E. apply list_elem_of_fmap. by exists x.
  - by apply IH.
Qed.

Lemma elem_of_others {K} (key : value -> K) l1 m l2 s :
  s ∈ l1 ++ m :: l2 -> key s <> key m -> s ∈ l1 ++ l2.
Proof.
  rewrite !elem_of_app, elem_of_cons. intros [?|[->|?]] Hne; [by left|done|by right].
Qed.

(** What is left to show of an operation once its own collection is
    accounted for: the other two collections are not touched. *)
Lemma step_of_target o w :
  ((exists e, (run_op o w).1 = Raise (Sanctify e) /\
      contents (target o) (run_op o w).2 = contents (target o) w) \/
   (well_kept (target o) (contents (target o) (run_op o w).2) /\ ~ would_duplicate o w)) ->
  names_distinct w ->
  names_distinct (run_op o w).2 /\
  (would_duplicate o w ->
   exists e, (run_op o w).1 = Raise (Sanctify e) /\
             forall c, contents c (run_op o w).2 = contents c w).
Proof.
  intros H Hw.
  assert (Hframe : forall c, c <> target o -> contents c (run_op o w).2 = contents c w).
  { intros c Hc. by apply run_op_frame. }
  split.
  - intros c. destruct (decide (c = target o)) as [->|Hc].
    + destruct H as [(e & _ & ->)|[H _]]; [apply Hw|done].
    + rewrite Hframe by done. apply Hw.
  - intros Hdup. destruct H as [(e & He & Hl)|[_ H]]; [|done].
    exists e. split; [done|]. intros c.
    destruct (decide (c = target o)) as [->|Hc]; [done|by apply Hframe].
Qed.

Lemma key_title_of_field s t : field "title" s = VStr t -> key_title s = lower t.
Proof. intros H. unfold key_title. by rewrite (title_of_field _ _ H). Qed.

Lemma run_op_target o w :
  names_distinct w ->
  (exists e, (run_op o w).1 = Raise (Sanctify e) /\
     contents (target o) (run_op o w).2 = contents (target o) w) \/
  ((fresh_id o w -> well_kept (target o) (contents (target o) (run_op o w).2)) /\
   ~ would_duplicate o w).
Proof.
  intros Hw.
  pose proof (Hw Songs) as Hs. pose proof (Hw Themes) as Ht.
  pose proof (Hw Presentations) as Hp. simpl in Hs, Ht, Hp.
  destruct o; simpl in *.
  - destruct (add_song_outcome song_data now _ (proj1 Hs) w eq_refl)
      as [(e & He & Hl)|(rec & Hl & Hrec & Hfree & Htitle)]; [left; by exists e|right].
    rewrite Hl. split; [intros _; by apply distinct_titles_snoc|].
    intros (t & Hd & Hin). apply Hfree.
    by rewrite (key_title_field _ _ Htitle Hrec), (key_title_of_field _ _ Hd).
  - destruct (update_song_outcome old_title song_data now _ (proj1 Hs) (proj2 Hs) w eq_refl)
      as [(e & He & Hl)|(l1 & m & l2 & rec & El & Hl & Hm & Hrec & Hfree & Htitle)];
      [left; by exists e|right].
    rewrite Hl. rewrite El in Hs. split; [intros _; by eapply distinct_titles_replace|].
    intros (t & s & Hd & Hin & Hne & Hk). apply Hfree.
    rewrite (key_title_field _ _ Htitle Hrec), (key_title_of_field _ _ Hd), <- Hk.
    apply list_elem_of_fmap. exists s. split; [done|].
    rewrite El in Hin. apply (elem_of_others key_title _ _ _ _ Hin). by rewrite Hm.
  - destruct (duplicate_song_outcome title now _ (proj1 Hs) w eq_refl)
      as [(e & He & Hl)|(rec & Hl & Hrec & Hfree & Hk)]; [left; by exists e|right].
    rewrite Hl. split; [intros _; by apply distinct_titles_snoc|].
    intros Hin. apply Hfree. by rewrite Hk.
  - destruct (create_theme_outcome name context alignment font_color background_color font_size
                font_family tags new_id now now' _ (proj1 Ht) w eq_refl)
      as [(e & He & Hl)|(rec & Hl & Hrec & Hfree & Hid & Hk)]; [left; by exists e|right].
    rewrite Hl. split; [intros Hfresh; by eapply distinct_names_snoc|].
    intros Hin. apply Hfree. by rewrite Hk.
  - destruct Ht as (Hn & Hi & Hnd & Hids).
    destruct (update_theme_outcome theme_id updated_data now _ Hn
                (distinct_names_ids _ (conj Hn (conj Hi (conj Hnd Hids)))) Hnd Hids w eq_refl)
      as [(e & He & Hl)|(l1 & m & l2 & rec & El & Hl & Hm & Hrec & Hid & Hfree & Hgiven)];
      [left; by exists e|right].
    rewrite Hl. rewrite El in Hn, Hi, Hnd, Hids.
    split; [intros _; by eapply distinct_names_replace|].
    intros (n & s & Hd & Hin & Hne & Hk). apply Hfree.
    rewrite (Hgiven _ Hd), <- Hk.
    apply list_elem_of_fmap. exists s. split; [done|].
    rewrite El in Hin. apply (elem_of_others (field "id") _ _ _ _ Hin). by rewrite Hm.
  - destruct (duplicate_theme_outcome theme_id new_id now _ (proj1 Ht)
                (distinct_names_ids _ Ht) w eq_refl)
      as [(e & He & Hl)|(m & rec & Hm & Hmid & Hl & Hrec & Hfree & Hid & Hk)];
      [left; by exists e|right].
    rewrite Hl. split; [intros Hfresh; by eapply distinct_names_snoc|].
    intros (m' & Hm' & Hmid' & Hin). apply Hfree. rewrite Hk.
    destruct Ht as (_ & _ & _ & Hids).
    by rewrite (NoDup_keys_elem (field "id") _ m m' Hids Hm Hm') by congruence.
  - destruct (create_presentation_outcome name theme slides tags new_id now now' _
                (proj1 Hp) w eq_refl)
      as [(e & He & Hl)|(rec & Hl & Hrec & Hfree & Hid & Hk)]; [left; by exists e|right].
    rewrite Hl. split; [intros Hfresh; by eapply distinct_names_snoc|].
    intros Hin. apply Hfree. by rewrite Hk.
  - destruct Hp as (Hn & Hi & Hnd & Hids).
    destruct (update_presentation_outcome presentation_id updated_data now _ Hn
                (distinct_names_ids _ (conj Hn (conj Hi (conj Hnd Hids)))) Hnd Hids w eq_refl)
      as [(e & He & Hl)|(l1 & m & l2 & rec & El & Hl & Hm & Hrec & Hid & Hfree & Hgiven)];
      [left; by exists e|right].
    rewrite Hl. rewrite El in Hn, Hi, Hnd, Hids.
    split; [intros _; by eapply distinct_names_replace|].
    intros (n & s & Hd & Hin & Hne & Hk). apply Hfree.
    rewrite (Hgiven _ Hd), <- Hk.
    apply list_elem_of_fmap. exists s. split; [done|].
    rewrite El in Hin. apply (elem_of_others (field "id") _ _ _ _ Hin). by rewrite Hm.
  - destruct (duplicate_presentation_outcome presentation_id new_id now _ (proj1 Hp)
                (distinct_names_ids _ Hp) w eq_refl)
      as [(e & He & Hl)|(m & rec & Hm & Hmid & Hl & Hrec & Hfree & Hid & Hk)];
      [left; by exists e|right].
    rewrite Hl. split; [intros Hfresh; by eapply distinct_names_snoc|].
    intros (m' & Hm' & Hmid' & Hin). apply Hfree. rewrite Hk.
    destruct Hp as (_ & _ & _ & Hids).
    by rewrite (NoDup_keys_elem (field "id") _ m m' Hids Hm Hm') by congruence.
Qed.

Lemma run_ops_distinct ops : forall w,
  names_distinct w -> fresh_ids ops w -> names_distinct (run_ops ops w).
Proof.
  induction ops as [|o ops IH]; intros w Hw Hf; [done|].
  destruct Hf as [Ho Hf]. simpl. apply IH; [|done].
  apply (step_of_target o w); [|done].
  destruct (run_op_target o w Hw) as [H|[H1 H2]]; [by left|right; auto].
Qed.


Lemma is_str_inv v : is_str v = true -> exists s, v = VStr s.
Proof. destruct v; try done. by eexists. Qed.

Lemma field_titled s t : field "title" s = VStr t -> titled s.
Proof.
  destruct s as [| | | | | |d]; try done. simpl.
  destruct (d !! "title") as [v|] eqn:E; [|done]. simpl. intros ->. by exists d, t.
Qed.

Lemma check_titles_distinct l : check_titles l = true -> distinct_titles l.
Proof.
  unfold check_titles. intros [Hf Hn%bool_decide_eq_true]%andb_true_iff. split; [|done].
  apply forallb_Forall in Hf. eapply Forall_impl; [exact Hf|].
  intros s [t Ht]%is_str_inv. by eapply field_titled.
Qed.

Lemma check_names_ok l : check_names l = true -> distinct_names l.
Proof.
  unfold check_names.
  intros [[Hf Hn%bool_decide_eq_true]%andb_true_iff Hi%bool_decide_eq_true]%andb_true_iff.
  apply forallb_Forall in Hf. repeat split; try done.
  - eapply Forall_impl; [exact Hf|].
    intros s [[n Hn']%is_str_inv _]%andb_true_iff. by eapply field_named.
  - eapply Forall_impl; [exact Hf|].
    intros s [_ [i Hi']%is_str_inv]%andb_true_iff. by exists i.
Qed.

Lemma check_names_distinct w :
  check_titles (songs w) && check_names (themes w) && check_names (presentations w) = true ->
  names_distinct w.
Proof.
  intros [[H1 H2]%andb_true_iff H3]%andb_true_iff.
  intros []; simpl; [by apply check_titles_distinct|by apply check_names_ok..].
Qed.

Global Instance fresh_id_dec o w : Decision (fresh_id o w).
Proof. destruct o; simpl; apply _. Defined.
Global Instance fresh_ids_dec ops : forall w, Decision (fresh_ids ops w).
Proof. induction ops as [|o ops IH]; intros w; simpl; apply _. Defined.



(** * What a method may raise *)

Lemma pure_rbind {A B} (r : result A) (k : A -> result B) :
  pure r -> (forall a, pure (k a)) -> pure (rbind r k).
Proof. destruct r as [a|[s|c t]]; simpl; intros H1 H2; auto. Qed.

Create HintDb pure discriminated.

Ltac pure_step :=
  first
    [ exact I
    | solve [eauto with pure]
    | apply pure_rbind; [|intros ?]
    | match goal with
      | |- pure (match ?x with _ => _ end) => destruct x
      | |- pure (if ?b then _ else _) => destruct b
      | |- pure (let (_, _) := ?x in _) => destruct x
      end ].
Ltac pure_go := repeat pure_step.

Lemma pure_py_getitem v k : pure (py_getitem v k).
Proof. unfold py_getitem. pure_go. Qed.
Lemma pure_py_get v k d : pure (py_get v k d).
Proof. unfold py_get. pure_go. Qed.
Lemma pure_py_copy v : pure (py_copy v).
Proof. unfold py_copy. pure_go. Qed.
Lemma pure_py_setitem v k x : pure (py_setitem v k x).
Proof. unfold py_setitem. pure_go. Qed.
Lemma pure_py_contains k v : pure (py_contains k v).
Proof. unfold py_contains. pure_go. Qed.
Lemma pure_py_lower v : pure (py_lower v).
Proof. unfold py_lower. pure_go. Qed.
Lemma pure_py_strip v : pure (py_strip v).
Proof. unfold py_strip. pure_go. Qed.
Lemma pure_py_list_remove x l : pure (py_list_remove x l).
Proof. unfold py_list_remove. pure_go. Qed.
Lemma pure_as_path v : pure (as_path v).
Proof. unfold as_path. pure_go. Qed.
Lemma pure_py_iter v : pure (py_iter v).
Proof. unfold py_iter. pure_go. Qed.
#[export] Hint Resolve pure_py_iter : pure.
Lemma pure_py_unpack2 v : pure (py_unpack2 v).
Proof. unfold py_unpack2. pure_go. Qed.
Lemma pure_py_split_comma v : pure (py_split_comma v).
Proof. unfold py_split_comma. pure_go. Qed.
Lemma pure_py_update d other : pure (py_update d other).
Proof. unfold py_update. pure_go. Qed.
#[export] Hint Resolve pure_py_getitem pure_py_get pure_py_copy pure_py_setitem pure_py_contains
  pure_py_lower pure_py_strip pure_py_list_remove pure_as_path pure_py_unpack2
  pure_py_split_comma pure_py_update : pure.

Lemma pure_py_any {A} (f : A -> result bool) l : (forall x, pure (f x)) -> pure (py_any f l).
Proof.
  intros Hf. induction l as [|x l IH]; simpl; [done|].
  specialize (Hf x). by destruct (f x) as [[|]|[|]].
Qed.
Lemma pure_py_next {A} (f : A -> result bool) l : (forall x, pure (f x)) -> pure (py_next f l).
Proof.
  intros Hf. induction l as [|x l IH]; simpl; [done|].
  specialize (Hf x). by destruct (f x) as [[|]|[|]].
Qed.
Lemma pure_py_filter {A} (f : A -> result bool) l : (forall x, pure (f x)) -> pure (py_filter f l).
Proof. intros Hf. induction l as [|x l IH]; simpl; [done|]. pure_go. Qed.
Lemma pure_py_map {A B} (f : A -> result B) l : (forall x, pure (f x)) -> pure (py_map f l).
Proof. intros Hf. induction l as [|x l IH]; simpl; [done|]. pure_go. Qed.
Lemma pure_py_sorted {K A} (le : K -> K -> bool) (key : A -> result K) l :
  (forall x, pure (key x)) -> pure (py_sorted le key l).
Proof.
  intros Hf. unfold py_sorted. apply pure_rbind; [|done].
  apply pure_py_map. intros x. pure_go.
Qed.
#[export] Hint Resolve pure_py_any pure_py_next pure_py_filter pure_py_map pure_py_sorted : pure.

(** From here on the comprehensions are entered too. *)
Ltac pure_step ::=
  first
    [ exact I
    | apply pure_rbind; [|intros ?]
    | apply pure_py_any; intros ?
    | apply pure_py_next; intros ?
    | apply pure_py_filter; intros ?
    | apply pure_py_map; intros ?
    | apply pure_py_sorted; intros ?
    | match goal with
      | |- pure (match ?x with _ => _ end) => destruct x
      | |- pure (if ?b then _ else _) => destruct b
      | |- pure (let (_, _) := ?x in _) => destruct x
      end
    | solve [eauto with pure] ].

Lemma pure_setdefault d k v : pure v -> pure (setdefault d k v).
Proof. intros Hv. unfold setdefault. pure_go. Qed.
Lemma pure_name_lower x : pure (name_lower x).
Proof. unfold name_lower. pure_go. Qed.
Lemma pure_has_id id x : pure (has_id id x).
Proof. unfold has_id. pure_go. Qed.
#[export] Hint Resolve pure_setdefault pure_name_lower pure_has_id : pure.
Lemma pure_find_by_id id l : pure (find_by_id id l).
Proof. unfold find_by_id. pure_go. Qed.
Lemma pure_matches_search query tag x : pure (matches_search query tag x).
Proof. unfold matches_search. pure_go. Qed.
#[export] Hint Resolve pure_find_by_id pure_matches_search : pure.

(** ** Method bodies *)

Lemma inner_ret {A} (a : A) : inner (ret a).
Proof. intros w e [=]. Qed.
Lemma inner_raise {A} e : tame e -> inner (@raise A e).
Proof. intros H w e' [= <-]. done. Qed.
Lemma formatted_init m c t : formatted (SanctifyError_init m c t).
Proof. by exists m, c, t. Qed.
Lemma inner_raise_sanctify {A} m c t : inner (@raise_sanctify A m c t).
Proof. intros w e [= <-]. apply formatted_init. Qed.
Lemma inner_lift {A} (r : result A) : pure r -> inner (lift r).
Proof. intros H w e. unfold lift. simpl. intros ->. by destruct e. Qed.
Lemma inner_get {A} (f : World -> A) : inner (get f).
Proof. intros w e [=]. Qed.
Lemma inner_modify f : inner (modify f).
Proof. intros w e [=]. Qed.
Lemma inner_bind {A B} (c : M A) (k : A -> M B) :
  inner c -> (forall a, inner (k a)) -> inner (bind c k).
Proof.
  intros Hc Hk w e. unfold bind. specialize (Hc w).
  destruct (c w) as [[a|e'] w']; simpl in *; [apply Hk|].
  intros [= <-]. by apply Hc.
Qed.
Lemma inner_try_except {A} (body : M A) handler :
  inner body -> (forall e, tame e -> inner (handler e)) -> inner (try_except body handler).
Proof.
  intros Hb Hh w e. unfold try_except. specialize (Hb w).
  destruct (body w) as [[a|e'] w']; simpl in *; [done|].
  apply Hh. by apply Hb.
Qed.
Lemma inner_for_each {A} (l : list A) body : (forall x, inner (body x)) -> inner (for_each l body).
Proof.
  intros Hb. induction l as [|x l IH]; simpl; [apply inner_ret|].
  apply inner_bind; [apply Hb|intros _; apply IH].
Qed.
Lemma inner_wrap {A} m c t e : inner (@wrap A m c t e).
Proof. apply inner_raise_sanctify. Qed.
Lemma inner_reraise_or_wrap {A} m c t e : tame e -> inner (@reraise_or_wrap A m c t e).
Proof. intros He. destruct e; [by apply inner_raise|apply inner_raise_sanctify]. Qed.

(** ** Whole methods *)

Lemma outer_inner {A} (c : M A) : outer c -> inner c.
Proof. intros H w e He. by destruct (H w e He) as (s & -> & Hs). Qed.
Lemma outer_ret {A} (a : A) : outer (ret a).
Proof. intros w e [=]. Qed.
Lemma outer_get {A} (f : World -> A) : outer (get f).
Proof. intros w e [=]. Qed.
Lemma outer_modify f : outer (modify f).
Proof. intros w e [=]. Qed.
Lemma outer_raise_sanctify {A} m c t : outer (@raise_sanctify A m c t).
Proof. intros w e [= <-]. eexists. split; [done|apply formatted_init]. Qed.
Lemma outer_wrap {A} m c t e : outer (@wrap A m c t e).
Proof. apply outer_raise_sanctify. Qed.
Lemma outer_reraise_or_wrap {A} m c t e : tame e -> outer (@reraise_or_wrap A m c t e).
Proof.
  intros He. destruct e as [s|c' t']; [|apply outer_raise_sanctify].
  intros w e' [= <-]. by eexists.
Qed.
Lemma outer_bind {A B} (c : M A) (k : A -> M B) :
  outer c -> (forall a, outer (k a)) -> outer (bind c k).
Proof.
  intros Hc Hk w e. unfold bind. specialize (Hc w).
  destruct (c w) as [[a|e'] w']; simpl in *; [apply Hk|].
  intros [= <-]. by apply Hc.
Qed.
Lemma outer_try_except {A} (body : M A) handler :
  inner body -> (forall e, tame e -> outer (handler e)) -> outer (try_except body handler).
Proof.
  intros Hb Hh w e. unfold try_except. specialize (Hb w).
  destruct (body w) as [[a|e'] w']; simpl in *; [done|].
  apply Hh. by apply Hb.
Qed.
Lemma outer_for_each {A} (l : list A) body : (forall x, outer (body x)) -> outer (for_each l body).
Proof.
  intros Hb. induction l as [|x l IH]; simpl; [apply outer_ret|].
  apply outer_bind; [apply Hb|intros _; apply IH].
Qed.

Create HintDb inner discriminated.
Create HintDb outer discriminated.

Ltac inner_step :=
  first
    [ solve [eauto with inner]
    | apply outer_inner; solve [eauto with outer]
    | apply inner_ret | apply inner_raise_sanctify | apply inner_get | apply inner_modify
    | apply inner_wrap
    | apply inner_reraise_or_wrap; assumption
    | apply inner_raise; exact I
    | apply inner_lift; solve [pure_go]
    | apply inner_bind; [|intros ?]
    | apply inner_try_except; [|intros ? ?]
    | apply inner_for_each; intros ?
    | match goal with
      | |- inner (if ?b then _ else _) => destruct b
      | |- inner (match ?x with _ => _ end) => destruct x
      | |- inner (let (_, _) := ?x in _) => destruct x
      end ].
Ltac inner_go := repeat inner_step.

Ltac outer_step :=
  first
    [ solve [eauto with outer]
    | apply outer_ret | apply outer_raise_sanctify | apply outer_get | apply outer_modify
    | apply outer_wrap
    | apply outer_reraise_or_wrap; assumption
    | apply outer_try_except; [solve [inner_go]|intros ? ?]
    | apply outer_bind; [|intros ?]
    | apply outer_for_each; intros ?
    | match goal with
      | |- outer (if ?b then _ else _) => destruct b
      | |- outer (match ?x with _ => _ end) => destruct x
      | |- outer (let (_, _) := ?x in _) => destruct x
      end ].
Ltac outer_go := repeat outer_step.

(** ** Files and settings *)

Lemma inner_json_load p : inner (json_load p).
Proof. intros w e. unfold json_load. destruct (disk w !! p) as [[|]|]; simpl; intros [= <-]; done. Qed.
Lemma outer_json_dump v p : outer (json_dump v p).
Proof. intros w e [=]. Qed.
Lemma outer_os_path_exists p : outer (os_path_exists p).
Proof. intros w e [=]. Qed.
Lemma inner_os_makedirs p : inner (os_makedirs p).
Proof. unfold os_makedirs. inner_go. Qed.
Lemma inner_shutil_copy2 a b : inner (shutil_copy2 a b).
Proof. intros w e. unfold shutil_copy2. destruct (disk w !! a); simpl; intros [= <-]; done. Qed.
Lemma inner_os_remove p : inner (os_remove p).
Proof. intros w e. unfold os_remove. destruct (disk w !! p); simpl; intros [= <-]; done. Qed.
Lemma inner_os_rename a b : inner (os_rename a b).
Proof. intros w e. unfold os_rename. destruct (disk w !! a); simpl; intros [= <-]; done. Qed.
#[export] Hint Resolve inner_json_load inner_os_makedirs inner_shutil_copy2 inner_os_remove
  inner_os_rename : inner.
#[export] Hint Resolve outer_json_dump outer_os_path_exists : outer.

Lemma outer_default_lookup section key :
  outer (let! font := get ui_font in
         let! sec := lift (py_get (VDict (default_settings font)) section (VDict ∅)) in
         lift (py_get sec key VNone)).
Proof.
  intros w e. munfold. simpl.
  destruct (default_settings (ui_font w) !! section) as [v|] eqn:E; simpl; [|done].
  apply default_settings_dict in E as [d ->]. done.
Qed.

Lemma outer_get_setting section key dflt : outer (get_setting section key dflt).
Proof.
  unfold get_setting. apply outer_try_except; [inner_go|].
  intros e He. destruct e as [s|c t]; [apply outer_raise_sanctify|].
  destruct c; try apply outer_raise_sanctify.
  destruct dflt; try apply outer_ret. apply outer_default_lookup.
Qed.
#[export] Hint Resolve outer_get_setting : outer.

(** ** Songs *)

Section SongErrors.
Import SongModel.

Lemma pure_title_lower s : pure (title_lower s).
Proof. unfold title_lower. pure_go. Qed.
Hint Resolve pure_title_lower : pure.

Lemma save_songs_outer : outer _save_songs.
Proof. unfold _save_songs, songs_path. outer_go. Qed.
Hint Resolve save_songs_outer : outer.

Lemma load_songs_outer : outer _load_songs.
Proof. unfold _load_songs, songs_path. outer_go. Qed.
Hint Resolve load_songs_outer : outer.

Lemma song_init_outer : outer SongModel.init.
Proof. unfold SongModel.init. outer_go. Qed.

Lemma get_song_by_title_outer t : outer (get_song_by_title t).
Proof. unfold get_song_by_title. outer_go. Qed.
Hint Resolve get_song_by_title_outer : outer.

Lemma get_all_songs_outer : outer get_all_songs.
Proof. unfold get_all_songs. outer_go. Qed.

Lemma search_songs_outer q m t : outer (search_songs q m t).
Proof. unfold search_songs. outer_go. Qed.

Lemma add_song_outer d now : outer (add_song d now).
Proof. unfold add_song, append_song. outer_go. Qed.

Lemma update_song_outer old d now : outer (update_song old d now).
Proof. unfold update_song, append_song. outer_go. Qed.

Lemma delete_song_outer t : outer (delete_song t).
Proof. unfold delete_song. outer_go. Qed.

Lemma duplicate_song_outer t now : outer (duplicate_song t now).
Proof. unfold duplicate_song, append_song. outer_go. Qed.
End SongErrors.

(** ** Settings *)

Section SettingsErrors.
Import SettingsManager.

Lemma pure_merge_settings defaults loaded : pure (_merge_settings defaults loaded).
Proof.
destruct loaded as [| | | | | |items]; try exact I.
destruct (merge_settings_total (S (vsize (VDict items))) items defaults) as [r Hr]; [lia|].
by rewrite Hr.
Qed.
Hint Resolve pure_merge_settings : pure.

Lemma pure_py_items v : pure (py_items v).
Proof. unfold py_items. pure_go. Qed.
Hint Resolve pure_py_items : pure.

Lemma save_settings_outer : outer _save_settings.
Proof. unfold _save_settings. outer_go. Qed.
Hint Resolve save_settings_outer : outer.

Lemma validate_settings_outer : outer _validate_settings.
Proof. unfold _validate_settings, reset_to_default. outer_go. Qed.
Hint Resolve validate_settings_outer : outer.

Lemma load_settings_outer : outer load_settings.
Proof. unfold load_settings, use_defaults. outer_go. Qed.
Hint Resolve load_settings_outer : outer.

Lemma settings_init_outer : outer SettingsManager.init.
Proof. unfold SettingsManager.init. outer_go. Qed.

Lemma set_setting_outer section key v : outer (set_setting section key v).
Proof. unfold set_setting, emit. outer_go. Qed.

Lemma reset_settings_outer : outer reset_settings.
Proof. unfold reset_settings, use_defaults, emit_all, emit. outer_go. Qed.

Lemma export_settings_outer p : outer (export_settings p).
Proof. unfold export_settings. outer_go. Qed.

Lemma import_settings_outer p : outer (import_settings p).
Proof. unfold import_settings, emit_all, emit. outer_go. Qed.
End SettingsErrors.

(** ** Themes *)

Section ThemeErrors.
Import ThemeModel.

Lemma save_themes_outer : outer _save_themes.
Proof. unfold _save_themes, theme_file. outer_go. Qed.
Hint Resolve save_themes_outer : outer.

Lemma theme_dirs_outer : outer ThemeModel._ensure_directories.
Proof. unfold ThemeModel._ensure_directories, theme_file. outer_go. Qed.
Hint Resolve theme_dirs_outer : outer.

Lemma load_themes_inner : inner _load_themes.
Proof. unfold _load_themes, theme_file. inner_go. Qed.
Hint Resolve load_themes_inner : inner.

Lemma theme_init_outer : outer ThemeModel.init.
Proof. unfold ThemeModel.init. outer_go. Qed.

Lemma get_theme_by_id_outer id : outer (get_theme_by_id id).
Proof. unfold get_theme_by_id. outer_go. Qed.
Hint Resolve get_theme_by_id_outer : outer.

Lemma search_themes_outer q c t : outer (search_themes q c t).
Proof. unfold search_themes. outer_go. Qed.

Lemma create_theme_outer name context alignment font_color background_color font_size
  font_family tags new_id now now' :
outer (create_theme name context alignment font_color background_color font_size
         font_family tags new_id now now').
Proof. unfold create_theme, append_theme, name_taken. outer_go. Qed.

Lemma update_theme_outer id d now : outer (update_theme id d now).
Proof. unfold update_theme, append_theme. outer_go. Qed.

Lemma delete_theme_outer id : outer (delete_theme id).
Proof. unfold delete_theme. outer_go. Qed.

Lemma duplicate_theme_outer id new_id now : outer (duplicate_theme id new_id now).
Proof. unfold duplicate_theme, append_theme. outer_go. Qed.
End ThemeErrors.
#[export] Hint Resolve get_theme_by_id_outer : outer.

(** ** Presentations *)

Section PresentationErrors.
Import PresentationModel.

Lemma media_exist_inner dir slides : inner (media_exist dir slides).
Proof. induction slides as [|s rest IH]; simpl; inner_go. Qed.
Hint Resolve media_exist_inner : inner.

Lemma validate_presentation_outer p : outer (_validate_presentation p).
Proof. unfold _validate_presentation. outer_go. Qed.
Hint Resolve validate_presentation_outer : outer.

Lemma pure_keep_unless_given a b c k : pure (keep_unless_given a b c k).
Proof. unfold keep_unless_given. pure_go. Qed.
Hint Resolve pure_keep_unless_given : pure.

Lemma save_presentations_outer : outer _save_presentations.
Proof. unfold _save_presentations, presentations_file. outer_go. Qed.
Hint Resolve save_presentations_outer : outer.

Lemma presentation_dirs_outer : outer PresentationModel._ensure_directories.
Proof. unfold PresentationModel._ensure_directories, presentations_file. outer_go. Qed.
Hint Resolve presentation_dirs_outer : outer.

Lemma load_presentations_inner : inner _load_presentations.
Proof. unfold _load_presentations, presentations_file. inner_go. Qed.
Hint Resolve load_presentations_inner : inner.

Lemma presentation_init_outer : outer PresentationModel.init.
Proof. unfold PresentationModel.init. outer_go. Qed.

Lemma get_presentation_by_id_outer id : outer (get_presentation_by_id id).
Proof. unfold get_presentation_by_id. outer_go. Qed.
Hint Resolve get_presentation_by_id_outer : outer.

Lemma search_presentations_outer q t : outer (search_presentations q t).
Proof. unfold search_presentations. outer_go. Qed.

Lemma create_presentation_outer name theme slides tags new_id now now' :
outer (create_presentation name theme slides tags new_id now now').
Proof. unfold create_presentation, append_presentation. outer_go. Qed.

Lemma update_presentation_outer id d now : outer (update_presentation id d now).
Proof. unfold update_presentation, append_presentation. outer_go. Qed.

Lemma delete_presentation_outer id : outer (delete_presentation id).
Proof. unfold delete_presentation. outer_go. Qed.

Lemma duplicate_presentation_outer id new_id now : outer (duplicate_presentation id new_id now).
Proof. unfold duplicate_presentation, append_presentation. outer_go. Qed.

Lemma import_from_ppt_outer p new_id now now' : outer (import_from_ppt p new_id now now').
Proof. unfold import_from_ppt, append_presentation. outer_go. Qed.
End PresentationErrors.

(** ** Media *)

Section MediaErrors.
Import MediaModel.

Lemma pure_in_supported_formats v : pure (in_supported_formats v).
Proof. unfold in_supported_formats. pure_go. Qed.
Lemma pure_join a b : pure (join a b).
Proof. unfold join. pure_go. Qed.
Lemma pure_rsplit_dot_at v i : pure (rsplit_dot_at v i).
Proof. unfold rsplit_dot_at. pure_go. Qed.
Hint Resolve pure_in_supported_formats pure_join pure_rsplit_dot_at : pure.

Lemma media_dirs_outer : outer MediaModel._ensure_directories.
Proof. unfold MediaModel._ensure_directories, media_dir, media_file. outer_go. Qed.
Hint Resolve media_dirs_outer : outer.

Lemma validate_media_outer m : outer (_validate_media m).
Proof. unfold _validate_media, media_dir. outer_go. Qed.
Hint Resolve validate_media_outer : outer.

Lemma save_media_outer : outer _save_media.
Proof. unfold _save_media, media_file. outer_go. Qed.
Hint Resolve save_media_outer : outer.

Lemma load_media_inner : inner _load_media.
Proof. unfold _load_media, media_file. inner_go. Qed.
Hint Resolve load_media_inner : inner.

Lemma media_init_outer : outer MediaModel.init.
Proof. unfold MediaModel.init. outer_go. Qed.

Lemma get_media_by_id_outer id : outer (get_media_by_id id).
Proof. unfold get_media_by_id. outer_go. Qed.
Hint Resolve get_media_by_id_outer : outer.

Lemma search_media_outer q c t : outer (search_media q c t).
Proof. unfold search_media. outer_go. Qed.

Lemma remove_quietly_outer p : outer (remove_quietly p).
Proof. unfold remove_quietly. outer_go. Qed.
Hint Resolve remove_quietly_outer : outer.

Lemma add_media_outer source_path category display_name tags scaling new_id now now' :
outer (add_media source_path category display_name tags scaling new_id now now').
Proof. unfold add_media, append_media, media_dir. outer_go. Qed.

Lemma update_media_outer id d now : outer (update_media id d now).
Proof. unfold update_media, append_media, media_dir. outer_go. Qed.

Lemma delete_media_outer id : outer (delete_media id).
Proof. unfold delete_media, media_dir. outer_go. Qed.

Lemma duplicate_media_outer id new_id now now' : outer (duplicate_media id new_id now now').
Proof. unfold duplicate_media, append_media, media_dir. outer_go. Qed.

Lemma mark_logo_inner id rest : forall visited, inner (mark_logo id visited rest).
Proof.
induction rest as [|m rest IH]; intros visited; simpl; [inner_go|].
assert (Hp : pure (let? same := has_id id m in py_setitem m "is_logo" (VBool same)))
  by pure_go.
destruct (let? same := has_id id m in py_setitem m "is_logo" (VBool same)) as [m'|e];
  [apply IH|].
apply inner_bind; [inner_go|intros _]. apply inner_raise. by destruct e.
Qed.
Hint Resolve mark_logo_inner : inner.

Lemma set_logo_outer id : outer (set_logo id).
Proof. unfold set_logo. outer_go. Qed.
End MediaErrors.

(** ** Scripture *)

Section ScriptureErrors.
Import ScriptureModel.

Lemma pure_find_book b n : pure (find_book b n).
Proof. unfold find_book. pure_go. Qed.
Lemma pure_int_key v : pure (int_key v).
Proof. unfold int_key. pure_go. Qed.
Hint Resolve pure_find_book pure_int_key : pure.

Lemma scripture_dirs_outer : outer ScriptureModel._ensure_directories.
Proof. unfold ScriptureModel._ensure_directories. outer_go. Qed.
Hint Resolve scripture_dirs_outer : outer.

Lemma load_bibles_outer : outer _load_bibles.
Proof. unfold _load_bibles, os_listdir. outer_go. Qed.
Hint Resolve load_bibles_outer : outer.

Lemma scripture_init_outer : outer ScriptureModel.init.
Proof. unfold ScriptureModel.init. outer_go. Qed.

Lemma get_bible_by_id_outer id : outer (get_bible_by_id id).
Proof. unfold get_bible_by_id. outer_go. Qed.
Hint Resolve get_bible_by_id_outer : outer.

Lemma get_books_outer id : outer (get_books id).
Proof. unfold get_books. outer_go. Qed.

Lemma get_chapters_outer id b : outer (get_chapters id b).
Proof. unfold get_chapters. outer_go. Qed.

Lemma get_verses_outer id b c : outer (get_verses id b c).
Proof. unfold get_verses. outer_go. Qed.

Lemma search_verses_outer id q : outer (search_verses id q).
Proof. unfold search_verses. outer_go. Qed.

Lemma add_bible_outer d id : outer (add_bible d id).
Proof. unfold add_bible. outer_go. Qed.

Lemma delete_bible_outer id : outer (delete_bible id).
Proof. unfold delete_bible. outer_go. Qed.
End ScriptureErrors.

(** * The operations of the models *)

Lemma failure_outer {A} (c : M A) w e :
  outer c -> failure (c w) = Some e -> exists s, e = Sanctify s /\ formatted s.
Proof.
  intros Hc. unfold failure. specialize (Hc w).
  destruct (c w).1 as [a|e']; [done|]. intros [= <-]. by apply Hc.
Qed.

(** Claim C7: whatever a model operation raises is a [SanctifyError], and
    its message is ["[module] error_code: message"] for the module name and
    the error code it carries. *)
Theorem errors_are_sanctify (o : operation) (w : World) (e : exn) :
  raised o w = Some e ->
  exists s, e = Sanctify s /\
    exists msg, message s = "[" +:+ module s +:+ "] " +:+ error_code s +:+ ": " +:+ msg.
Proof.
  intros H.
  assert (Hf : exists s, e = Sanctify s /\ formatted s).
  { destruct o; simpl in H; (eapply failure_outer; [|exact H]).
    all: eauto using song_init_outer, save_songs_outer, add_song_outer, update_song_outer,
      delete_song_outer, duplicate_song_outer, search_songs_outer, get_song_by_title_outer,
      get_all_songs_outer, theme_init_outer, save_themes_outer, create_theme_outer,
      update_theme_outer, delete_theme_outer, duplicate_theme_outer, search_themes_outer,
      get_theme_by_id_outer, media_init_outer, save_media_outer, add_media_outer,
      update_media_outer, delete_media_outer, duplicate_media_outer, search_media_outer,
      get_media_by_id_outer, set_logo_outer, presentation_init_outer,
      save_presentations_outer, create_presentation_outer, update_presentation_outer,
      delete_presentation_outer, duplicate_presentation_outer, search_presentations_outer,
      get_presentation_by_id_outer, import_from_ppt_outer, scripture_init_outer,
      add_bible_outer, delete_bible_outer, search_verses_outer, get_bible_by_id_outer,
      get_books_outer, get_chapters_outer, get_verses_outer, settings_init_outer,
      load_settings_outer,
      save_settings_outer, outer_get_setting, set_setting_outer, reset_settings_outer,
      export_settings_outer, import_settings_outer. }
  destruct Hf as (s & -> & m & c & msg & ->). eexists. split; [done|]. by exists msg.
Qed.

Lemma errors_are_sanctify_witness :
  exists s, raised (Song_delete "Missing") world0 = Some (Sanctify s) /\
    exists msg, message s = "[" +:+ module s +:+ "] " +:+ error_code s +:+ ": " +:+ msg.
Proof.
  destruct (errors_are_sanctify (Song_delete "Missing") world0 _ eq_refl) as (s & Hs & Hm).
  exists s. split; [|exact Hm]. by rewrite <- Hs.
Defined.

(** * Examples *)




Lemma duplicate_media_without_dot_witness :
  exists e, MediaModel.duplicate_media "m1" "m3" "2024-05-05T10:00:00" "2024-05-05T10:00:00"
              world_media = (Raise (Sanctify e), world_media).
Proof.
  apply (duplicate_media_without_dot world_media "m1" "m3" _ _
           (list_to_map [("id", VStr "m1"); ("name", VStr "cross");
              ("path", VStr "Images/cross");
              ("category", VStr "Images"); ("tags", VStr ""); ("scaling", VStr "fit");
              ("is_logo", VBool true); ("created_at", VStr "2024-01-01T00:00:00");
              ("updated_at", VStr "2024-01-01T00:00:00")]) "cross").
  - by vm_compute.
  - by vm_compute.
  - by vm_compute.
Defined.

Lemma check_ids l : forallb (fun s => is_str (field "id" s)) l = true -> Forall has_id_field l.
Proof.
  intros H%forallb_Forall. eapply Forall_impl; [exact H|].
  intros s [i Hi]%is_str_inv. by eapply field_has_id.
Qed.

Lemma media_keeps_one_logo_witness :
  (forall op, at_most_one_logo (media (run_media_op op world_media).2)) /\
  (forall media_id,
     let r := MediaModel.set_logo media_id world_media in
     match List.find (has_this_id media_id) (media world_media) with
     | Some m =>
         if bool_decide (field "category" m = VStr "Images")
         then field "id" <$> media r.2 = field "id" <$> media world_media /\
              Forall (fun x => is_logo x = has_this_id media_id x) (media r.2) /\
              logo_count (media r.2) = 1
         else exists e, r = (Raise (Sanctify e), world_media)
     | None => exists e, r = (Raise (Sanctify e), world_media)
     end) /\
  (forall source_path category display_name tags scaling new_id now now',
     appends_plain_item (media world_media)
       (media (MediaModel.add_media source_path category display_name tags scaling
                 new_id now now' world_media).2)) /\
  (forall media_id new_id now now',
     appends_plain_item (media world_media)
       (media (MediaModel.duplicate_media media_id new_id now now' world_media).2)) /\
  (forall media_id media_data now,
     replaces_item (media world_media)
       (media (MediaModel.update_media media_id media_data now world_media).2)).
Proof.
  apply (media_keeps_one_logo world_media).
  - apply check_ids. by vm_compute.
  - apply (bool_decide_unpack _). by vm_compute.
  - unfold at_most_one_logo. apply (bool_decide_unpack _). by vm_compute.
Defined.

Lemma set_logo_marks_every_item_sharing_id :
  Forall (fun m => (MediaModel._validate_media m world_media_shared_id).1 = Ok true)
    (media world_media_shared_id) /\
  logo_count (media world_media_shared_id) = 0 /\
  (MediaModel.set_logo "x" world_media_shared_id).1 = Ok (VBool true) /\
  logo_count (media (MediaModel.set_logo "x" world_media_shared_id).2) = 2.
Proof.
  split; [|split; [|split]].
  - repeat (constructor; [by vm_compute|]). constructor.
  - by vm_compute.
  - by vm_compute.
  - by vm_compute.
Qed.

(** * Sorting by a key *)

Section SortAny.
Context {K A : Type} (le : K -> K -> bool).
Hypothesis le_total : forall a b, le a b = false -> le b a = true.

Lemma insert_by_perm_le (x : K * A) l : insert_by le x l ≡ₚ x :: l.
Proof.
  induction l as [|y l IH]; simpl; [done|].
  destruct (le x.1 y.1); [done|].
  by rewrite IH, Permutation_swap.
Qed.

Lemma sort_by_perm_le (l : list (K * A)) : sort_by le l ≡ₚ l.
Proof.
  induction l as [|x l IH]; [done|].
  change (sort_by le (x :: l)) with (insert_by le x (sort_by le l)).
  by rewrite insert_by_perm_le, IH.
Qed.

Lemma insert_by_sorted_le (x : K * A) l :
  Sorted (le_key le) l -> Sorted (le_key le) (insert_by le x l).
Proof.
  induction 1 as [|y l Hs IH Hhd]; simpl.
  - by repeat constructor.
  - destruct (le x.1 y.1) eqn:E.
    + constructor; [by constructor|]. by constructor.
    + constructor; [done|].
      destruct l as [|z l]; simpl in *.
      * constructor. by apply le_total.
      * destruct (le x.1 z.1); constructor; [by apply le_total|].
        by inversion Hhd.
Qed.

Lemma sort_by_sorted_le (l : list (K * A)) : Sorted (le_key le) (sort_by le l).
Proof.
  induction l as [|x l IH]; [constructor|].
  change (sort_by le (x :: l)) with (insert_by le x (sort_by le l)).
  by apply insert_by_sorted_le.
Qed.

(** Insertion is stable: the pairs with one key keep their order. *)
Context `{EqDecision K}.
Hypothesis le_refl : forall a, le a a = true.

Lemma insert_by_stable k x l :
  filter (fun p : K * A => p.1 = k) (insert_by le x l)
  = filter (fun p : K * A => p.1 = k) (x :: l).
Proof.
  induction l as [|y l IH]; simpl; [done|].
  destruct (le x.1 y.1) eqn:E; [done|].
  rewrite filter_cons, IH, !filter_cons.
  destruct (decide (y.1 = k)) as [Hy|Hy], (decide (x.1 = k)) as [Hx|Hx]; try done.
  rewrite Hx, Hy, le_refl in E. done.
Qed.

Lemma sort_by_stable k l :
  filter (fun p : K * A => p.1 = k) (sort_by le l) = filter (fun p : K * A => p.1 = k) l.
Proof.
  induction l as [|x l IH]; [done|].
  change (sort_by le (x :: l)) with (insert_by le x (sort_by le l)).
  by rewrite insert_by_stable, !filter_cons, IH.
Qed.

End SortAny.

Lemma leb_total_false a b : String.leb a b = false -> String.leb b a = true.
Proof.
  intros H. destruct (String.leb_total a b) as [E|E]; [|exact E].
  rewrite E in H. discriminate H.
Qed.

Lemma leb_refl a : String.leb a a = true.
Proof. by destruct (String.leb_total a a). Qed.

Lemma keyed_fmap {A B} (k : A -> B) (l : list A) : ((fun x => (k x, x)) <$> l).*2 = l.
Proof. induction l as [|x l IH]; csimpl; [done|]. by rewrite IH. Qed.

Lemma sorted_keyed {A} (k : A -> string) (l : list (string * A)) :
  Forall (fun p => p.1 = k p.2) l ->
  Sorted (le_key String.leb) l -> Sorted (fun a b => String.leb (k a) (k b) = true) l.*2.
Proof.
  intros Hk Hs. induction Hs as [|p l Hs IH Hhd]; csimpl; [constructor|].
  inversion Hk as [|? ? Hp Hl]; subst. constructor; [by apply IH|].
  destruct Hhd as [|q l Hpq]; simpl; constructor.
  inversion Hl as [|? ? Hq _]; subst. unfold le_key in Hpq. by rewrite <- Hp, <- Hq.
Qed.

Lemma filter_keyed {A} (k : A -> string) s (l : list (string * A)) :
  Forall (fun p => p.1 = k p.2) l ->
  filter (fun x => k x = s) l.*2 = (filter (fun p : string * A => p.1 = s) l).*2.
Proof.
  induction 1 as [|p l Hp Hl IH]; [done|].
  rewrite fmap_cons, !filter_cons, IH. rewrite <- Hp.
  by destruct (decide (p.1 = s)).
Qed.

Lemma py_sorted_lower (k : value -> string) key l :
  Forall (fun x => key x = Ok (k x)) l ->
  exists vs, py_sorted String.leb key l = Ok vs /\ sorted_by_lower k l vs.
Proof.
  intros Hk. unfold py_sorted.
  rewrite (py_map_pure _ (fun x => (k x, x))).
  2: { eapply Forall_impl; [exact Hk|]. intros x Hx; simpl. by rewrite Hx. }
  simpl. eexists; split; [done|].
  set (keyed := (fun x => (k x, x)) <$> l).
  assert (Hkeyed : Forall (fun p : string * value => p.1 = k p.2) keyed).
  { subst keyed. apply Forall_fmap, Forall_forall. done. }
  assert (Hsorted : Forall (fun p : string * value => p.1 = k p.2) (sort_by String.leb keyed)).
  { by rewrite (sort_by_perm_le String.leb). }
  split; [|split].
  - rewrite (sort_by_perm_le String.leb). subst keyed. by rewrite keyed_fmap.
  - apply sorted_keyed; [done|]. apply sort_by_sorted_le, leb_total_false.
  - intros s. rewrite (filter_keyed k) by done.
    rewrite (sort_by_stable String.leb leb_refl).
    rewrite <- (filter_keyed k) by done. subst keyed. by rewrite keyed_fmap.
Qed.

(** * Reading the collections *)

Lemma py_filter_pure {A} (f : A -> result bool) (g : A -> bool) l :
  Forall (fun x => f x = Ok (g x)) l -> py_filter f l = Ok (List.filter g l).
Proof.
  induction 1 as [|x l Hx Hl IH]; simpl; [done|]. rewrite Hx, IH. simpl. by destruct (g x).
Qed.

Lemma py_filter_accepts {A} (f : A -> result bool) l :
  Forall (fun x => exists b, f x = Ok b) l -> py_filter f l = Ok (List.filter (accepts f) l).
Proof.
  intros H. apply py_filter_pure. eapply Forall_impl; [exact H|].
  intros x [b Hb]. unfold accepts. by rewrite Hb.
Qed.

Lemma has_key_getitem k x : has_key k x -> py_getitem x k = Ok (field k x).
Proof. intros (d & v & -> & Hv). simpl. by rewrite Hv. Qed.

Lemma field_has_key k x s : field k x = VStr s -> has_key k x.
Proof.
  destruct x as [| | | | | |d]; try discriminate. simpl.
  destruct (d !! k) as [v|] eqn:E; [|discriminate]. intros _. by exists d, v.
Qed.

Lemma list_filter_filter {A} (g : A -> bool) (l : list A) :
  List.filter g l = filter (fun x => g x = true) l.
Proof.
  induction l as [|x l IH]; simpl; [done|]. rewrite filter_cons, IH.
  destruct (g x); by destruct (decide _).
Qed.

Lemma only_with_selected k wanted l :
  Forall (has_key k) l -> only_with k wanted l = Ok (selected k wanted l).
Proof.
  intros H. unfold only_with, selected.
  destruct (decide (wanted = "")) as [->|Hne].
  - by rewrite bool_decide_eq_true_2.
  - rewrite bool_decide_eq_false_2 by done.
    rewrite (py_filter_pure _ (fun x => bool_decide (field k x = VStr wanted))).
    + f_equal. rewrite list_filter_filter. apply list_filter_iff. intros x.
      by rewrite bool_decide_eq_true.
    + eapply Forall_impl; [exact H|]. intros x Hx. by rewrite (has_key_getitem k x Hx).
Qed.

Lemma selected_subset k wanted l : selected k wanted l ⊆ l.
Proof.
  unfold selected. destruct (decide _); [done|]. intros x Hx.
  by apply list_elem_of_filter in Hx as [_ ?].
Qed.


Lemma sorted_by_name l :
  Forall named l -> exists vs, py_sorted String.leb name_lower l = Ok vs /\ sorted_by_lower key_name l vs.
Proof.
  intros H. apply py_sorted_lower.
  eapply Forall_impl; [exact H|]. intros s Hs. by apply named_name_lower.
Qed.




(** ** Tags *)

Lemma tags_in_ok x :
  tags_ok x = true ->
  tags_in x = Ok (filter (fun t => t <> "") (strip <$> split "," (text_of (field "tags" x)))).
Proof.
  destruct x as [| | | | |?|d]; try done.
  unfold tags_ok, tags_in, field, py_get.
  by destruct (d !! "tags") as [[| | | |s| |]|].
Qed.

Lemma add_tags_ok l : forall acc,
  Forall (fun x => tags_ok x = true) l ->
  exists tags, add_tags acc l = Ok tags /\
    forall t, t ∈ tags <-> t ∈ acc \/ (t <> "" /\ exists x piece,
      x ∈ l /\ piece ∈ split "," (text_of (field "tags" x)) /\ t = strip piece).
Proof.
  induction l as [|x l IH]; intros acc H.
  - exists acc. split; [done|]. intros t. split; [by left|].
    intros [?|(_ & x & ? & Hx & _)]; [done|]. by apply elem_of_nil in Hx.
  - inversion H as [|? ? Hx Hl]; subst. simpl. rewrite (tags_in_ok x Hx). simpl.
    destruct (IH (acc ∪ list_to_set (filter (fun t => t <> "")
                (strip <$> split "," (text_of (field "tags" x))))) Hl) as (tags & E & Ht).
    exists tags. split; [done|]. intros t. rewrite Ht. clear Ht E IH.
    rewrite elem_of_union, elem_of_list_to_set, list_elem_of_filter, list_elem_of_fmap.
    split.
    + intros [[?|[Hne (piece & -> & Hp)]]|(Hne & y & piece & Hy & Hp & ->)].
      * by left.
      * right. split; [done|]. exists x, piece. split; [by left|done].
      * right. split; [done|]. exists y, piece. split; [by right|done].
    + intros [?|(Hne & y & piece & Hy & Hp & ->)]; [by left; left|].
      apply elem_of_cons in Hy as [->|Hy].
      * left. right. split; [done|]. by exists piece.
      * right. split; [done|]. by exists y, piece.
Qed.

Lemma sorted_set_spec (tags : gset string) :
  NoDup (sorted_set tags) /\
  Sorted (fun a b => String.leb a b = true) (sorted_set tags) /\
  forall t, t ∈ sorted_set tags <-> t ∈ tags.
Proof.
  unfold sorted_set.
  set (keyed := (fun t : string => (t, t)) <$> elements tags).
  assert (Hperm : (sort_by String.leb keyed).*2 ≡ₚ elements tags).
  { rewrite (sort_by_perm_le String.leb). subst keyed. by rewrite keyed_fmap. }
  split; [|split].
  - rewrite Hperm. apply NoDup_elements.
  - replace (fun a b : string => String.leb a b = true)
      with (fun a b : string => String.leb (id a) (id b) = true) by done.
    apply (sorted_keyed id).
    + rewrite (sort_by_perm_le String.leb). subst keyed.
      apply Forall_fmap, Forall_forall. done.
    + apply sort_by_sorted_le, leb_total_false.
  - intros t. rewrite Hperm. apply elem_of_elements.
Qed.


(** * Songs: searching and loading *)

Section SongReads.
Import SongModel.

Lemma str_contains_empty s : str_contains "" s = true.
Proof. by destruct s. Qed.

Lemma list_filter_all {A} (g : A -> bool) (l : list A) :
  Forall (fun x => g x = true) l -> List.filter g l = l.
Proof. induction 1 as [|x l Hx Hl IH]; simpl; [done|]. by rewrite Hx, IH. Qed.

Lemma py_any_total {A} (f : A -> result bool) l :
  Forall (fun x => exists b, f x = Ok b) l -> exists b, py_any f l = Ok b.
Proof.
  induction 1 as [|x l [b Hb] Hl [b' IH]]; simpl; [eauto|].
  rewrite Hb. destruct b; eauto.
Qed.

Lemma section_text_ok q sec :
  is_section sec = true ->
  exists b, (let? kv := py_unpack2 sec in
             let? text := py_lower kv.2 in
             Ok (str_contains q text)) = Ok b.
Proof.
  destruct sec as [| | | | |[|a [|b [|]]]|]; try done. simpl.
  destruct a; try done. destruct b; try done. simpl. eauto.
Qed.

Lemma song_test_ok q search_mode tg s :
  valid_song s ->
  exists b,
    (let? matches_query :=
       if bool_decide (search_mode = "title") then
         let? t := title_lower s in Ok (str_contains q t)
       else if bool_decide (search_mode = "lyrics") then
         let? secs := py_get s "sections" (VList []) in
         let? secs := py_iter secs in
         py_any (fun section =>
           let? kv := py_unpack2 section in
           let? text := py_lower kv.2 in
           Ok (str_contains q text)) secs
       else if bool_decide (search_mode = "tags") then
         let? tags := py_get s "tags" (VStr "") in
         let? ts := py_split_comma tags in
         Ok (existsb (fun t => str_contains q (lower t)) ts)
       else Ok false in
     let? matches_tag :=
       if bool_decide (tg = "") then Ok true
       else let? tags := py_get s "tags" (VStr "") in
            let? tags := py_lower tags in
            Ok (str_contains tg tags) in
     Ok (matches_query && matches_tag)) = Ok b /\
    (search_mode = "title" ->
     b = str_contains q (key_title s)
         && (bool_decide (tg = "") || str_contains tg (lower (text_of (field "tags" s))))) /\
    (search_mode ∉ ["title"; "lyrics"; "tags"] -> b = false).
Proof.
  intros Hs. pose proof (valid_title_lower s Hs) as Ht.
  destruct (valid_song_inv s Hs) as (d & secs & tags & cr & up & -> & _ & _ & Hsec & Hsecs & Htags & _).
  set (T := (if bool_decide (tg = "") then Ok true
             else let? tags := py_get (VDict d) "tags" (VStr "") in
                  let? tags := py_lower tags in Ok (str_contains tg tags)) : result bool).
  assert (Htag : exists b, T = Ok b /\
    b = bool_decide (tg = "") || str_contains tg (lower (text_of (field "tags" (VDict d))))).
  { subst T. simpl. rewrite Htags. simpl. destruct (bool_decide (tg = "")); eauto. }
  clearbody T. destruct Htag as (bt & -> & Hbt).
  destruct (decide (search_mode = "title")) as [->|Hn1].
  { rewrite Ht. rewrite bool_decide_eq_true_2 by done. simpl.
    eexists. split; [done|]. split.
    - intros _. by rewrite Hbt.
    - intros Hm. exfalso. apply Hm. by left. }
  rewrite (bool_decide_eq_false_2 (search_mode = "title")) by done.
  destruct (decide (search_mode = "lyrics")) as [->|Hn2].
  { rewrite bool_decide_eq_true_2 by done. unfold py_get. rewrite Hsec. simpl.
    destruct (py_any_total (fun section =>
           let? kv := py_unpack2 section in
           let? text := py_lower kv.2 in
           Ok (str_contains q text)) secs) as [b Hb].
    { apply forallb_Forall in Hsecs. eapply Forall_impl; [exact Hsecs|].
      intros sec Hsec'. by apply section_text_ok. }
    rewrite Hb. simpl. eexists. split; [done|]. split; [done|].
    intros Hm. exfalso. apply Hm. right. by left. }
  rewrite (bool_decide_eq_false_2 (search_mode = "lyrics")) by done.
  destruct (decide (search_mode = "tags")) as [->|Hn3].
  { rewrite bool_decide_eq_true_2 by done. unfold py_get. rewrite Htags. simpl.
    eexists. split; [done|]. split; [done|].
    intros Hm. exfalso. apply Hm. right. right. by left. }
  rewrite (bool_decide_eq_false_2 (search_mode = "tags")) by done.
  simpl. eexists. split; [done|]. split; [done|]. done.
Qed.


End SongReads.

(** * Songs: what loading keeps *)

Section SongLoads.
Import SongModel.

Lemma songs_path_eq w p :
  (songs_path w).1 = Ok (VStr p) -> songs_path w = (Ok (VStr p), w).
Proof.
  unfold songs_path.
  destruct (get_setting_cases "paths" "songs" (VStr "data/songs/songs.json") w)
    as [[v E]|[e E]]; rewrite E; simpl; congruence.
Qed.

Lemma set_songs_same w : set_songs (songs w) w = w.
Proof. by destruct w. Qed.

Lemma for_each_load_dicts items : forall w,
  Forall (fun x => is_dict x = true) items ->
  for_each items (fun song =>
     if _validate_song song then modify (fun w => set_songs (songs w ++ [song]) w)
     else let! _ := lift (py_get song "title" (VStr "Unknown")) in ret tt) w
  = (Ok tt, set_songs (songs w ++ List.filter _validate_song items) w).
Proof.
  induction items as [|s items IH]; intros w H.
  - simpl. unfold ret. by rewrite app_nil_r, set_songs_same.
  - inversion H as [|?? Hs Hl]; subst. simpl. munfold.
    destruct (_validate_song s) eqn:Ev.
    + rewrite (IH _ Hl). simpl. by rewrite <- app_assoc.
    + destruct s; try discriminate Hs. simpl. by rewrite (IH _ Hl).
Qed.

Lemma for_each_load_stops l1 x l2 : forall w,
  Forall (fun x => is_dict x = true) l1 -> is_dict x = false ->
  for_each (l1 ++ x :: l2) (fun song =>
     if _validate_song song then modify (fun w => set_songs (songs w ++ [song]) w)
     else let! _ := lift (py_get song "title" (VStr "Unknown")) in ret tt) w
  = (Raise (no_attribute x "get"), set_songs (songs w ++ List.filter _validate_song l1) w).
Proof.
  induction l1 as [|s l1 IH]; intros w H Hx.
  - simpl. munfold. rewrite app_nil_r, set_songs_same.
    by destruct x.
  - inversion H as [|?? Hs Hl]; subst. simpl. munfold.
    destruct (_validate_song s) eqn:Ev.
    + rewrite (IH _ Hl Hx). simpl. by rewrite <- app_assoc.
    + destruct s; try discriminate Hs. simpl. by rewrite (IH _ Hl Hx).
Qed.



(** Property X9: a songs file whose document is not a list is reported as
    LOAD_003: the LOAD_001 error raised for it is caught by the handler of
    the same method, which wraps its message.  No song is left in memory. *)
Theorem load_songs_not_a_list w p doc :
  (songs_path w).1 = Ok (VStr p) ->
  disk w !! p = Some (JsonFile doc) ->
  is_list doc = false ->
  _load_songs w =
    (Raise (Sanctify (SanctifyError_init "SongModel" "LOAD_003"
       ("Error loading songs from " +:+ p +:+ ": [SongModel] LOAD_001: Songs file "
        +:+ p +:+ " is not a list"))),
     set_songs [] w).
Proof.
  intros Hp Hd Hl. unfold _load_songs.
  unfold bind at 1. rewrite (songs_path_eq w p Hp).
  unfold bind at 1. unfold modify at 1.
  unfold bind at 1. unfold os_path_exists, get. cbn [disk set_songs].
  rewrite Hd. rewrite bool_decide_true by eauto.
  unfold try_except, bind at 1. unfold json_load. cbn [disk set_songs]. rewrite Hd.
  destruct doc; try discriminate Hl; reflexivity.
Qed.

End SongLoads.

(** * Songs: adding, deleting and looking up *)

Section SongLookups.
Import SongModel.

Local Arguments _save_songs : simpl never.
Local Arguments commit : simpl never.
Local Arguments _validate_song : simpl never.
Local Arguments completed : simpl never.

Lemma find_app_none {A} (f : A -> bool) l x :
  existsb f l = false -> f x = true -> List.find f (l ++ [x]) = Some x.
Proof.
  induction l as [|y l IH]; simpl; intros H Hx.
  - by rewrite Hx.
  - apply orb_false_iff in H as [Hy Hl]. rewrite Hy. by apply IH.
Qed.

Lemma add_song_ok_inv w d now r w' :
  Forall valid_song (songs w) ->
  add_song (VDict d) now w = (Ok r, w') ->
  exists t, d !! "title" = Some (VStr t) /\
    existsb (same_title t) (songs w) = false /\
    valid_song (VDict (completed d now)) /\
    songs w' = songs w ++ [VDict (completed d now)] /\
    commit (set_songs (songs w ++ [VDict (completed d now)]) w) = (Ok r, w').
Proof.
  intros Hv. unfold add_song. unfold try_except, bind at 1. unfold lift at 1.
  cbn [py_get].
  destruct (d !! "title") as [[| | | |t| |]|] eqn:Et; cbn [from_option id rbind py_strip];
    try (munfold; simpl; discriminate).
  destruct (truthy (VStr (strip t))) eqn:Es; cbn [negb].
  2: { munfold. discriminate. }
  unfold bind at 1. unfold get at 1. unfold bind at 1. unfold lift at 1.
  rewrite (py_any_pure _ (same_title t)).
  2: { eapply Forall_impl; [exact Hv|]. intros s Hs. simpl.
       rewrite (valid_title_lower s Hs). unfold title_lower. simpl. rewrite Et. simpl.
       done. }
  destruct (existsb (same_title t) (songs w)) eqn:Ex.
  { munfold. simpl. rewrite Et. discriminate. }
  unfold bind at 1. unfold lift at 1. rewrite completion_eq.
  destruct (_validate_song (VDict (completed d now))) eqn:Evalid; cbn [negb].
  2: { munfold. cbn [py_getitem]. destruct (completed d now !! "title"); discriminate. }
  unfold bind at 1. unfold append_song, modify.
  fold (commit (set_songs (songs w ++ [VDict (completed d now)]) w)).
  intros H. exists t. split; [done|]. split; [done|]. split; [done|].
  pose proof (commit_songs (set_songs (songs w ++ [VDict (completed d now)]) w)) as Hc.
  pose proof (commit_handler (set_songs (songs w ++ [VDict (completed d now)]) w)
                "Error adding song: " "ADD_004") as Hh.
  unfold bind in H.
  assert (E : commit (set_songs (songs w ++ [VDict (completed d now)]) w) = (Ok r, w')).
  { unfold commit in *. munfold.
    destruct (_save_songs (set_songs (songs w ++ [VDict (completed d now)]) w))
      as [[[]|e] w1]; simpl in *; [done|]. destruct e; discriminate. }
  split; [|done]. rewrite E in Hc. simpl in Hc. done.
Qed.


Lemma find_none_existsb {A} (f : A -> bool) l : List.find f l = None -> existsb f l = false.
Proof.
  induction l as [|x l IH]; simpl; [done|]. destruct (f x); [discriminate|]. exact IH.
Qed.

Lemma same_title_key t s : same_title t s = bool_decide (key_title s = lower t).
Proof. done. Qed.


Lemma setdefault_dict d k r :
  (exists v, r = Ok v) ->
  exists d', setdefault (VDict d) k r = Ok (VDict d') /\
             forall k', k' <> k -> d' !! k' = d !! k'.
Proof.
  intros [v ->]. unfold setdefault. simpl.
  destruct (bool_decide (is_Some (d !! k))); simpl.
  - by exists d.
  - exists (<[k := v]> d). split; [done|]. intros k' Hk. by rewrite lookup_insert_ne.
Qed.

Lemma updated_without_title song d now :
  valid_song song -> d !! "title" = None ->
  exists d',
    (let? d0 := py_copy (VDict d) in
     let? d0 := py_setitem d0 "updated_at" (VStr now) in
     let? created := py_getitem song "created_at" in
     let? d0 := py_setitem d0 "created_at" created in
     let? d0 := setdefault d0 "sections" (py_getitem song "sections") in
     setdefault d0 "tags" (py_getitem song "tags")) = Ok (VDict d') /\
    d' !! "title" = None.
Proof.
  intros (sd & secs & tags & cr & up & -> & Ht & _ & Hsec & _ & Htags & Hcr & Hup)%valid_song_inv Hd.
  cbn [py_copy py_setitem rbind py_getitem]. rewrite Hcr, Hsec, Htags. cbn [rbind].
  destruct (setdefault_dict (<["created_at":=VStr cr]> (<["updated_at":=VStr now]> d))
              "sections" (Ok (VList secs))) as (d1 & -> & H1); [eauto|].
  cbn [rbind].
  destruct (setdefault_dict d1 "tags" (Ok (VStr tags))) as (d2 & -> & H2); [eauto|].
  exists d2. split; [done|].
  rewrite H2, H1 by done. by rewrite !lookup_insert_ne.
Qed.

Lemma validate_without_title d : d !! "title" = None -> _validate_song (VDict d) = false.
Proof. intros H. unfold _validate_song. by rewrite H. Qed.

(** Property X12: a replacement record without a title is not reported as invalid
    data: the message of UPDATE_003 reads the title of the record, so
    [update_song] raises UPDATE_004 for the missing key, and changes
    nothing. *)
Theorem update_song_without_title w old_title d now :
  Forall valid_song (songs w) ->
  existsb (same_title old_title) (songs w) = true ->
  d !! "title" = None ->
  update_song old_title (VDict d) now w =
    (Raise (Sanctify (SanctifyError_init "SongModel" "UPDATE_004"
       "Error updating song: 'title'")), w).
Proof.
  intros Hv Hex Hd. unfold update_song. unfold try_except, bind at 1.
  rewrite get_song_by_title_spec by done.
  destruct (List.find (same_title old_title) (songs w)) as [song|] eqn:Ef.
  2: { apply find_none_existsb in Ef. congruence. }
  pose proof (find_valid _ _ _ _ Hv Ef) as Hs.
  cbn [default from_option id]. rewrite (valid_truthy _ Hs). cbn [negb].
  unfold bind at 1. unfold lift at 1. cbn [py_get]. rewrite Hd.
  cbn [default from_option id rbind py_strip]. change (strip "") with "".
  cbn [truthy]. rewrite bool_decide_eq_true_2 by done. cbn [negb].
  unfold bind at 1. unfold get at 1. unfold bind at 1. unfold ret at 1.
  unfold bind at 1. unfold lift at 1.
  destruct (updated_without_title song d now Hs Hd) as (d' & -> & Hd').
  rewrite (validate_without_title d' Hd'). cbn [negb].
  unfold bind, lift. cbn [py_getitem]. rewrite Hd'. reflexivity.
Qed.

End SongLookups.

(** * Settings: writing one and reading it back *)

Section SettingsWrites.
Import SettingsManager.

Lemma save_settings_eq w :
  _save_settings w = (Ok tt, set_disk (<[config_file w := JsonFile (VDict (settings w))]> (disk w)) w).
Proof. reflexivity. Qed.

Lemma get_setting_stored section key dflt w d v :
  settings w !! section = Some (VDict d) -> d !! key = Some v ->
  get_setting section key dflt w = (Ok v, w).
Proof.
  intros Hs Hk. unfold get_setting. munfold. simpl. rewrite Hs. simpl. by rewrite Hk.
Qed.

Local Ltac world_simpl :=
  cbn [settings config_file emitted restart_required disk set_settings set_disk
       set_emitted set_restart_required ui_font py_getitem py_setitem fst snd].

Local Ltac world_simpl_in H :=
  cbn [settings config_file emitted restart_required disk set_settings set_disk
       set_emitted set_restart_required ui_font py_getitem py_setitem fst snd] in H.

Local Ltac lookups :=
  repeat (rewrite lookup_insert_eq || rewrite lookup_insert_ne by done); world_simpl.

(** Property X13: [set_setting] on a section that is absent or is a dict returns
    [True]; afterwards [get_setting] returns the value whatever default is
    passed, one [settings_changed] signal has been emitted with the section,
    the key and the value, the settings file holds the settings in memory,
    the other sections are as they were, and a restart is required once the
    theme or the UI font of the appearance section has been set. *)
Theorem set_setting_then_get w section key v dflt :
  is_dict (default (VDict ∅) (settings w !! section)) = true ->
  let r := set_setting section key v w in
  r.1 = Ok (VBool true) /\
  get_setting section key dflt r.2 = (Ok v, r.2) /\
  emitted r.2 = emitted w ++ [(section, key, v)] /\
  restart_required r.2 =
    restart_required w
    || (bool_decide (section = "appearance")
        && (bool_decide (key = "theme") || bool_decide (key = "ui_font"))) /\
  disk r.2 !! config_file w = Some (JsonFile (VDict (settings r.2))) /\
  (forall s, s <> section -> settings r.2 !! s = settings w !! s).
Proof.
  intros Hd. destruct w as [cf font st rr em sg md th pr mm tm br bb dk].
  cbn [settings] in Hd.
  assert (Hsec : exists d st',
    st' !! section = Some (VDict d) /\ (forall s, s <> section -> st' !! s = st !! s) /\
    (if bool_decide (is_Some (st !! section)) then @ret unit tt
     else modify (set_settings (<[section := VDict ∅]> st)))
      {| config_file := cf; ui_font := font; settings := st; restart_required := rr;
         emitted := em; songs := sg; media := md; themes := th; presentations := pr;
         media_model := mm; theme_model := tm; bible_root := br; bibles := bb; disk := dk |}
    = (Ok tt,
      {| config_file := cf; ui_font := font; settings := st'; restart_required := rr;
         emitted := em; songs := sg; media := md; themes := th; presentations := pr;
         media_model := mm; theme_model := tm; bible_root := br; bibles := bb; disk := dk |})).
  { destruct (st !! section) as [sec|] eqn:Es.
    - destruct sec as [| | | | | |d]; try discriminate Hd. exists d, st.
      rewrite bool_decide_eq_true_2 by eauto. done.
    - exists ∅, (<[section := VDict ∅]> st).
      rewrite bool_decide_eq_false_2 by (by intros [? ?]).
      split; [apply lookup_insert_eq|]. split; [|done].
      intros s Hs. by rewrite lookup_insert_ne. }
  destruct Hsec as (d & st' & Hst' & Hother & Estep). clear Hd.
  intros r. remember (set_setting section key v _) as r0 eqn:Er. subst r.
  unfold set_setting in Er. unfold try_except, bind at 1 in Er. unfold get at 1 in Er.
  cbn [settings] in Er. unfold bind at 1 in Er. rewrite Estep in Er. clear Estep.
  unfold _save_settings, emit, json_dump in Er. munfold. world_simpl_in Er.
  rewrite Hst' in Er. world_simpl_in Er.
  unfold get_setting. munfold.
  destruct (bool_decide (section = "appearance")
            && (bool_decide (key = "theme") || bool_decide (key = "ui_font"))) eqn:E1.
  { subst r0. world_simpl. lookups.
    repeat split; try done; try (by rewrite ?orb_true_r, ?orb_false_r); try (by lookups).
    all: intros s Hs; rewrite lookup_insert_ne by done; by apply Hother. }
  destruct (bool_decide (section = "advanced") && bool_decide (key = "developer_mode")) eqn:E2.
  { apply andb_true_iff in E2 as [Ha Hk].
    apply bool_decide_eq_true in Ha. apply bool_decide_eq_true in Hk. subst section key.
    world_simpl_in Er. rewrite lookup_insert_eq in Er. world_simpl_in Er. subst r0. world_simpl.
    rewrite insert_insert_eq. lookups.
    rewrite lookup_insert_ne by done. lookups.
    repeat split; try done; try (by rewrite ?orb_true_r, ?orb_false_r); try (by lookups).
    all: intros s Hs; rewrite lookup_insert_ne by done; by apply Hother. }
  subst r0. world_simpl. lookups.
  repeat split; try done; try (by rewrite ?orb_true_r, ?orb_false_r); try (by lookups).
  all: intros s Hs; rewrite lookup_insert_ne by done; by apply Hother.
Qed.


(** Property X15: a settings file that holds JSON other than an object is not
    treated as corrupted: the constructor raises LOAD_001 and leaves the
    settings and the file as they are. *)
Theorem settings_init_rejects_non_object w doc :
  os_path_dirname (config_file w) <> "" ->
  disk w !! config_file w = Some (JsonFile doc) ->
  is_dict doc = false ->
  SettingsManager.init w =
    (Raise (Sanctify (SanctifyError_init "SettingsManager" "LOAD_001"
       (("Error loading settings from " +:+ config_file w +:+ ": ")
        +:+ "'" +:+ type_name doc +:+ "' object has no attribute 'items'"))), w).
Proof.
  intros Hdir Hfile Hdoc. unfold SettingsManager.init, load_settings, use_defaults,
    _save_settings, json_dump, os_path_exists, json_load, os_makedirs.
  munfold. cbv beta. rewrite bool_decide_eq_false_2 by done. cbv beta iota. rewrite Hfile.
  rewrite bool_decide_eq_true_2 by eauto. cbv beta iota. rewrite Hfile.
  destruct doc; try discriminate Hdoc; reflexivity.
Qed.

End SettingsWrites.

(** * Settings: what a loaded configuration satisfies *)

Section SettingsLoads.
Import SettingsManager.

Lemma default_valid font section x :
  default_settings font !! section = Some x -> section_valid section x.
Proof.
  unfold default_settings. cbn [list_to_map foldr uncurry fst snd].
  repeat (rewrite lookup_insert; case_decide;
    [subst section; intros [= <-]; unfold dict; eexists; split; [reflexivity|];
     cbn [list_to_map foldr uncurry fst snd]; intros key v;
     repeat (rewrite lookup_insert; case_decide; [subst key; intros [= <-]; reflexivity|]);
     rewrite lookup_empty; discriminate|]).
  rewrite lookup_empty. discriminate.
Qed.

Lemma validate_section section items : forall w w' dc,
  NoDup items.*1 ->
  settings w !! section = Some (VDict dc) ->
  (forall key v, (key, v) ∈ items -> dc !! key = Some v) ->
  for_each items (fun '(key, v) =>
    if invalid_setting section key v then reset_to_default section key else ret tt) w
  = (Ok tt, w') ->
  ui_font w' = ui_font w /\
  exists dc', settings w' = <[section := VDict dc']> (settings w) /\
    (forall key, key ∉ items.*1 -> dc' !! key = dc !! key) /\
    (forall key, key ∈ items.*1 ->
       exists v', dc' !! key = Some v' /\ invalid_setting section key v' = false).
Proof.
  induction items as [|[key v] items IH]; intros w w' dc Hnd Hsec Hitems.
  - intros [= <-]. split; [done|]. exists dc. split; [by rewrite insert_id|].
    split; [done|]. intros key Hk. by apply elem_of_nil in Hk.
  - apply NoDup_cons in Hnd as [Hfresh Hnd]. cbn [for_each]. unfold bind at 1.
    assert (Hrest : forall w1 dc1,
      settings w1 !! section = Some (VDict dc1) ->
      settings w1 = <[section := VDict dc1]> (settings w) ->
      ui_font w1 = ui_font w ->
      dc1 !! key = Some (default v (dc1 !! key)) ->
      invalid_setting section key (default v (dc1 !! key)) = false ->
      (forall k, k <> key -> dc1 !! k = dc !! k) ->
      for_each items (fun '(key, v) =>
        if invalid_setting section key v then reset_to_default section key else ret tt) w1
      = (Ok tt, w') ->
      ui_font w' = ui_font w /\
      exists dc', settings w' = <[section := VDict dc']> (settings w) /\
        (forall k, k ∉ ((key, v) :: items).*1 -> dc' !! k = dc !! k) /\
        (forall k, k ∈ ((key, v) :: items).*1 ->
           exists v', dc' !! k = Some v' /\ invalid_setting section k v' = false)).
    { intros w1 dc1 Hsec1 Hset1 Hfont1 Hkey1 Hvalid1 Hsame Hloop.
      destruct (IH w1 w' dc1 Hnd Hsec1) as (Hfont & dc' & Hset & Hout & Hin); [|done|].
      { intros k x Hkx. rewrite Hsame; [by apply Hitems; right|].
        intros ->. apply Hfresh. apply list_elem_of_fmap. by exists (key, x). }
      split; [congruence|]. exists dc'. split; [|split].
      - rewrite Hset, Hset1. by rewrite insert_insert_eq.
      - intros k Hk. csimpl in Hk. apply not_elem_of_cons in Hk as [Hne Hk].
        rewrite Hout by done. by apply Hsame.
      - intros k Hk. csimpl in Hk. apply elem_of_cons in Hk as [->|Hk]; [|by apply Hin].
        exists (default v (dc1 !! key)). split; [|done].
        rewrite Hout by done. done. }
    assert (Hv : dc !! key = Some v) by (apply Hitems; left).
    destruct (invalid_setting section key v) eqn:Einv.
    + unfold reset_to_default. munfold. cbn [py_getitem].
      destruct (default_settings (ui_font w) !! section) as [dsec|] eqn:Eds;
        cbn [rbind]; [|discriminate].
      destruct (py_getitem dsec key) as [dflt|e] eqn:Edflt; [|discriminate].
      rewrite Hsec. cbn [py_setitem].
      destruct (default_valid _ _ _ Eds) as (ds & -> & Hds).
      cbn [py_getitem] in Edflt. destruct (ds !! key) as [dv|] eqn:Edv; [|discriminate].
      injection Edflt as ->.
      apply (Hrest _ (<[key := dflt]> dc)); cbn [settings ui_font set_settings].
      * apply lookup_insert_eq.
      * done.
      * done.
      * by rewrite lookup_insert_eq.
      * rewrite lookup_insert_eq. simpl. by apply Hds.
      * intros k Hk. by rewrite lookup_insert_ne.
    + unfold ret at 1. apply (Hrest w dc); try done.
      * by rewrite insert_id.
      * by rewrite Hv.
      * by rewrite Hv.
Qed.

Lemma validate_sections L : forall w w',
  NoDup L.*1 ->
  (forall section keys, (section, keys) ∈ L -> settings w !! section = Some keys) ->
  for_each L (fun '(section, keys) =>
    let! items := lift (py_items keys) in
    for_each items (fun '(key, v) =>
      if invalid_setting section key v then reset_to_default section key else ret tt)) w
  = (Ok tt, w') ->
  ui_font w' = ui_font w /\
  (forall section, section ∉ L.*1 -> settings w' !! section = settings w !! section) /\
  (forall section, section ∈ L.*1 ->
     exists x, settings w' !! section = Some x /\ section_valid section x).
Proof.
  induction L as [|[section keys] L IH]; intros w w' Hnd Hsecs.
  - intros [= <-]. split; [done|]. split; [done|].
    intros section Hs. by apply elem_of_nil in Hs.
  - apply NoDup_cons in Hnd as [Hfresh Hnd]. cbn [for_each]. unfold bind at 1.
    unfold bind at 1. unfold lift at 1.
    destruct keys as [| | | | | |d]; try discriminate. cbn [py_items].
    destruct (for_each (map_to_list d) _ w) as [[[]|e] w1] eqn:Einner; [|discriminate].
    intros Hloop.
    destruct (validate_section section (map_to_list d) w w1 d) as (Hfont1 & dc' & Hset1 & Hout & Hin).
    { apply NoDup_fst_map_to_list. }
    { apply Hsecs. left. }
    { intros key v. apply elem_of_map_to_list. }
    { exact Einner. }
    destruct (IH w1 w' Hnd) as (Hfont & Hothers & Hvalid); [|done|].
    { intros s k Hsk. rewrite Hset1. rewrite lookup_insert_ne; [apply Hsecs; by right|].
      intros ->. apply Hfresh. apply list_elem_of_fmap. by exists (s, k). }
    split; [congruence|]. split.
    + intros s Hs. csimpl in Hs. apply not_elem_of_cons in Hs as [Hne Hs].
      rewrite Hothers by done. rewrite Hset1. by rewrite lookup_insert_ne.
    + intros s Hs. csimpl in Hs. apply elem_of_cons in Hs as [->|Hs]; [|by apply Hvalid].
      exists (VDict dc'). split.
      * rewrite Hothers by done. rewrite Hset1. apply lookup_insert_eq.
      * exists dc'. split; [done|]. intros key v Hkv.
        destruct (decide (key ∈ (map_to_list d).*1)) as [Hk|Hk].
        -- destruct (Hin key Hk) as (v' & Hv' & Hvalid'). congruence.
        -- rewrite Hout in Hkv by done. exfalso. apply Hk.
           apply list_elem_of_fmap. exists (key, v). split; [done|].
           by apply elem_of_map_to_list.
Qed.

Lemma validate_settings_valid w w' :
  _validate_settings w = (Ok tt, w') ->
  forall section x, settings w' !! section = Some x -> section_valid section x.
Proof.
  unfold _validate_settings. unfold try_except, bind at 1. unfold get at 1.
  unfold bind at 1.
  destruct (for_each (map_to_list (settings w)) _ w) as [[[]|e] w1] eqn:Eloop;
    [|discriminate].
  rewrite save_settings_eq. intros [= <-]. cbn [settings set_disk].
  destruct (validate_sections (map_to_list (settings w)) w w1
              (NoDup_fst_map_to_list (settings w))) as (_ & Hothers & Hvalid).
  { intros s k. apply elem_of_map_to_list. }
  { exact Eloop. }
  intros section x Hx.
  destruct (decide (section ∈ (map_to_list (settings w)).*1)) as [Hs|Hs].
  - destruct (Hvalid section Hs) as (x' & Hx' & Hv). congruence.
  - rewrite Hothers in Hx by done. exfalso. apply Hs.
    apply list_elem_of_fmap. exists (section, x). split; [done|].
    by apply elem_of_map_to_list.
Qed.


End SettingsLoads.

(** * Themes: creating, looking up and deleting *)

Section ThemeLookups.
Import ThemeModel.

Lemma existsb_has_this_id id l :
  VStr id ∉ field "id" <$> l -> existsb (has_this_id id) l = false.
Proof.
  intros H. apply not_true_is_false. intros Hex. apply H.
  apply (existsb_key (field "id")). exact Hex.
Qed.

Lemma get_theme_by_id_spec id w :
  Forall has_id_field (themes w) ->
  get_theme_by_id id w = (Ok (default VNone (List.find (has_this_id id) (themes w))), w).
Proof.
  intros H. unfold get_theme_by_id. munfold. by rewrite find_by_id_spec.
Qed.

(** Property X17: the theme [create_theme] returns is the one it has appended, it
    carries the new id and the name given, and [get_theme_by_id] finds it
    under the new id when no stored theme had that id. *)
Theorem create_theme_then_get w name context alignment font_color background_color
    font_size font_family tags new_id now now' theme w' :
  Forall has_id_field (themes w) ->
  VStr new_id ∉ field "id" <$> themes w ->
  create_theme name context alignment font_color background_color font_size font_family
    tags new_id now now' w = (Ok theme, w') ->
  themes w' = themes w ++ [theme] /\
  field "id" theme = VStr new_id /\ field "name" theme = VStr name /\
  get_theme_by_id new_id w' = (Ok theme, w').
Proof.
  intros Hids Hfresh. unfold create_theme. unfold try_except.
  destruct (bool_decide (strip name = "")); [munfold; discriminate|].
  unfold bind at 1. unfold get at 1. unfold bind at 1. unfold lift at 1.
  destruct (name_taken name (themes w)) as [[|]|e]; [munfold; discriminate| |].
  2: { destruct e; munfold; discriminate. }
  match goal with |- context [_validate_theme ?t] => set (rec := t) end.
  destruct (_validate_theme rec) eqn:Ev; cbn [negb]; [|munfold; discriminate].
  unfold bind at 1. unfold append_theme, modify. unfold bind at 1.
  pose proof (save_themes_preserves themes (set_themes (themes w ++ [rec]) w)) as Hsave.
  destruct (_save_themes (set_themes (themes w ++ [rec]) w)) as [[[]|e] w1].
  2: { destruct e; munfold; discriminate. }
  unfold ret. intros [= <- <-]. simpl in Hsave.
  split; [done|]. split; [done|]. split; [done|].
  rewrite get_theme_by_id_spec.
  - rewrite Hsave. rewrite find_app_none; [done| |].
    + by apply existsb_has_this_id.
    + unfold has_this_id. by apply bool_decide_eq_true.
  - rewrite Hsave. apply Forall_app. split; [done|]. constructor; [|done].
    by apply (field_has_id _ new_id).
Qed.

Lemma theme_file_eq w p :
  (theme_file w).1 = Ok (VStr p) -> theme_file w = (Ok (VStr p), w).
Proof.
  unfold theme_file.
  destruct (get_setting_cases "paths" "themes" (VStr "data/themes/themes.json") w)
    as [[v E]|[e E]]; rewrite E; simpl; congruence.
Qed.

Lemma save_themes_ok w p :
  (theme_file w).1 = Ok (VStr p) ->
  _save_themes w = (Ok tt, set_disk (<[p := JsonFile (VList (themes w))]> (disk w)) w).
Proof.
  intros Hp. unfold _save_themes. unfold bind at 1. rewrite (theme_file_eq w p Hp).
  reflexivity.
Qed.

Lemma valid_theme_truthy t : _validate_theme t = true -> truthy t = true.
Proof.
  intros H. destruct (valid_theme_inv t H) as (n & i & Hn & _).
  destruct t as [| | | | | |d]; try discriminate Hn. simpl in *.
  apply negb_true_iff, bool_decide_eq_false. intros ->. by rewrite lookup_empty in Hn.
Qed.

Lemma valid_theme_ids l :
  Forall (fun t => _validate_theme t = true) l -> Forall has_id_field l.
Proof.
  intros H. eapply Forall_impl; [exact H|].
  intros t (n & i & _ & _ & Hi)%valid_theme_inv. by apply (field_has_id _ i).
Qed.

Lemma has_this_id_key id t : has_this_id id t = bool_decide (field "id" t = VStr id).
Proof. done. Qed.

Lemma delete_theme_found w theme_id theme l1 l2 :
  Forall (fun t => _validate_theme t = true) (themes w) ->
  themes w = l1 ++ theme :: l2 ->
  has_this_id theme_id theme = true ->
  Forall (fun t => has_this_id theme_id t = false) l1 ->
  delete_theme theme_id w =
    match _save_themes (set_themes (l1 ++ l2) w) with
    | (Ok _, w1) => (Ok (VBool true), w1)
    | (Raise e, w1) => reraise_or_wrap "ThemeModel" "DELETE_002" "Error deleting theme: " e w1
    end.
Proof.
  intros Hv El Hs Hl1. pose proof (valid_theme_ids _ Hv) as Hids.
  assert (Ef : List.find (has_this_id theme_id) (themes w) = Some theme).
  { rewrite El. by apply find_split. }
  assert (Hvt : _validate_theme theme = true).
  { rewrite El in Hv. apply Forall_app in Hv as [_ Hv]. by inversion Hv. }
  destruct (valid_theme_inv theme Hvt) as (n & i & Hn & _ & Hi).
  unfold delete_theme. unfold try_except, bind at 1.
  rewrite get_theme_by_id_spec by done. rewrite Ef. cbn [default from_option id].
  rewrite (valid_theme_truthy _ Hvt). cbn [negb].
  unfold bind at 1. unfold get at 1. rewrite El.
  unfold bind at 1. unfold lift at 1. unfold py_list_remove.
  rewrite (remove_first_split _ _ _ _ Hs Hl1).
  unfold bind at 1. unfold modify at 1. unfold bind at 1.
  destruct (_save_themes (set_themes (l1 ++ l2) w)) as [[[]|e] w1]; [|done].
  unfold bind, lift, ret. destruct theme as [| | | | | |d]; try discriminate Hn.
  simpl in Hn. cbn [py_getitem]. by destruct (d !! "name").
Qed.

Lemma delete_theme_themes w theme_id theme l1 l2 :
  Forall (fun t => _validate_theme t = true) (themes w) ->
  themes w = l1 ++ theme :: l2 ->
  has_this_id theme_id theme = true ->
  Forall (fun t => has_this_id theme_id t = false) l1 ->
  themes (delete_theme theme_id w).2 = l1 ++ l2.
Proof.
  intros Hv El Hs Hl1. rewrite (delete_theme_found w theme_id theme l1 l2) by done.
  pose proof (save_themes_preserves themes (set_themes (l1 ++ l2) w)) as Hsave.
  simpl in Hsave.
  destruct (_save_themes (set_themes (l1 ++ l2) w)) as [[[]|e] w1]; simpl in *; [done|].
  by destruct e.
Qed.

Lemma delete_theme_missing w theme_id :
  Forall (fun t => _validate_theme t = true) (themes w) ->
  List.find (has_this_id theme_id) (themes w) = None ->
  delete_theme theme_id w =
    (Raise (Sanctify (SanctifyError_init "ThemeModel" "DELETE_001"
       ("Theme not found: " +:+ theme_id))), w).
Proof.
  intros Hv Ef. pose proof (valid_theme_ids _ Hv) as Hids.
  unfold delete_theme. unfold try_except, bind at 1.
  rewrite get_theme_by_id_spec by done. rewrite Ef. reflexivity.
Qed.

Lemma removed_id_gone theme_id theme l1 l2 :
  NoDup (field "id" <$> l1 ++ theme :: l2) ->
  has_this_id theme_id theme = true ->
  List.find (has_this_id theme_id) (l1 ++ l2) = None.
Proof.
  intros Hnd Hs. apply NoDup_keys_drop in Hnd as [_ Hnot].
  destruct (List.find (has_this_id theme_id) (l1 ++ l2)) as [t|] eqn:Ef'; [|done].
  exfalso. apply find_some in Ef' as [Hin Hst]. apply Hnot.
  rewrite has_this_id_key in Hs, Hst.
  apply bool_decide_eq_true in Hs, Hst. rewrite Hs, <- Hst.
  apply list_elem_of_fmap. exists t. split; [done|]. by apply list_elem_of_In.
Qed.


End ThemeLookups.

(** * Presentations: importing, and the themes they name *)

Section PresentationImports.
Import PresentationModel.

Lemma import_from_ppt_ok_inv ppt_path new_id now now' w r w' :
  import_from_ppt ppt_path new_id now now' w = (Ok r, w') ->
  presentations w' = presentations w ++ [r] /\
  field "id" r = VStr new_id /\
  field "name" r = VStr (os_path_splitext (os_path_basename ppt_path)).1 /\
  field "theme" r = VStr "default" /\
  (_validate_presentation r w).1 = Ok true.
Proof.
  unfold import_from_ppt. unfold try_except. cbv zeta.
  match goal with |- context [_validate_presentation ?p] => set (rec := p) end.
  unfold bind at 1.
  pose proof (validate_presentation_preserves presentations rec w) as Hval.
  destruct (_validate_presentation rec w) as [[ok|e] w1] eqn:Ev; simpl in Hval.
  2: { pose proof (failure_outer _ w e (validate_presentation_outer rec)) as Hs.
       unfold failure in Hs. rewrite Ev in Hs. destruct (Hs eq_refl) as (se & -> & _).
       munfold. discriminate. }
  destruct ok; cbn [negb]; [|munfold; discriminate].
  unfold bind at 1. unfold append_presentation, modify. unfold bind at 1.
  pose proof (save_presentations_preserves presentations
                (set_presentations (presentations w1 ++ [rec]) w1)) as Hsave.
  destruct (_save_presentations _) as [[[]|e] w2].
  2: { destruct e; munfold; discriminate. }
  unfold ret. intros [= <- <-]. simpl in Hsave. rewrite Hsave, Hval.
  repeat split; try done. by rewrite Ev.
Qed.

(** Property X19: [import_from_ppt] does not look at the names already stored:
    importing the same file twice stores two presentations with the same
    name, the name of the file without its extension. *)
Theorem import_from_ppt_twice ppt_path id1 id2 now1 now1' now2 now2' w r1 w1 r2 w2 :
  import_from_ppt ppt_path id1 now1 now1' w = (Ok r1, w1) ->
  import_from_ppt ppt_path id2 now2 now2' w1 = (Ok r2, w2) ->
  presentations w2 = presentations w ++ [r1; r2] /\
  field "name" r1 = VStr (os_path_splitext (os_path_basename ppt_path)).1 /\
  field "name" r2 = field "name" r1 /\
  field "id" r1 = VStr id1 /\ field "id" r2 = VStr id2.
Proof.
  intros (H1 & Hi1 & Hn1 & _)%import_from_ppt_ok_inv (H2 & Hi2 & Hn2 & _)%import_from_ppt_ok_inv.
  rewrite H2, H1, <- app_assoc. by rewrite Hn2, Hn1.
Qed.

Lemma validate_needs_theme p w :
  theme_model w = true ->
  Forall has_id_field (themes w) ->
  (forall i, field "theme" p = VStr i -> List.find (has_this_id i) (themes w) = None) ->
  (_validate_presentation p w).1 <> Ok true.
Proof.
  intros Htm Hids Hnone. unfold _validate_presentation. unfold try_except.
  destruct (well_formed p) eqn:Ewf; cbn [negb]; [|by munfold].
  unfold bind at 1. unfold get at 1.
  assert (Hrest : forall w1 : World, themes w1 = themes w -> theme_model w1 = true ->
    ((let! has_theme_model := get theme_model in
      if has_theme_model then
        let! id := lift (py_getitem p "theme") in
        let! theme :=
          match id with
          | VStr theme_id => ThemeModel.get_theme_by_id theme_id
          | _ => ret VNone
          end in
        ret (truthy theme)
      else ret true) w1).1 <> Ok true).
  { intros w1 Hth Htm1. unfold bind at 1. unfold get at 1. rewrite Htm1.
    unfold bind at 1. unfold lift at 1.
    destruct (py_getitem p "theme") as [id|e] eqn:Eid; [|done].
    apply py_getitem_field in Eid.
    unfold bind at 1. destruct id as [| | | |i| |]; try (by munfold).
    rewrite get_theme_by_id_spec by (by rewrite Hth). rewrite Hth.
    rewrite (Hnone i Eid). by munfold. }
  destruct (media_model w).
  - unfold bind at 1. unfold bind at 1.
    destruct (get_setting_cases "paths" "media" (VStr "data/media") w) as [[dir E]|[e E]];
      rewrite E; [|by munfold].
    unfold bind at 1. unfold lift at 1.
    destruct (let? s := py_getitem p "slides" in py_iter s) as [slides|e]; [|by destruct e; munfold].
    pose proof (media_exist_preserves themes dir slides w) as Hth.
    pose proof (media_exist_preserves theme_model dir slides w) as Htm'.
    destruct (media_exist dir slides w) as [[ok|e] w1]; simpl in Hth, Htm'.
    + destruct ok; cbn [negb]; [|by munfold].
      specialize (Hrest w1 Hth (eq_trans Htm' Htm)).
      destruct (bind (get theme_model) _ w1) as [[[]|e] w2]; simpl in *; try done.
      all: try by destruct e; munfold.
    + by destruct e; munfold.
  - unfold bind at 1. unfold ret at 1. cbn [negb].
    specialize (Hrest w eq_refl Htm).
    destruct (bind (get theme_model) _ w) as [[[]|e] w2]; simpl in *; try done.
    all: try by destruct e; munfold.
Qed.

(** Property X20: with a theme model attached, [import_from_ppt] never succeeds
    unless a theme whose id is ["default"] is stored: the imported
    presentation names that theme, and the validation looks it up. *)
Theorem import_from_ppt_needs_default_theme ppt_path new_id now now' w :
  theme_model w = true ->
  Forall has_id_field (themes w) ->
  List.find (has_this_id "default") (themes w) = None ->
  exists e, (import_from_ppt ppt_path new_id now now' w).1 = Raise (Sanctify e).
Proof.
  intros Htm Hids Hnone.
  destruct (import_from_ppt ppt_path new_id now now' w) as [[r|e] w'] eqn:E.
  2: { pose proof (failure_outer _ w e (import_from_ppt_outer ppt_path new_id now now')) as Hs.
       unfold failure in Hs. rewrite E in Hs. destruct (Hs eq_refl) as (se & -> & _).
       by exists se. }
  exfalso. apply import_from_ppt_ok_inv in E as (_ & _ & _ & Ht & Hv).
  revert Hv. apply validate_needs_theme; [done..|].
  intros i Hi. rewrite Ht in Hi. by injection Hi as <-.
Qed.

Global Instance theme_model_not_disk : NotDisk theme_model.
Proof. by intros d []. Qed.

Lemma delete_theme_keeps_model id : preserves theme_model (ThemeModel.delete_theme id).
Proof. unfold ThemeModel.delete_theme. frame. Qed.

(** Property X21: [delete_theme] does not look at the presentations: once a theme
    has been deleted, a presentation that names it no longer passes
    [_validate_presentation] of a presentation model that has the theme
    model attached, so it cannot be updated and is skipped by the next load. *)
Theorem delete_theme_orphans w theme_id r w' p :
  Forall (fun t => ThemeModel._validate_theme t = true) (themes w) ->
  NoDup (field "id" <$> themes w) ->
  theme_model w = true ->
  ThemeModel.delete_theme theme_id w = (Ok r, w') ->
  field "theme" p = VStr theme_id ->
  (_validate_presentation p w').1 <> Ok true.
Proof.
  intros Hv Hnd Htm Hdel Hp.
  pose proof (delete_theme_keeps_model theme_id w) as Hkeep.
  rewrite Hdel in Hkeep. simpl in Hkeep.
  destruct (List.find (has_this_id theme_id) (themes w)) as [theme|] eqn:Ef.
  2: { rewrite (delete_theme_missing w theme_id Hv Ef) in Hdel. discriminate Hdel. }
  destruct (find_Some_split _ _ _ Ef) as (l1 & l2 & El & Hs & Hl1).
  pose proof (delete_theme_themes w theme_id theme l1 l2 Hv El Hs Hl1) as Hthemes.
  rewrite Hdel in Hthemes. simpl in Hthemes.
  assert (Hids : Forall has_id_field (themes w')).
  { rewrite Hthemes. apply valid_theme_ids in Hv. rewrite El in Hv.
    apply Forall_app in Hv as [H1 H2]. apply Forall_app. split; [done|]. by inversion H2. }
  apply validate_needs_theme; [congruence|done|].
  intros i Hi. rewrite Hp in Hi. injection Hi as <-.
  rewrite Hthemes. rewrite El in Hnd. by apply (removed_id_gone theme_id theme l1 l2).
Qed.

End PresentationImports.

(** * Media: the logo, and deleting a file *)

Section MediaLookups.
Import MediaModel.

Lemma py_next_marked media_id l :
  Forall has_id_field l ->
  py_next (fun m => let? flag := py_get m "is_logo" (VBool false) in Ok (truthy flag))
    (mark_as_logo media_id <$> l)
  = Ok (mark_as_logo media_id <$> List.find (has_this_id media_id) l).
Proof.
  induction 1 as [|m l Hm Hl IH]; [done|]. csimpl.
  destruct Hm as (d & i & -> & Hi). cbn [mark_as_logo py_get].
  rewrite lookup_insert_eq. cbn [default from_option id rbind truthy].
  destruct (has_this_id media_id (VDict d)) eqn:E; [|exact IH].
  cbn [fmap option_fmap option_map mark_as_logo]. by rewrite E.
Qed.

(** Property X22: after [set_logo] has returned, [get_logo_media] returns the
    item it was called for: the first stored item with that id, which is an
    image and now carries the logo flag. *)
Theorem set_logo_then_get w media_id r w' :
  Forall has_id_field (media w) ->
  set_logo media_id w = (Ok r, w') ->
  exists m0 m,
    List.find (has_this_id media_id) (media w) = Some m0 /\
    get_logo_media w' = (Ok m, w') /\
    m = mark_as_logo media_id m0 /\
    field "id" m = VStr media_id /\
    field "category" m = VStr "Images" /\
    field "is_logo" m = VBool true.
Proof.
  intros Hids Hset. pose proof (set_logo_spec media_id w Hids) as Hspec. cbv zeta in Hspec.
  rewrite Hset in Hspec.
  destruct (List.find (has_this_id media_id) (media w)) as [m0|] eqn:Ef.
  2: { by destruct Hspec as [e He]. }
  destruct (bool_decide (field "category" m0 = VStr "Images")) eqn:Ec.
  2: { by destruct Hspec as [e He]. }
  simpl in Hspec. apply bool_decide_eq_true in Ec.
  exists m0, (mark_as_logo media_id m0). split; [done|].
  pose proof (find_some _ _ Ef) as [Hin Hid].
  assert (Hm0 : has_id_field m0).
  { rewrite Forall_forall in Hids. by apply Hids, list_elem_of_In. }
  split; [|split; [done|]].
  - unfold get_logo_media. munfold. rewrite Hspec.
    rewrite (py_next_marked media_id _ Hids). by rewrite Ef.
  - destruct Hm0 as (d & i & -> & Hi). unfold has_this_id in Hid.
    apply bool_decide_eq_true in Hid. cbn [mark_as_logo field] in *.
    rewrite lookup_insert_eq. rewrite !lookup_insert_ne by done.
    repeat split; try done.
    simpl. unfold has_this_id. simpl. by rewrite bool_decide_eq_true_2.
Qed.

Lemma media_dir_eq w dir :
  (media_dir w).1 = Ok dir -> media_dir w = (Ok dir, w).
Proof.
  unfold media_dir.
  destruct (get_setting_cases "paths" "media" (VStr "data/media") w)
    as [[v E]|[e E]]; rewrite E; simpl; congruence.
Qed.

Lemma media_file_eq w p :
  (media_file w).1 = Ok p -> media_file w = (Ok p, w).
Proof.
  unfold media_file.
  destruct (get_setting_cases "paths" "media_metadata" (VStr "data/media/media.json") w)
    as [[v E]|[e E]]; rewrite E; simpl; congruence.
Qed.

Lemma field_getitem k x s : field k x = VStr s -> py_getitem x k = Ok (VStr s).
Proof.
  destruct x as [| | | | | |d]; try discriminate. simpl.
  destruct (d !! k); simpl; [congruence|discriminate].
Qed.

Lemma save_media_ok w meta :
  (media_file w).1 = Ok (VStr meta) -> os_path_dirname meta <> "" ->
  _save_media w = (Ok tt, set_disk (<[meta := JsonFile (VList (media w))]> (disk w)) w).
Proof.
  intros Hp Hd. unfold _save_media. unfold bind at 1. rewrite (media_file_eq w _ Hp).
  munfold. simpl. unfold os_makedirs. by rewrite bool_decide_eq_false_2.
Qed.


End MediaLookups.

(** * Scripture: books, chapters, and adding and deleting a bible *)

Section ScriptureReads.
Import ScriptureModel.

Lemma is_chapter_number c :
  is_chapter c = true ->
  py_getitem c "chapter" = Ok (field "chapter" c) /\
  int_key (field "chapter" c) = Ok (number_of (field "chapter" c)).
Proof.
  destruct c as [| | | | | |d]; try discriminate. simpl.
  intros [Hn _]%andb_true_iff. apply positive_int_inv in Hn as (v & z & Hv & Hz).
  rewrite Hv. simpl. unfold int_key, number_of. by rewrite Hz.
Qed.


Lemma is_book_name b :
  is_book b = true ->
  py_getitem b "name" = Ok (field "name" b) /\ named (book_entry b).
Proof.
  destruct b as [| | | | | |d]; try discriminate. simpl.
  intros [Hn _]%andb_true_iff. apply has_text_inv in Hn as (s & Hs).
  rewrite Hs. simpl. split; [done|]. unfold book_entry. simpl. rewrite Hs. simpl.
  by apply (field_named _ s).
Qed.



End ScriptureReads.

(** * Scripture: searching the verses *)

Lemma sorted_keyed_le {K A} (le : K -> K -> bool) (k : A -> K) (l : list (K * A)) :
  Forall (fun p => p.1 = k p.2) l ->
  Sorted (le_key le) l -> Sorted (fun a b => le (k a) (k b) = true) l.*2.
Proof.
  intros Hk Hs. induction Hs as [|p l Hs IH Hhd]; csimpl; [constructor|].
  inversion Hk as [|? ? Hp Hl]; subst. constructor; [by apply IH|].
  destruct Hhd as [|q l Hpq]; simpl; constructor.
  inversion Hl as [|? ? Hq _]; subst. unfold le_key in Hpq. by rewrite <- Hp, <- Hq.
Qed.

Lemma py_sorted_total {K} (le : K -> K -> bool) (k : value -> K) key l :
  (forall a b, le a b = false -> le b a = true) ->
  Forall (fun x => key x = Ok (k x)) l ->
  exists vs, py_sorted le key l = Ok vs /\ vs ≡ₚ l /\
             Sorted (fun a b => le (k a) (k b) = true) vs.
Proof.
  intros Htotal Hk. unfold py_sorted.
  rewrite (py_map_pure _ (fun x => (k x, x))).
  2: { eapply Forall_impl; [exact Hk|]. intros x Hx; simpl. by rewrite Hx. }
  simpl. eexists; split; [done|].
  set (keyed := (fun x => (k x, x)) <$> l).
  assert (Hkeyed : Forall (fun p : K * value => p.1 = k p.2) keyed).
  { subst keyed. apply Forall_fmap, Forall_forall. done. }
  split.
  - rewrite (sort_by_perm_le le). subst keyed. by rewrite keyed_fmap.
  - apply sorted_keyed_le; [by rewrite (sort_by_perm_le le)|].
    by apply sort_by_sorted_le.
Qed.

Section ScriptureSearch.
Import ScriptureModel.

Lemma is_verse_fields v :
  is_verse v = true ->
  exists t, py_getitem v "text" = Ok (VStr t) /\ field "text" v = VStr t /\
    py_getitem v "verse" = Ok (field "verse" v) /\
    int_key (field "verse" v) = Ok (number_of (field "verse" v)).
Proof.
  destruct v as [| | | | | |d]; try discriminate. simpl.
  intros [Hn Ht]%andb_true_iff. apply positive_int_inv in Hn as (x & z & Hx & Hz).
  apply has_text_inv in Ht as (t & Ht). exists t. rewrite Ht, Hx. simpl.
  repeat split. unfold int_key, number_of. by rewrite Hz.
Qed.

Lemma verse_hit_ok q book chapter verse :
  is_book book = true -> is_chapter chapter = true -> is_verse verse = true ->
  (let? text := py_getitem verse "text" in
   let? text_lower := py_lower text in
   if str_contains q text_lower then
     let? b := py_getitem book "name" in
     let? c := py_getitem chapter "chapter" in
     let? v := py_getitem verse "verse" in
     let? t := py_getitem verse "text" in
     Ok [dict [("book", b); ("chapter", c); ("verse", v); ("text", t)]]
   else Ok [])
  = Ok (if str_contains q (lower (text_of (field "text" verse)))
        then [hit_of book chapter verse] else []).
Proof.
  intros Hb Hc Hv. destruct (is_verse_fields verse Hv) as (t & Ht & Hft & Hn & _).
  rewrite Ht, Hft. cbn [rbind py_lower text_of].
  destruct (str_contains q (lower t)); [|done].
  destruct (is_book_name book Hb) as (-> & _).
  destruct (is_chapter_number chapter Hc) as (-> & _).
  rewrite Hn. cbn [rbind]. unfold hit_of. by rewrite Hft.
Qed.

Lemma sorted_weaken {A} (R R' : A -> A -> Prop) l :
  (forall a b, R a b -> R' a b) -> Sorted R l -> Sorted R' l.
Proof.
  intros H. induction 1 as [|x l Hs IH Hhd]; constructor; [done|].
  destruct Hhd; constructor. by apply H.
Qed.

Lemma hit_key_ok book chapter verse :
  is_book book = true -> is_chapter chapter = true -> is_verse verse = true ->
  (let? b := py_getitem (hit_of book chapter verse) "book" in
   let? b := py_lower b in
   let? c := py_getitem (hit_of book chapter verse) "chapter" in
   let? c := int_key c in
   let? v := py_getitem (hit_of book chapter verse) "verse" in
   let? v := int_key v in
   Ok (b, c, v)) = Ok (hit_key (hit_of book chapter verse)).
Proof.
  intros Hb Hc Hv. destruct (is_verse_fields verse Hv) as (t & _ & _ & _ & Hn).
  destruct (is_chapter_number chapter Hc) as (_ & Hcn).
  destruct (is_book_name book Hb) as (_ & (d & n & Hd & Hdn)).
  assert (Hname : field "name" book = VStr n).
  { unfold book_entry, dict in Hd. injection Hd as <-. simpl in Hdn.
    rewrite lookup_insert_eq in Hdn. by injection Hdn. }
  unfold hit_key, hit_of, dict. cbn [py_getitem field list_to_map foldr uncurry fst snd].
  repeat (rewrite lookup_insert_eq || rewrite lookup_insert_ne by done).
  cbn [default from_option id rbind]. rewrite Hname. cbn [py_lower rbind text_of].
  rewrite Hcn. cbn [rbind]. rewrite Hn. reflexivity.
Qed.


End ScriptureSearch.

(** * Constructing a song model, and adding media *)

Section SongInit.
Import SongModel.


End SongInit.

Section MediaAdds.
Import MediaModel.

(** Property X29: what [add_media] guarantees when it returns: the record it
    returns has been appended; it carries the new id, the category given,
    which is one of the three supported ones, the display name or else the
    base name of the source, no logo flag, and a path made of the category
    and of the id followed by the extension of the source in lower case,
    which is a supported one of some category; and the source file exists. *)
Theorem add_media_stores w source_path category display_name tags scaling new_id now now' m w' :
  add_media source_path category display_name tags scaling new_id now now' w = (Ok m, w') ->
  let ext := lower (os_path_splitext source_path).2 in
  media w' = media w ++ [m] /\
  field "id" m = VStr new_id /\
  field "category" m = VStr category /\
  category ∈ ["Images"; "Videos"; "Gifs"] /\
  ext ∈ [".jpg"; ".jpeg"; ".png"; ".bmp"; ".mp4"; ".mov"; ".avi"; ".gif"] /\
  field "path" m = VStr (os_path_join category (new_id +:+ ext)) /\
  field "name" m = VStr (if bool_decide (display_name = "") then os_path_basename source_path
                         else display_name) /\
  field "is_logo" m = VBool false /\
  is_Some (disk w !! source_path).
Proof.
  intros Hadd ext. revert Hadd. unfold add_media. fold ext. unfold try_except at 1.
  unfold bind at 1.
  destruct (get_setting_cases "paths" "media" (VStr "data/media") w) as [[dir E]|[e E]];
    unfold media_dir; rewrite E; [|munfold; discriminate].
  destruct (existsb (fun formats => bool_decide (ext ∈ formats)) SUPPORTED_FORMATS.*2) eqn:Eext;
    cbn [negb]; [|munfold; discriminate].
  destruct (bool_decide (category ∈ SUPPORTED_FORMATS.*1)) eqn:Ecat;
    cbn [negb]; [|munfold; discriminate].
  cbv zeta. unfold bind at 1. unfold lift at 1.
  destruct (let? d := join dir (VStr category) in Ok (os_path_join d (new_id +:+ ext)))
    as [target|e]; [|destruct e; munfold; discriminate].
  unfold bind at 1. unfold try_except at 1. unfold bind at 1.
  destruct (os_makedirs (os_path_dirname target) w) as [[[]|e] w0] eqn:Emk;
    [|munfold; discriminate].
  assert (w0 = w) as ->.
  { unfold os_makedirs in Emk.
    destruct (bool_decide (os_path_dirname target = "")); munfold;
      [discriminate Emk|by injection Emk]. }
  unfold shutil_copy2.
  destruct (disk w !! source_path) as [f|] eqn:Esrc; [|munfold; discriminate].
  unfold bind at 1. unfold get at 1. unfold bind at 1. unfold lift at 1.
  match goal with |- context [py_any ?g ?l] => destruct (py_any g l) as [[|]|e] end.
  { unfold bind at 1.
    destruct (remove_quietly target _) as [[[]|e] w1]; [|destruct e]; munfold; discriminate. }
  2: { destruct e; munfold; discriminate. }
  match goal with |- context [_validate_media ?t] => set (rec := t) end.
  unfold bind at 1.
  match goal with |- context [_validate_media rec ?w1] =>
    pose proof (validate_media_preserves media rec w1) as Hval;
    destruct (_validate_media rec w1) as [[ok|e] w2] eqn:Ev
  end.
  2: { pose proof (failure_outer _ (set_disk (<[target:=f]> (disk w)) w) e
                     (validate_media_outer rec)) as Hs.
       unfold failure in Hs. rewrite Ev in Hs. destruct (Hs eq_refl) as (se & -> & _).
       munfold. discriminate. }
  destruct ok; cbn [negb].
  2: { unfold bind at 1.
       destruct (remove_quietly target _) as [[[]|e] w1]; [|destruct e]; munfold; discriminate. }
  unfold bind at 1. unfold append_media, modify. unfold bind at 1.
  match goal with |- context [_save_media ?w1] =>
    pose proof (save_media_preserves media w1) as Hsave;
    destruct (_save_media w1) as [[[]|e] w3]
  end.
  2: { destruct e; munfold; discriminate. }
  unfold ret. intros [= <- <-]. simpl in Hsave, Hval.
  rewrite Hsave, Hval.
  repeat split; try done.
  - apply bool_decide_eq_true in Ecat. exact Ecat.
  - apply existsb_exists in Eext as (formats & Hin & Hext).
    apply bool_decide_eq_true in Hext. simpl in Hin.
    revert Hext. rewrite !elem_of_cons, !elem_of_nil.
    destruct Hin as [<-|[<-|[<-|[]]]]; rewrite !elem_of_cons, !elem_of_nil; tauto.
Qed.

End MediaAdds.

(** * Examples of the properties above *)

Lemma run_eq {A} (r : result A * World) (a : result A) : r.1 = a -> r = (a, r.2).
Proof. destruct r as [x w]. simpl. by intros ->. Qed.









Lemma load_songs_not_a_list_witness :
  SongModel._load_songs (world_songs_file (dict [("songs", VList [])]))
  = (Raise (Sanctify (SanctifyError_init "SongModel" "LOAD_003"
       ("Error loading songs from " +:+ "data/songs/songs.json"
        +:+ ": [SongModel] LOAD_001: Songs file " +:+ "data/songs/songs.json"
        +:+ " is not a list"))),
     set_songs [] (world_songs_file (dict [("songs", VList [])]))).
Proof.
  apply (load_songs_not_a_list _ "data/songs/songs.json" (dict [("songs", VList [])])).
  - by vm_compute.
  - by vm_compute.
  - reflexivity.
Defined.



Lemma update_song_without_title_witness :
  SongModel.update_song "a" (VDict (list_to_map [("tags", VStr "hymn, advent")]))
    "2024-05-05T10:00:00" world_AB
  = (Raise (Sanctify (SanctifyError_init "SongModel" "UPDATE_004"
       "Error updating song: 'title'")), world_AB).
Proof.
  apply (update_song_without_title world_AB "a").
  - repeat (constructor; [by vm_compute|]). constructor.
  - by vm_compute.
  - by vm_compute.
Defined.

Lemma set_setting_then_get_witness :
  (SettingsManager.set_setting "appearance" "theme" (VStr "Dark") world0).1 = Ok (VBool true) /\
  get_setting "appearance" "theme" VNone
    (SettingsManager.set_setting "appearance" "theme" (VStr "Dark") world0).2
  = (Ok (VStr "Dark"), (SettingsManager.set_setting "appearance" "theme" (VStr "Dark") world0).2) /\
  emitted (SettingsManager.set_setting "appearance" "theme" (VStr "Dark") world0).2
  = emitted world0 ++ [("appearance", "theme", VStr "Dark")] /\
  restart_required (SettingsManager.set_setting "appearance" "theme" (VStr "Dark") world0).2 =
    restart_required world0
    || (bool_decide ("appearance" = "appearance")
        && (bool_decide ("theme" = "theme") || bool_decide ("theme" = "ui_font"))) /\
  disk (SettingsManager.set_setting "appearance" "theme" (VStr "Dark") world0).2
    !! config_file world0
  = Some (JsonFile (VDict (settings
      (SettingsManager.set_setting "appearance" "theme" (VStr "Dark") world0).2))) /\
  (forall s, s <> "appearance" ->
     settings (SettingsManager.set_setting "appearance" "theme" (VStr "Dark") world0).2 !! s
     = settings world0 !! s).
Proof.
  apply (set_setting_then_get world0 "appearance" "theme" (VStr "Dark") VNone).
  by vm_compute.
Defined.


Lemma settings_init_rejects_non_object_witness :
  SettingsManager.init (world_settings_file (VList [])) =
    (Raise (Sanctify (SanctifyError_init "SettingsManager" "LOAD_001"
       (("Error loading settings from " +:+ config_file (world_settings_file (VList [])) +:+ ": ")
        +:+ "'" +:+ type_name (VList []) +:+ "' object has no attribute 'items'"))),
     world_settings_file (VList [])).
Proof.
  apply (settings_init_rejects_non_object (world_settings_file (VList [])) (VList [])).
  - apply (bool_decide_unpack _). by vm_compute.
  - by vm_compute.
  - reflexivity.
Defined.


Lemma create_theme_then_get_witness :
  themes (ThemeModel.create_theme "Advent" "Songs" "Left" "#000000" "#ffffff" 20 "Arial"
            " candles " "z" "2024-05-05T10:00:00" "2024-05-05T10:00:01" world_themes).2
  = themes world_themes ++ [advent_theme] /\
  field "id" advent_theme = VStr "z" /\
  field "name" advent_theme = VStr "Advent" /\
  ThemeModel.get_theme_by_id "z"
    (ThemeModel.create_theme "Advent" "Songs" "Left" "#000000" "#ffffff" 20 "Arial"
       " candles " "z" "2024-05-05T10:00:00" "2024-05-05T10:00:01" world_themes).2
  = (Ok advent_theme,
     (ThemeModel.create_theme "Advent" "Songs" "Left" "#000000" "#ffffff" 20 "Arial"
        " candles " "z" "2024-05-05T10:00:00" "2024-05-05T10:00:01" world_themes).2).
Proof.
  apply (create_theme_then_get world_themes "Advent" "Songs" "Left" "#000000" "#ffffff" 20
           "Arial" " candles " "z" "2024-05-05T10:00:00" "2024-05-05T10:00:01").
  - apply check_ids. by vm_compute.
  - apply (bool_decide_unpack _). by vm_compute.
  - apply run_eq. vm_compute. reflexivity.
Defined.


Lemma import_from_ppt_twice_witness :
  presentations
    (PresentationModel.import_from_ppt "decks/Easter.pptx" "p2" "2024-05-05T11:00:00"
       "2024-05-05T11:00:00"
       (PresentationModel.import_from_ppt "decks/Easter.pptx" "p1" "2024-05-05T10:00:00"
          "2024-05-05T10:00:00" world0).2).2
  = presentations world0
    ++ [imported_deck "p1" "2024-05-05T10:00:00"; imported_deck "p2" "2024-05-05T11:00:00"] /\
  field "name" (imported_deck "p1" "2024-05-05T10:00:00")
  = VStr (os_path_splitext (os_path_basename "decks/Easter.pptx")).1 /\
  field "name" (imported_deck "p2" "2024-05-05T11:00:00")
  = field "name" (imported_deck "p1" "2024-05-05T10:00:00") /\
  field "id" (imported_deck "p1" "2024-05-05T10:00:00") = VStr "p1" /\
  field "id" (imported_deck "p2" "2024-05-05T11:00:00") = VStr "p2".
Proof.
  apply (import_from_ppt_twice "decks/Easter.pptx" "p1" "p2" "2024-05-05T10:00:00"
           "2024-05-05T10:00:00" "2024-05-05T11:00:00" "2024-05-05T11:00:00" world0 _
           (PresentationModel.import_from_ppt "decks/Easter.pptx" "p1" "2024-05-05T10:00:00"
              "2024-05-05T10:00:00" world0).2).
  - apply run_eq. vm_compute. reflexivity.
  - apply run_eq. vm_compute. reflexivity.
Defined.

Lemma import_from_ppt_needs_default_theme_witness :
  exists e,
    (PresentationModel.import_from_ppt "decks/Easter.pptx" "p1" "2024-05-05T10:00:00"
       "2024-05-05T10:00:00" world_theme_model).1 = Raise (Sanctify e).
Proof.
  apply (import_from_ppt_needs_default_theme "decks/Easter.pptx" "p1" "2024-05-05T10:00:00"
           "2024-05-05T10:00:00" world_theme_model).
  - reflexivity.
  - apply check_ids. by vm_compute.
  - by vm_compute.
Defined.

Lemma delete_theme_orphans_witness :
  (PresentationModel._validate_presentation (sample_presentation "p1" "easter" "x")
     (ThemeModel.delete_theme "x" world_theme_model).2).1 <> Ok true.
Proof.
  apply (delete_theme_orphans world_theme_model "x" (VBool true)).
  - repeat (constructor; [by vm_compute|]). constructor.
  - apply (bool_decide_unpack _). by vm_compute.
  - reflexivity.
  - apply run_eq. vm_compute. reflexivity.
  - by vm_compute.
Defined.

Lemma set_logo_then_get_witness :
  exists m0 m,
    List.find (has_this_id "m2") (media world_media) = Some m0 /\
    MediaModel.get_logo_media (MediaModel.set_logo "m2" world_media).2
    = (Ok m, (MediaModel.set_logo "m2" world_media).2) /\
    m = mark_as_logo "m2" m0 /\
    field "id" m = VStr "m2" /\
    field "category" m = VStr "Images" /\
    field "is_logo" m = VBool true.
Proof.
  apply (set_logo_then_get world_media "m2" (VBool true)).
  - apply check_ids. by vm_compute.
  - apply run_eq. vm_compute. reflexivity.
Defined.







Lemma add_media_stores_witness :
  media (MediaModel.add_media "data/media/Images/dove.png" "Images" "" " doves " "Fit" "m3"
           "2024-05-05T10:00:00" "2024-05-05T10:00:01" world_media).2
  = media world_media ++ [dove_copy] /\
  field "id" dove_copy = VStr "m3" /\
  field "category" dove_copy = VStr "Images" /\
  "Images" ∈ ["Images"; "Videos"; "Gifs"] /\
  lower (os_path_splitext "data/media/Images/dove.png").2
    ∈ [".jpg"; ".jpeg"; ".png"; ".bmp"; ".mp4"; ".mov"; ".avi"; ".gif"] /\
  field "path" dove_copy
  = VStr (os_path_join "Images"
            ("m3" +:+ lower (os_path_splitext "data/media/Images/dove.png").2)) /\
  field "name" dove_copy
  = VStr (if bool_decide ("" = "") then os_path_basename "data/media/Images/dove.png"
          else "") /\
  field "is_logo" dove_copy = VBool false /\
  is_Some (disk world_media !! "data/media/Images/dove.png").
Proof.
  apply (add_media_stores world_media "data/media/Images/dove.png" "Images" "" " doves " "Fit"
           "m3" "2024-05-05T10:00:00" "2024-05-05T10:00:01").
  apply run_eq. vm_compute. reflexivity.
Defined.
